(** * SARIF upload pipeline and status reporting

    A shallow embedding of [src/upload-lib.ts] and [src/actions-util.ts].

    JavaScript values are an inductive type, [process.env], the file system
    and the observable effects (log lines, HTTP requests, [core.setFailed])
    live in an explicit [World] threaded through a state-and-exception monad.
    Everything that belongs to Node, to npm packages or to modules of the
    action that are not part of the two files is a field of the [Platform]
    class.

    A JavaScript string is held as the UTF-8 encoding of its text, one
    [ascii] per byte: what [length], [trim], [parseInt] and iteration see of
    a string is read off that encoding. *)

From Stdlib Require Import ZArith Ascii String.
From stdpp Require Import base option list strings gmap pretty.

Local Open Scope Z_scope.

(** ** JavaScript values *)

(** A JS [number]. The numbers of the two files are sizes, counts, status
    codes and run ids: the finite ones are integers, held in [Z]; [NaN] and
    the two infinities are kept because [parseInt] can produce them. What is
    parsed from a text is rounded as a double is, see [to_double]. The sign
    of zero is not kept: nothing in the two files can tell [-0] from [0]. *)
Inductive number :=
  | Num (z : Z)
  | Infinity (negative : bool)
  | NaN.

(** The values [JSON.parse] can produce, plus [undefined], which is what a
    missing property reads as. An object is the list of its properties in
    insertion order. *)
#[warnings="-register-all"]
Inductive jsval :=
  | JUndefined
  | JNull
  | JBool (b : bool)
  | JNum (n : number)
  | JStr (s : string)
  | JArr (items : list jsval)
  | JObj (props : list (string * jsval)).

Inductive exn :=
  | Error (message : string)        (* [throw new Error(message)] *)
  | TypeError (message : string)    (* raised by the JS runtime *)
  | SystemError (message : string). (* raised by a collaborator *)

Inductive Res (A : Type) :=
  | Ok (a : A)
  | Throw (e : exn).
Arguments Ok {A} a.
Arguments Throw {A} e.

#[global] Instance Res_ret : MRet Res := λ A a, Ok a.
#[global] Instance Res_bind : MBind Res := λ A B f r,
  match r with Ok a => f a | Throw e => Throw e end.

Definition number_add (a b : number) : number :=
  match a, b with
  | Num x, Num y => Num (x + y)
  | Infinity s, Num _ | Num _, Infinity s => Infinity s
  | Infinity s, Infinity t => if bool_decide (s = t) then Infinity s else NaN
  | _, _ => NaN
  end.

Definition number_to_string (n : number) : string :=
  match n with
  | Num z => pretty z
  | Infinity false => "Infinity"
  | Infinity true => "-Infinity"
  | NaN => "NaN"
  end.

Fixpoint join (sep : string) (parts : list string) : string :=
  match parts with
  | [] => ""
  | [p] => p
  | p :: rest => p +:+ sep +:+ join sep rest
  end.

(** [String(v)], which is also what a template literal applies to [v]. *)
Fixpoint toString (v : jsval) : string :=
  match v with
  | JUndefined => "undefined"
  | JNull => "null"
  | JBool true => "true"
  | JBool false => "false"
  | JNum n => number_to_string n
  | JStr s => s
  | JArr items =>
      join "," (map (λ x, match x with
                          | JUndefined | JNull => ""
                          | _ => toString x
                          end) items)
  | JObj _ => "[object Object]"
  end.

(** [a === b] for two values that were not obtained from the same object
    reference: primitives compare by value, [NaN] differs from itself, and two
    distinct arrays or objects are never identical. *)
Definition strict_equal (a b : jsval) : bool :=
  match a, b with
  | JUndefined, JUndefined => true
  | JNull, JNull => true
  | JBool x, JBool y => bool_decide (x = y)
  | JNum (Num x), JNum (Num y) => bool_decide (x = y)
  | JNum (Infinity x), JNum (Infinity y) => bool_decide (x = y)
  | JStr x, JStr y => bool_decide (x = y)
  | _, _ => false
  end.

Fixpoint assoc (k : string) (props : list (string * jsval)) : option jsval :=
  match props with
  | [] => None
  | (k', v) :: rest => if decide (k = k') then Some v else assoc k rest
  end.

(** The UTF-16 code units that the character starting at the byte [c]
    takes: none for a byte that continues a character, two for the first byte
    of a four-byte encoding (a character outside the basic plane, which
    UTF-16 writes as a surrogate pair), one otherwise. *)
Definition code_units (c : ascii) : nat :=
  let n := nat_of_ascii c in
  if (n <? 128)%nat then 1%nat
  else if (n <? 192)%nat then 0%nat
  else if (n <? 240)%nat then 1%nat
  else 2%nat.

(** [s.length]: the number of UTF-16 code units of [s], which is neither
    its number of bytes nor its number of characters. *)
Fixpoint js_length (s : string) : nat :=
  match s with
  | EmptyString => 0%nat
  | String c rest => (code_units c + js_length rest)%nat
  end.

Definition string_length (s : string) : number := Num (Z.of_nat (js_length s)).

(** [o.k] (or [o[k]]) for a property name [k]. Reading from [null] or
    [undefined] throws; strings and arrays have a [length]; anything that is
    not there reads as [undefined]. The names read by the two files are
    [version], [runs], [results], [length], [workflow_url] and [path]: the
    indices of arrays and strings and the properties every object inherits
    are not needed and not modelled. *)
Definition get_prop (o : jsval) (k : string) : Res jsval :=
  match o with
  | JUndefined =>
      Throw (TypeError ("Cannot read property '" +:+ k +:+ "' of undefined"))
  | JNull =>
      Throw (TypeError ("Cannot read property '" +:+ k +:+ "' of null"))
  | JObj props => Ok (default JUndefined (assoc k props))
  | JArr items =>
      if decide (k = "length") then Ok (JNum (Num (Z.of_nat (length items))))
      else Ok JUndefined
  | JStr s =>
      if decide (k = "length") then Ok (JNum (string_length s))
      else Ok JUndefined
  | _ => Ok JUndefined
  end.

(** The bytes that continue a character at the head of [s], and the
    characters that follow them. *)
Fixpoint split_chars (s : string) : string * list string :=
  match s with
  | EmptyString => (EmptyString, [])
  | String c rest =>
      let '(continued, cs) := split_chars rest in
      if (code_units c =? 0)%nat then (String c continued, cs)
      else (EmptyString, String c continued :: cs)
  end.

(** The characters of [s], each a string, as the iterator of a string gives
    them. *)
Definition chars (s : string) : list jsval := map JStr (split_chars s).2.

(** The elements produced by iterating [v], as [for ... of] and the spread
    syntax do. *)
Definition iterate (v : jsval) : Res (list jsval) :=
  match v with
  | JArr items => Ok items
  | JStr s => Ok (chars s)
  | _ => Throw (TypeError (toString v +:+ " is not iterable"))
  end.

Definition to_primitive (v : jsval) : jsval :=
  match v with
  | JArr _ | JObj _ => JStr (toString v)
  | _ => v
  end.

Definition to_number (v : jsval) : number :=
  match v with
  | JNum n => n
  | JNull => Num 0
  | JBool true => Num 1
  | JBool false => Num 0
  | _ => NaN
  end.

(** [a + b]: string concatenation as soon as one side is (or converts to) a
    string, numeric addition otherwise. *)
Definition js_add (a b : jsval) : jsval :=
  match to_primitive a, to_primitive b with
  | JStr x, pb => JStr (x +:+ toString pb)
  | pa, JStr y => JStr (toString pa +:+ y)
  | pa, pb => JNum (number_add (to_number pa) (to_number pb))
  end.

(** Truthiness of an optional string, as in [if (process.env[name])]. *)
Definition truthy (v : option string) : bool :=
  match v with
  | Some s => negb (bool_decide (s = ""))
  | None => false
  end.

(** ** String helpers *)

Definition endsWith (s suffix : string) : bool :=
  let n := String.length s in
  let m := String.length suffix in
  if (m <=? n)%nat then bool_decide (String.substring (n - m) m s = suffix)
  else false.

(** [s.split(sep)] for a one-character separator. *)
Fixpoint split (sep : ascii) (s : string) : list string :=
  match s with
  | EmptyString => [EmptyString]
  | String c rest =>
      if decide (c = sep) then EmptyString :: split sep rest
      else match split sep rest with
           | [] => [String c EmptyString]
           | p :: ps => String c p :: ps
           end
  end.

Definition strip_prefix (p s : string) : option string :=
  if String.prefix p s
  then Some (String.substring (String.length p) (String.length s - String.length p) s)
  else None.

Definition strip_suffix (p s : string) : option string :=
  if endsWith s p
  then Some (String.substring 0 (String.length s - String.length p) s)
  else None.

Definition utf8 (bytes : list nat) : string :=
  string_of_list_ascii (map ascii_of_nat bytes).

(** The white space and the line terminators of ECMAScript, which are what
    [trim] removes and what [parseInt] skips: the six of ASCII, the no-break
    space, the byte order mark, the two Unicode line separators and the
    characters of the category [Zs]. *)
Definition white_space : list string :=
  map utf8
    [[9]; [10]; [11]; [12]; [13]; [32];          (* TAB LF VT FF CR SP *)
     [194; 160];                                  (* U+00A0 *)
     [225; 154; 128];                             (* U+1680 *)
     [226; 128; 128]; [226; 128; 129];            (* U+2000 to U+200A *)
     [226; 128; 130]; [226; 128; 131];
     [226; 128; 132]; [226; 128; 133];
     [226; 128; 134]; [226; 128; 135];
     [226; 128; 136]; [226; 128; 137];
     [226; 128; 138];
     [226; 128; 168]; [226; 128; 169];            (* U+2028, U+2029 *)
     [226; 128; 175];                             (* U+202F *)
     [226; 129; 159];                             (* U+205F *)
     [227; 128; 128];                             (* U+3000 *)
     [239; 187; 191]]%nat.                        (* U+FEFF *)

(** [s] without the white-space character it starts with, or ends with. *)
Definition drop_space (s : string) : option string :=
  head (omap (λ sp, strip_prefix sp s) white_space).

Definition drop_space_end (s : string) : option string :=
  head (omap (λ sp, strip_suffix sp s) white_space).

(** [drop] applied as long as it applies, at most [fuel] times; each
    application shortens the string, so that its length is fuel enough. *)
Fixpoint strip_while (drop : string → option string) (fuel : nat)
    (s : string) : string :=
  match fuel with
  | O => s
  | S fuel' =>
      match drop s with
      | Some rest => strip_while drop fuel' rest
      | None => s
      end
  end.

Definition trimStart (s : string) : string :=
  strip_while drop_space (String.length s) s.

Definition trimEnd (s : string) : string :=
  strip_while drop_space_end (String.length s) s.

Definition trim (s : string) : string := trimEnd (trimStart s).

Definition is_digit (c : ascii) : bool :=
  let n := nat_of_ascii c in ((48 <=? n) && (n <=? 57))%nat.

Fixpoint span_digits (s : string) : string * string :=
  match s with
  | String c rest =>
      if is_digit c then let '(d, r) := span_digits rest in (String c d, r)
      else (EmptyString, s)
  | EmptyString => (EmptyString, EmptyString)
  end.

Fixpoint digits_value (s : string) (acc : Z) : Z :=
  match s with
  | String c rest => digits_value rest (10 * acc + (Z.of_nat (nat_of_ascii c) - 48))
  | EmptyString => acc
  end.

(** The Number value for the integer [z]: the double nearest to it, ties
    going to the even mantissa. An integer of at most 53 bits is a double;
    of a longer one the bits below the 53rd are rounded away; and from
    2^1024 - 2^970 on the result is an infinity. *)
Definition to_double (z : Z) : number :=
  let m := Z.abs z in
  let drop := Z.log2 m - 52 in
  if drop <=? 0 then Num z
  else
    let q := Z.shiftr m drop in
    let r := Z.land m (Z.ones drop) in
    let half := Z.shiftl 1 (drop - 1) in
    let q' := if (r <? half) || (r =? half) && Z.even q then q else q + 1 in
    let v := Z.shiftl q' drop in
    if Z.shiftl 1 1024 <=? v then Infinity (z <? 0)
    else Num (if z <? 0 then - v else v).

(** [parseInt(s, 10)]: leading white space, an optional sign, then the longest
    run of decimal digits, whose value is returned as a double; [NaN] when
    there is no digit. *)
Definition parseInt (s : string) : number :=
  let '(negative, body) :=
    match trimStart s with
    | String "-" r => (true, r)
    | String "+" r => (false, r)
    | r => (false, r)
    end in
  match span_digits body with
  | (EmptyString, _) => NaN
  | (d, _) => to_double (if negative then - digits_value d 0 else digits_value d 0)
  end.

(** One attempt of [/refs\/pull\/(\d+)\/merge/] at the start of [s]: the
    digits captured and the text after the match. The digit run is maximal,
    and giving digits back cannot help since the next character must be [/]. *)
Definition pull_ref_regex_here (s : string) : option (string * string) :=
  r ← strip_prefix "refs/pull/" s;
  let '(digits, r') := span_digits r in
  if bool_decide (digits = "") then None
  else after ← strip_prefix "/merge" r'; Some (digits, after).

(** The leftmost match of the regular expression in [s]: the text before it,
    the captured digits, the text after it. *)
Fixpoint pull_ref_regex (s : string) : option (string * string * string) :=
  match pull_ref_regex_here s with
  | Some (digits, after) => Some (EmptyString, digits, after)
  | None =>
      match s with
      | EmptyString => None
      | String c rest =>
          '(before, digits, after) ← pull_ref_regex rest;
          Some (String c before, digits, after)
      end
  end.

(** [toUpperCase], within ASCII. *)
Definition upper (c : ascii) : ascii :=
  let n := nat_of_ascii c in
  if ((97 <=? n) && (n <=? 122))%nat then ascii_of_nat (n - 32) else c.

(** [name.replace(/ /g, '_').toUpperCase()] *)
Fixpoint input_name (name : string) : string :=
  match name with
  | EmptyString => EmptyString
  | String c rest =>
      String (if decide (c = " "%char) then "_"%char else upper c) (input_name rest)
  end.

(** ** The world around the action *)

Inductive fsnode :=
  | File (content : string)
  | Dir (entries : list string).

(** Modelled from the spec: [util.Mode] is declared in [./util], which is not
    among the two files; the spec names its two values, the [actions] mode
    and the [standalone] mode. *)
Inductive Mode := actions | standalone.

Inductive Client :=
  | ApiClient (githubAuth githubUrl : string) (mode : Mode)
  | ActionsApiClient.

Record Response := { status : Z; data : jsval }.

Record RepositoryNwo := { owner : string; repo : string }.

(** Observable effects, newest first in [trace]. *)
Inductive Event :=
  | Info (msg : string)
  | Debug (msg : string)
  | StartGroup (name : string)
  | EndGroup
  | SetFailed (msg : string)
  | Request (client : Client) (route : string) (params : list (string * jsval))
  | GitRevParse.

Record World := {
  env : gmap string string;   (* process.env, as exported to later steps *)
  fs : gmap string fsnode;
  now : Z;                    (* the clock read by [new Date()] *)
  trace : list Event;
}.

Record ValidationError := { stack : string; details : string }.

Module Report.

Inductive ActionName := init | autobuild | finish | upload_sarif.
Inductive ActionStatus := starting | aborted | success | failure.

#[global] Instance ActionStatus_eq_dec : EqDecision ActionStatus.
Proof. solve_decision. Defined.

(** [StatusReportBase]; an optional property that was not set is [None]. *)
Record StatusReportBase := {
  workflow_run_id : number;
  workflow_name : string;
  job_name : string;
  analysis_key : string;
  matrix_vars : option string;
  commit_oid : string;
  ref : string;
  action_name : ActionName;
  action_oid : string;
  started_at : string;
  action_started_at : string;
  completed_at : option string;
  status : ActionStatus;
  cause : option string;
  exception : option string;
}.

End Report.

(** What the two files take from Node, from npm packages and from the other
    modules of the action. *)
Class Platform := {
  JSON_parse : string → Res jsval;
  JSON_stringify : jsval → string;
  (* [new jsonschema.Validator().validate(sarif, schema).errors] for the
     bundled SARIF 2.1.0 schema; [details] is [JSON.stringify(error, null, 2)] *)
  jsonschema_validate : jsval → list ValidationError;
  (* ./fingerprints: the enriched text, or what it throws; what it logs is
     left out *)
  addFingerprints : string → string → Res string;
  gzipSync : string → list Byte.byte;               (* zlib *)
  toString_base64 : list Byte.byte → string;        (* Buffer.toString("base64") *)
  fileUrl : string → string;                        (* file-url *)
  getToolNames : string → Res (list string);        (* ./util *)
  path_resolve : string → string → string;          (* path.resolve *)
  toISOString : Z → string;                         (* Date.prototype.toISOString *)
  js_Number : string → number;                      (* Number(string) *)
  git_rev_parse_HEAD : Res string;                  (* stdout of the git call *)
  api_request : Client → string → list (string * jsval) → Res Response;
  isLocalRun : gmap string string → bool;           (* ./util, reads process.env *)
  GITHUB_DOTCOM_URL : string;                       (* ./util *)
  CODEQL_WORKFLOW_STARTED_AT : string;              (* ./shared-environment *)
}.

(** ** State and exceptions *)

Definition M (A : Type) : Type := World → Res A * World.

#[global] Instance M_ret : MRet M := λ A a w, (Ok a, w).
#[global] Instance M_bind : MBind M := λ A B f m w,
  match m w with
  | (Ok a, w') => f a w'
  | (Throw e, w') => (Throw e, w')
  end.

Definition throw {A} (e : exn) : M A := λ w, (Throw e, w).
Definition lift {A} (r : Res A) : M A := λ w, (r, w).

(** The world after one more observable effect. *)
Definition record_event (e : Event) (w : World) : World :=
  {| env := env w; fs := fs w; now := now w; trace := e :: trace w |}.

(** The world after [process.env[name]] was given the value [value] ([None]:
    the variable is not set). *)
Definition with_var (name : string) (value : option string) (w : World) : World :=
  {| env := partial_alter (λ _, value) name (env w); fs := fs w; now := now w;
     trace := trace w |}.

Definition emit (e : Event) : M unit := λ w, (Ok (), record_event e w).
Definition getenv (name : string) : M (option string) := λ w, (Ok (env w !! name), w).
Definition setenv (name value : string) : M unit := λ w,
  (Ok (), with_var name (Some value) w).

(** A body that has nothing to return: [when c m] is [if (c) { m }]. *)
Definition when (c : bool) (m : M unit) : M unit := if c then m else mret ().

Fixpoint for_of {A} (xs : list A) (body : A → M unit) : M unit :=
  match xs with
  | [] => mret ()
  | x :: rest => body x;; for_of rest body
  end.

Section Action.
Context `{Platform}.

(** ** Node and [@actions/core] primitives *)

Definition readFileSync (path : string) : M string := λ w,
  match fs w !! path with
  | Some (File content) => (Ok content, w)
  | Some (Dir _) =>
      (Throw (SystemError ("EISDIR: illegal operation on a directory, read " +:+ path)), w)
  | None =>
      (Throw (SystemError ("ENOENT: no such file or directory, open " +:+ path)), w)
  end.

Definition existsSync (path : string) : M bool := λ w,
  (Ok (bool_decide (is_Some (fs w !! path))), w).

Definition isDirectory (path : string) : M bool := λ w,
  match fs w !! path with
  | Some (Dir _) => (Ok true, w)
  | Some (File _) => (Ok false, w)
  | None => (Throw (SystemError ("ENOENT: no such file or directory, lstat " +:+ path)), w)
  end.

Definition readdirSync (path : string) : M (list string) := λ w,
  match fs w !! path with
  | Some (Dir entries) => (Ok entries, w)
  | Some (File _) => (Throw (SystemError ("ENOTDIR: not a directory, scandir " +:+ path)), w)
  | None => (Throw (SystemError ("ENOENT: no such file or directory, scandir " +:+ path)), w)
  end.

(** [core.exportVariable]: sets [process.env] for this step and for the
    following steps of the job. *)
Definition exportVariable (name value : string) : M unit := setenv name value.

Definition request (client : Client) (route : string)
    (params : list (string * jsval)) : M Response :=
  emit (Request client route params);;
  lift (api_request client route params).

(** ** upload-lib.ts *)

(** The body of the loop of [combineSarifFiles], iterated over the remaining
    files; [version] and [runs] are the two fields of [combinedSarif]. *)
Fixpoint combineSarifFiles_loop (sarifFiles : list string)
    (version : jsval) (runs : list jsval) : M (jsval * list jsval) :=
  match sarifFiles with
  | [] => mret (version, runs)
  | sarifFile :: rest =>
      text ← readFileSync sarifFile;
      sarifObject ← lift (JSON_parse text);
      objVersion ← lift (get_prop sarifObject "version");
      version' ←
        (if strict_equal version JNull then mret objVersion
         else if negb (strict_equal version objVersion) then
           throw (Error ("Different SARIF versions encountered: "
                         +:+ toString version +:+ " and " +:+ toString objVersion))
         else mret version);
      objRuns ← lift (get_prop sarifObject "runs" ≫= iterate);
      combineSarifFiles_loop rest version' (runs ++ objRuns)
  end.

Definition combineSarifFiles (sarifFiles : list string) : M string :=
  '(version, runs) ← combineSarifFiles_loop sarifFiles JNull [];
  mret (JSON_stringify (JObj [("version", version); ("runs", JArr runs)])).

Definition uploadPayload (payload : string) (repositoryNwo : RepositoryNwo)
    (githubAuth githubUrl : string) (mode : Mode) : M unit :=
  emit (Info "Uploading results");;
  (* If in test mode we don't want to upload the results *)
  flag ← getenv "TEST_MODE";
  let testMode := bool_decide (flag = Some "true") || false in
  if testMode then mret ()
  else
    let client := ApiClient githubAuth githubUrl mode in
    let reqURL :=
      match mode with
      | actions => "PUT /repos/:owner/:repo/code-scanning/analysis"
      | standalone => "POST /repos/:owner/:repo/code-scanning/sarifs"
      end in
    response ← request client reqURL
      [("owner", JStr (owner repositoryNwo));
       ("repo", JStr (repo repositoryNwo));
       ("data", JStr payload)];
    emit (Debug ("response status: " +:+ pretty (status response)));;
    emit (Info "Successfully uploaded results").

Record UploadStatusReport := {
  raw_upload_size_bytes : number;
  zipped_upload_size_bytes : number;
  num_results_in_sarif : jsval;
}.

Fixpoint countResultsInSarif_loop (runs : list jsval) (numResults : jsval)
    : Res jsval :=
  match runs with
  | [] => Ok numResults
  | run :: rest =>
      results ← get_prop run "results";
      len ← get_prop results "length";
      countResultsInSarif_loop rest (js_add numResults len)
  end.

(** Counts the number of results in the given SARIF file. *)
Definition countResultsInSarif (sarif : string) : Res jsval :=
  doc ← JSON_parse sarif;
  runs ← get_prop doc "runs" ≫= iterate;
  countResultsInSarif_loop runs (JNum (Num 0)).

Definition dquote : string := String (ascii_of_nat 34) EmptyString.
Definition newline : string := String (ascii_of_nat 10) EmptyString.

(** Validates that the given file path refers to a valid SARIF file. *)
Definition validateSarifFileSchema (sarifFilePath : string) : M unit :=
  text ← readFileSync sarifFilePath;
  sarif ← lift (JSON_parse text);
  match jsonschema_validate sarif with
  | [] => mret ()
  | errors =>
      for_of errors (λ error,
        emit (StartGroup ("Error details: " +:+ stack error));;
        emit (Info (details error));;
        emit EndGroup);;
      let sarifErrors := map (λ e, "- " +:+ stack e) errors in
      throw (Error ("Unable to upload " +:+ dquote +:+ sarifFilePath +:+ dquote
                    +:+ " as it is not valid SARIF:" +:+ newline
                    +:+ join newline sarifErrors))
  end.

Definition optional (v : option string) : jsval :=
  match v with Some s => JStr s | None => JUndefined end.

Definition optional_number (v : option number) : jsval :=
  match v with Some n => JNum n | None => JUndefined end.

(** [toolNames[0]] *)
Definition first_tool (toolNames : list string) : jsval :=
  match toolNames with t :: _ => JStr t | [] => JUndefined end.

(** The object literal that [uploadFiles] serialises as the request body. *)
Definition uploadFiles_payload (mode : Mode) (commitOid ref : string)
    (analysisKey analysisName : option string) (workflowRunID : option number)
    (environment started_at : option string)
    (zipped_sarif checkoutURI : string) (toolNames : list string) : jsval :=
  match mode with
  | actions =>
      JObj [("commit_oid", JStr commitOid);
            ("ref", JStr ref);
            ("analysis_key", optional analysisKey);
            ("analysis_name", optional analysisName);
            ("sarif", JStr zipped_sarif);
            ("workflow_run_id", optional_number workflowRunID);
            ("checkout_uri", JStr checkoutURI);
            ("environment", optional environment);
            ("started_at", optional started_at);
            ("tool_names", JArr (map JStr toolNames))]
  | standalone =>
      JObj [("commit_sha", JStr commitOid);
            ("ref", JStr ref);
            ("sarif", JStr zipped_sarif);
            ("checkout_uri", JStr checkoutURI);
            ("tool_name", first_tool toolNames)]
  end.

Definition sentinelEnvVar : string := "CODEQL_UPLOAD_SARIF".

Definition only_one_upload : exn :=
  Error "Aborting upload: only one run of the codeql/analyze or codeql/upload-sarif actions is allowed per job".

(** The single-upload check at the head of [uploadFiles]. *)
Definition uploadFiles_guard (mode : Mode) : M unit :=
  match mode with
  | actions =>
      (* This check only works on actions as env vars don't persist between
         calls to the runner *)
      sentinel ← getenv sentinelEnvVar;
      if truthy sentinel then throw only_one_upload
      else exportVariable sentinelEnvVar sentinelEnvVar
  | standalone => mret ()
  end.

(** Uploads the given set of sarif files. *)
Definition uploadFiles (sarifFiles : list string) (repositoryNwo : RepositoryNwo)
    (commitOid ref : string) (analysisKey analysisName : option string)
    (workflowRunID : option number) (checkoutPath : string)
    (environment : option string) (githubAuth githubUrl : string)
    (mode : Mode) : M UploadStatusReport :=
  emit (Info ("Uploading sarif files: "
              +:+ JSON_stringify (JArr (map JStr sarifFiles))));;
  uploadFiles_guard mode;;
  (* Validate that the files we were asked to upload are all valid SARIF files *)
  for_of sarifFiles validateSarifFileSchema;;
  combined ← combineSarifFiles sarifFiles;
  sarifPayload ← lift (addFingerprints combined checkoutPath);
  let zipped_sarif := toString_base64 (gzipSync sarifPayload) in
  let checkoutURI := fileUrl checkoutPath in
  toolNames ← lift (getToolNames sarifPayload);
  started_at ←
    match mode with
    | actions => getenv CODEQL_WORKFLOW_STARTED_AT
    | standalone => mret None
    end;
  let payload :=
    JSON_stringify
      (uploadFiles_payload mode commitOid ref analysisKey analysisName
         workflowRunID environment started_at zipped_sarif checkoutURI toolNames) in
  (* Log some useful debug info about the info *)
  let rawUploadSizeBytes := string_length sarifPayload in
  emit (Debug ("Raw upload size: " +:+ number_to_string rawUploadSizeBytes +:+ " bytes"));;
  let zippedUploadSizeBytes := string_length zipped_sarif in
  emit (Debug ("Base64 zipped upload size: "
               +:+ number_to_string zippedUploadSizeBytes +:+ " bytes"));;
  numResultInSarif ← lift (countResultsInSarif sarifPayload);
  emit (Debug ("Number of results in upload: " +:+ toString numResultInSarif));;
  (* Make the upload *)
  uploadPayload payload repositoryNwo githubAuth githubUrl mode;;
  mret {| raw_upload_size_bytes := rawUploadSizeBytes;
          zipped_upload_size_bytes := zippedUploadSizeBytes;
          num_results_in_sarif := numResultInSarif |}.

(** Uploads a single sarif file or a directory of sarif files depending on
    what the path happens to refer to. *)
Definition upload (sarifPath : string) (repositoryNwo : RepositoryNwo)
    (commitOid ref : string) (analysisKey analysisName : option string)
    (workflowRunID : option number) (checkoutPath : string)
    (environment : option string) (githubAuth githubUrl : string)
    (mode : Mode) : M UploadStatusReport :=
  found ← existsSync sarifPath;
  when (negb found) (throw (Error ("Path does not exist: " +:+ sarifPath)));;
  isDir ← isDirectory sarifPath;
  sarifFiles ←
    (if isDir : bool then
       entries ← readdirSync sarifPath;
       let paths := map (path_resolve sarifPath)
                        (filter (λ f, endsWith f ".sarif" = true) entries) in
       if bool_decide (length paths = 0%nat) then
         throw (Error ("No SARIF files found to upload in " +:+ dquote
                       +:+ sarifPath +:+ dquote +:+ "."))
       else mret paths
     else mret [sarifPath]);
  uploadFiles sarifFiles repositoryNwo commitOid ref analysisKey analysisName
    workflowRunID checkoutPath environment githubAuth githubUrl mode.

(** ** actions-util.ts *)

(** [core.getInput(name, { required })] of [@actions/core]. *)
Definition getInput (name : string) (required : bool) : M string :=
  v ← getenv ("INPUT_" +:+ input_name name);
  let val := default "" v in
  if required && bool_decide (val = "") then
    throw (Error ("Input required and not supplied: " +:+ name))
  else mret (trim val).

Definition getRequiredInput (name : string) : M string := getInput name true.


(** Get an environment parameter, but throw an error if it is not set. *)
Definition getRequiredEnvParam (paramName : string) : M string :=
  value ← getenv paramName;
  match value with
  | Some v =>
      if bool_decide (String.length v = 0%nat) then
        throw (Error (paramName +:+ " environment variable must be set"))
      else emit (Debug (paramName +:+ "=" +:+ v));; mret v
  | None => throw (Error (paramName +:+ " environment variable must be set"))
  end.

(** Ensures all required environment variables are set in the context of a
    local run. *)
Definition prepareLocalRunEnvironment : M unit :=
  vars ← (λ w, (Ok (env w), w));
  if negb (isLocalRun vars) then mret ()
  else
    emit (Debug "Action is running locally.");;
    job ← getenv "GITHUB_JOB";
    when (negb (truthy job)) (exportVariable "GITHUB_JOB" "UNKNOWN-JOB");;
    key ← getenv "CODEQL_ACTION_ANALYSIS_KEY";
    when (negb (truthy key))
      (job' ← getenv "GITHUB_JOB";
       exportVariable "CODEQL_ACTION_ANALYSIS_KEY"
         ("LOCAL-RUN:" +:+ toString (optional job'))).

(** [`${e}`] for a caught exception. *)
Definition exn_to_string (e : exn) : string :=
  match e with
  | Error m | SystemError m => "Error: " +:+ m
  | TypeError m => "TypeError: " +:+ m
  end.

(** Gets the SHA of the commit that is currently checked out. *)
Definition getCommitOid : M string :=
  emit GitRevParse;;
  match git_rev_parse_HEAD with
  | Ok commitOid => mret (trim commitOid)
  | Throw e =>
      emit (Info ("Failed to call git to get current commit. Continuing with data from environment: "
                  +:+ exn_to_string e));;
      getRequiredEnvParam "GITHUB_SHA"
  end.

(** [parts[i]] of a [split] result. *)
Definition part (parts : list string) (i : nat) : jsval :=
  optional (parts !! i).

(** Get the path of the currently executing workflow. *)
Definition getWorkflowPath : M jsval :=
  nwo ← getRequiredEnvParam "GITHUB_REPOSITORY";
  let repo_nwo := split "/" nwo in
  run_id_str ← getRequiredEnvParam "GITHUB_RUN_ID";
  let run_id := js_Number run_id_str in
  runsResponse ← request ActionsApiClient
    "GET /repos/:owner/:repo/actions/runs/:run_id"
    [("owner", part repo_nwo 0); ("repo", part repo_nwo 1);
     ("run_id", JNum run_id)];
  workflowUrl ← lift (get_prop (data runsResponse) "workflow_url");
  workflowResponse ← request ActionsApiClient ("GET " +:+ toString workflowUrl) [];
  lift (get_prop (data workflowResponse) "path").

(** Get the workflow run ID. *)
Definition getWorkflowRunID : M number :=
  s ← getRequiredEnvParam "GITHUB_RUN_ID";
  match parseInt s with
  | NaN => throw (Error "GITHUB_RUN_ID must define a non NaN workflow run ID")
  | workflowRunID => mret workflowRunID
  end.

(** Get the analysis key parameter for the current job. *)
Definition getAnalysisKey : M string :=
  let analysisKeyEnvVar := "CODEQL_ACTION_ANALYSIS_KEY" in
  cached ← getenv analysisKeyEnvVar;
  match cached with
  | Some analysisKey => mret analysisKey
  | None =>
      workflowPath ← getWorkflowPath;
      jobName ← getRequiredEnvParam "GITHUB_JOB";
      let analysisKey := toString workflowPath +:+ ":" +:+ jobName in
      exportVariable analysisKeyEnvVar analysisKey;;
      mret analysisKey
  end.

(** Get the ref currently being analyzed. *)
Definition getRef : M string :=
  ref ← getRequiredEnvParam "GITHUB_REF";
  checkoutSha ← getCommitOid;
  match pull_ref_regex ref with
  | Some (before, digits, after) =>
      sha ← getRequiredEnvParam "GITHUB_SHA";
      if negb (bool_decide (checkoutSha = sha)) then
        mret (before +:+ "refs/pull/" +:+ digits +:+ "/head" +:+ after)
      else mret ref
  | None => mret ref
  end.

(** [if (v)] on an optional string: the value when it is set and not empty. *)
Definition if_set (v : option string) : option string :=
  if truthy v then v else None.

(** [status === "success" || status === "failure" || status === "aborted"] *)
Definition is_terminal (status : Report.ActionStatus) : bool :=
  bool_decide (status = Report.success)
  || bool_decide (status = Report.failure)
  || bool_decide (status = Report.aborted).

Definition new_Date : M Z := λ w, (Ok (now w), w).

(** Compose a StatusReport. *)
Definition createStatusReportBase (actionName : Report.ActionName)
    (status : Report.ActionStatus) (actionStartedAt : Z)
    (cause exception : option string) : M Report.StatusReportBase :=
  sha ← getenv "GITHUB_SHA";
  let commitOid := default "" sha in
  ref ← getRef;
  workflowRunIDStr ← getenv "GITHUB_RUN_ID";
  let workflowRunID :=
    if truthy workflowRunIDStr then parseInt (default "" workflowRunIDStr)
    else Num (-1) in
  workflow ← getenv "GITHUB_WORKFLOW";
  let workflowName := default "" workflow in
  job ← getenv "GITHUB_JOB";
  let jobName := default "" job in
  analysis_key ← getAnalysisKey;
  recorded ← getenv CODEQL_WORKFLOW_STARTED_AT;
  workflowStartedAt ←
    match recorded with
    | Some t => mret t
    | None =>
        let t := toISOString actionStartedAt in
        exportVariable CODEQL_WORKFLOW_STARTED_AT t;; mret t
    end;
  (* Add optional parameters *)
  completed ←
    (if is_terminal status then d ← new_Date; mret (Some (toISOString d))
     else mret None);
  matrix ← getRequiredInput "matrix";
  mret {| Report.workflow_run_id := workflowRunID;
          Report.workflow_name := workflowName;
          Report.job_name := jobName;
          Report.analysis_key := analysis_key;
          Report.commit_oid := commitOid;
          Report.ref := ref;
          Report.action_name := actionName;
          Report.action_oid := "unknown";
          Report.started_at := workflowStartedAt;
          Report.action_started_at := toISOString actionStartedAt;
          Report.status := status;
          Report.cause := if_set cause;
          Report.exception := if_set exception;
          Report.completed_at := completed;
          Report.matrix_vars := if_set (Some matrix) |}.

(** Send a status report to the code_scanning/analysis/status endpoint.
    [statusReport] is any object extending [StatusReportBase]. *)
Definition sendStatusReport (statusReport : jsval)
    (ignoreFailures : option bool) : M bool :=
  server ← getRequiredEnvParam "GITHUB_SERVER_URL";
  if negb (bool_decide (server = GITHUB_DOTCOM_URL)) then
    emit (Debug "Not sending status report to GitHub Enterprise");; mret true
  else
    vars ← (λ w, (Ok (env w), w));
    if isLocalRun vars then
      emit (Debug "Not sending status report because this is a local run");;
      mret true
    else
      let statusReportJSON := JSON_stringify statusReport in
      emit (Debug ("Sending status report: " +:+ statusReportJSON));;
      nwo ← getRequiredEnvParam "GITHUB_REPOSITORY";
      let parts := split "/" nwo in
      statusResponse ← request ActionsApiClient
        "PUT /repos/:owner/:repo/code-scanning/analysis/status"
        [("owner", part parts 0); ("repo", part parts 1);
         ("data", JStr statusReportJSON)];
      if negb (default false ignoreFailures) then
        if bool_decide (status statusResponse = 403) then
          emit (SetFailed "The repo on which this action is running is not opted-in to CodeQL code scanning.");;
          mret false
        else if bool_decide (status statusResponse = 404) then
          emit (SetFailed "Not authorized to used the CodeQL code scanning feature on this repo.");;
          mret false
        else mret true
      else mret true.

(** ** Vocabulary of the statements *)

(** [sarifFile] holds the text of a SARIF document: a JSON object with a
    string [version] and an array of [runs]. *)
Definition holds_sarif (w : World) (sarifFile version : string)
    (runs : list jsval) : Prop :=
  ∃ text sarifObject,
    fs w !! sarifFile = Some (File text)
    ∧ JSON_parse text = Ok sarifObject
    ∧ get_prop sarifObject "version" = Ok (JStr version)
    ∧ get_prop sarifObject "runs" = Ok (JArr runs).

(** The object [combineSarifFiles] serialises. *)
Definition combined (version : jsval) (runs : list jsval) : jsval :=
  JObj [("version", version); ("runs", JArr runs)].

Definition version_mismatch (canonical other : string) : exn :=
  Error ("Different SARIF versions encountered: " +:+ canonical +:+ " and " +:+ other).

Definition is_request (e : Event) : bool :=
  match e with Request _ _ _ => true | _ => false end.

(** The HTTP requests made so far, newest first. *)
Definition requests (w : World) : list Event := filter is_request (trace w).

(** From [w] to [w'] nothing happened but logging. *)
Definition logs_only (w w' : World) : Prop :=
  env w' = env w ∧ fs w' = fs w ∧ now w' = now w ∧ requests w' = requests w.

(** Every run of [m] relates the worlds before and after by [R]. *)
Definition preserves {A} (R : World → World → Prop) (m : M A) : Prop :=
  ∀ w r w', m w = (r, w') → R w w'.

Definition keeps_env (w w' : World) : Prop := env w' = env w.

(** From [w] to [w'] no request was made, the files are the same and no
    variable but the upload sentinel changed. *)
Definition no_traffic (w w' : World) : Prop :=
  fs w' = fs w ∧ requests w' = requests w
  ∧ ∀ name, name ≠ sentinelEnvVar → env w' !! name = env w !! name.

(** [sarifFilePath] holds a document that passes the schema validation. *)
Definition validates (w : World) (sarifFilePath : string) : Prop :=
  ∃ text sarif,
    fs w !! sarifFilePath = Some (File text)
    ∧ JSON_parse text = Ok sarif
    ∧ jsonschema_validate sarif = [].

(** The endpoint of the upload. *)
Definition upload_route (mode : Mode) : string :=
  match mode with
  | actions => "PUT /repos/:owner/:repo/code-scanning/analysis"
  | standalone => "POST /repos/:owner/:repo/code-scanning/sarifs"
  end.

(** The request that carries [payload]. *)
Definition no_sarif_files (sarifPath : string) : exn :=
  Error ("No SARIF files found to upload in " +:+ dquote +:+ sarifPath
         +:+ dquote +:+ ".").

(** The request of [sendStatusReport] for the repository [nwo]. *)
Definition status_request (nwo statusReportJSON : string)
    : string * list (string * jsval) :=
  ("PUT /repos/:owner/:repo/code-scanning/analysis/status",
   [("owner", part (split "/" nwo) 0); ("repo", part (split "/" nwo) 1);
    ("data", JStr statusReportJSON)]).

(** The variable [name] is not set, or set to the empty string. *)
Definition absent (w : World) (name : string) : Prop :=
  truthy (env w !! name) = false.

Definition must_be_set (paramName : string) : exn :=
  Error (paramName +:+ " environment variable must be set").

(** The job was marked as failed by the last effect of [w]. *)
Definition marked_failed (w : World) : Prop :=
  ∃ msg, head (trace w) = Some (SetFailed msg).

(** What [uploadFiles] returns for a fingerprinted payload with [numResults]
    results. *)
Definition upload_report (sarifPayload : string) (numResults : jsval)
    : UploadStatusReport :=
  {| raw_upload_size_bytes := string_length sarifPayload;
     zipped_upload_size_bytes := string_length (toString_base64 (gzipSync sarifPayload));
     num_results_in_sarif := numResults |}.

Definition upload_request (payload : string) (repositoryNwo : RepositoryNwo)
    (githubAuth githubUrl : string) (mode : Mode) : Event :=
  Request (ApiClient githubAuth githubUrl mode) (upload_route mode)
    [("owner", JStr (owner repositoryNwo));
     ("repo", JStr (repo repositoryNwo));
     ("data", JStr payload)].

(** Running [m] where the variable [name] has another value gives the same
    result and the same effects: [m] neither reads nor writes [name]. *)
Definition ignores {A} (name : string) (m : M A) : Prop :=
  ∀ value w, m (with_var name value w)
             = (let '(r, w') := m w in (r, with_var name value w')).

(** What [validateSarifFileSchema] logs for one violation, newest first. *)
Definition error_group (error : ValidationError) : list Event :=
  [EndGroup; Info (details error); StartGroup ("Error details: " +:+ stack error)].

(** The error [validateSarifFileSchema] throws for the violations [errors]. *)
Definition not_valid_sarif (sarifFilePath : string)
    (errors : list ValidationError) : exn :=
  Error ("Unable to upload " +:+ dquote +:+ sarifFilePath +:+ dquote
         +:+ " as it is not valid SARIF:" +:+ newline
         +:+ join newline (map (λ e, "- " +:+ stack e) errors)).

(** [run] has the array [results] as its results. *)
Definition has_results (run : jsval) (results : list jsval) : Prop :=
  get_prop run "results" = Ok (JArr results).

Definition is_Ok {A} (r : Res A) : Prop := ∃ a, r = Ok a.

(** A string of decimal digits. *)
Fixpoint all_digits (s : string) : bool :=
  match s with
  | EmptyString => true
  | String c rest => is_digit c && all_digits rest
  end.


(** [sarifFile] holds a document whose version is [null]. *)
Definition holds_unversioned (w : World) (sarifFile : string)
    (runs : list jsval) : Prop :=
  ∃ text sarifObject,
    fs w !! sarifFile = Some (File text)
    ∧ JSON_parse text = Ok sarifObject
    ∧ get_prop sarifObject "version" = Ok JNull
    ∧ get_prop sarifObject "runs" = Ok (JArr runs).

(** The request [getWorkflowPath] makes for the run of the workflow. *)
Definition run_request (nwo run_id : string) : string * list (string * jsval) :=
  ("GET /repos/:owner/:repo/actions/runs/:run_id",
   [("owner", part (split "/" nwo) 0); ("repo", part (split "/" nwo) 1);
    ("run_id", JNum (js_Number run_id))]).

Definition uploading (sarifFiles : list string) : Event :=
  Info ("Uploading sarif files: " +:+ JSON_stringify (JArr (map JStr sarifFiles))).

End Action.

(** ** A small concrete platform

    Test doubles for the collaborators, and the two-file scenario: [a.sarif]
    with one run of two results, [b.sarif] with one run of no result. *)
Module Scenario.

(** A serialiser good enough for the documents below: no escaping, and
    properties whose value is [undefined] are left out. *)
Fixpoint stringify (v : jsval) : string :=
  match v with
  | JUndefined => "undefined"
  | JNull => "null"
  | JBool true => "true"
  | JBool false => "false"
  | JNum n => number_to_string n
  | JStr s => dquote +:+ s +:+ dquote
  | JArr items => "[" +:+ join "," (map stringify items) +:+ "]"
  | JObj props =>
      "{" +:+ join "," (omap (λ kv,
               match kv with
               | (_, JUndefined) => None
               | (k, x) => Some (dquote +:+ k +:+ dquote +:+ ":" +:+ stringify x)
               end) props) +:+ "}"
  end.

Definition finding : jsval := JObj [("ruleId", JStr "js/unused")].
Definition tool : jsval := JObj [("driver", JObj [("name", JStr "CodeQL")])].

Definition a_run : jsval :=
  JObj [("tool", tool); ("results", JArr [finding; finding])].
Definition b_run : jsval := JObj [("tool", tool); ("results", JArr [])].

Definition doc (version : string) (runs : list jsval) : jsval :=
  JObj [("version", JStr version); ("runs", JArr runs)].

Definition a_doc : jsval := doc "2.1.0" [a_run].
Definition b_doc : jsval := doc "2.1.0" [b_run].
Definition old_doc : jsval := doc "2.0.0" [a_run].
Definition bad_doc : jsval := JObj [("version", JStr "2.1.0")].
Definition null_doc : jsval := JObj [("version", JNull); ("runs", JArr [b_run])].
Definition ab_doc : jsval := doc "2.1.0" [a_run; b_run].

(** A parser by table: the texts it accepts are the serialisations of the
    documents of the scenario. *)
Definition parse (text : string) : Res jsval :=
  match filter (λ d, stringify d = text)
          [a_doc; b_doc; old_doc; bad_doc; null_doc; ab_doc] with
  | d :: _ => Ok d
  | [] => Throw (SystemError "Unexpected token in JSON")
  end.

Definition validate (d : jsval) : list ValidationError :=
  match get_prop d "runs" with
  | Ok (JArr _) => []
  | _ => [{| stack := "instance requires property runs"; details := "{}" |}]
  end.

(** The platform whose API answers every request with [code]. *)
Definition platform (code : Z) (git : Res string) : Platform := {|
  JSON_parse := parse;
  JSON_stringify := stringify;
  jsonschema_validate := validate;
  addFingerprints := λ sarif _, Ok sarif;
  gzipSync := String.list_byte_of_string;
  toString_base64 := λ bytes, "b64:" +:+ String.string_of_list_byte bytes;
  fileUrl := λ path, "file://" +:+ path;
  getToolNames := λ _, Ok ["CodeQL"; "ESLint"];
  path_resolve := λ dir f, dir +:+ "/" +:+ f;
  toISOString := λ t, pretty t;
  js_Number := parseInt;
  git_rev_parse_HEAD := git;
  api_request := λ _ _ _,
    Ok {| status := code;
          data := JObj [("workflow_url", JStr "https://api.github.com/w/1");
                        ("path", JStr ".github/workflows/codeql.yml")] |};
  isLocalRun := λ vars, truthy (vars !! "CODEQL_LOCAL_RUN");
  GITHUB_DOTCOM_URL := "https://github.com";
  CODEQL_WORKFLOW_STARTED_AT := "CODEQL_WORKFLOW_STARTED_AT";
|}.

Definition files : gmap string fsnode :=
  list_to_map
    [("/out", Dir ["a.sarif"; "notes.txt"; "b.sarif"]);
     ("/out/a.sarif", File (stringify a_doc));
     ("/out/b.sarif", File (stringify b_doc));
     ("/out/notes.txt", File "not sarif");
     ("/old.sarif", File (stringify old_doc));
     ("/null.sarif", File (stringify null_doc));
     ("/report.json", File (stringify b_doc));
     ("/empty", Dir ["readme.md"])].

Definition world (vars : list (string * string)) : World :=
  {| env := list_to_map vars; fs := files; now := 1600000000000; trace := [] |}.

Definition nwo : RepositoryNwo := {| owner := "octo"; repo := "demo" |}.

(** The platform of the scenario: the API accepts, git answers. *)
Definition github : Platform := platform 202 (Ok "0a1b2c3").

(** An upload of [sarifFiles] for the scenario's repository. *)
Definition upload_of (sarifFiles : list string) (mode : Mode)
    : M UploadStatusReport :=
  uploadFiles (H := github) sarifFiles nwo "0a1b2c3" "refs/heads/main"
    None None None "/checkout" None "token" "https://github.com" mode.

(** A job in which the builder of status reports has all it reads but the
    run id, the job name and the commit id. *)
Definition anonymous_job : World :=
  world [("GITHUB_REF", "refs/heads/main");
         ("CODEQL_ACTION_ANALYSIS_KEY", ".github/workflows/codeql.yml:analyze");
         ("INPUT_MATRIX", "null");
         ("GITHUB_SERVER_URL", "https://github.com");
         ("GITHUB_REPOSITORY", "octo/demo")].

(** The report composed for a successful [init] in [anonymous_job]. *)
Definition success_report : Report.StatusReportBase :=
  {| Report.workflow_run_id := Num (-1);
     Report.workflow_name := "";
     Report.job_name := "";
     Report.analysis_key := ".github/workflows/codeql.yml:analyze";
     Report.matrix_vars := Some "null";
     Report.commit_oid := "";
     Report.ref := "refs/heads/main";
     Report.action_name := Report.init;
     Report.action_oid := "unknown";
     Report.started_at := "1599999999000";
     Report.action_started_at := "1599999999000";
     Report.completed_at := Some "1600000000000";
     Report.status := Report.success;
     Report.cause := None;
     Report.exception := None |}.

End Scenario.

(** ** More cases: a file that is not valid SARIF, a run without results, a
    client that throws, a git that does not answer *)
Module Cases.

Definition no_results_doc : jsval :=
  Scenario.doc "2.1.0" [Scenario.a_run; JObj [("tool", Scenario.tool)]].

(** A document with a character outside ASCII, the last one of the rule
    [café]: two bytes in UTF-8, one code unit in UTF-16. *)
Definition accent_doc : jsval :=
  Scenario.doc "2.1.0"
    [JObj [("tool", Scenario.tool);
           ("results",
            JArr [JObj [("ruleId", JStr ("js/caf" +:+ utf8 [195; 169]%nat))]])]].

Definition parse (text : string) : Res jsval :=
  if decide (text = Scenario.stringify no_results_doc) then Ok no_results_doc
  else if decide (text = Scenario.stringify accent_doc) then Ok accent_doc
  else Scenario.parse text.

Definition refused : exn := SystemError "connect ECONNREFUSED".

(** The platform of the scenario, but for the parser and for a client that
    gives [answer] to every request. *)
Definition platform (answer : Res Response) (git : Res string) : Platform := {|
  JSON_parse := parse;
  JSON_stringify := Scenario.stringify;
  jsonschema_validate := Scenario.validate;
  addFingerprints := λ sarif _, Ok sarif;
  gzipSync := String.list_byte_of_string;
  toString_base64 := λ bytes, "b64:" +:+ String.string_of_list_byte bytes;
  fileUrl := λ path, "file://" +:+ path;
  getToolNames := λ _, Ok ["CodeQL"; "ESLint"];
  path_resolve := λ dir f, dir +:+ "/" +:+ f;
  toISOString := λ t, pretty t;
  js_Number := parseInt;
  git_rev_parse_HEAD := git;
  api_request := λ _ _ _, answer;
  isLocalRun := λ vars, truthy (vars !! "CODEQL_LOCAL_RUN");
  GITHUB_DOTCOM_URL := "https://github.com";
  CODEQL_WORKFLOW_STARTED_AT := "CODEQL_WORKFLOW_STARTED_AT";
|}.

Definition offline : Platform := platform (Throw refused) (Ok "0a1b2c3").

Definition accepting : Platform :=
  platform (Ok {| status := 202; data := JNull |}) (Ok "0a1b2c3").

Definition overloaded : Platform :=
  platform (Ok {| status := 500; data := JNull |}) (Ok "0a1b2c3").

Definition gitless : Platform :=
  platform (Throw refused) (Throw (SystemError "spawn git ENOENT")).

Definition files : gmap string fsnode :=
  <["/bad.sarif" := File (Scenario.stringify Scenario.bad_doc)]>
    (<["/accent.sarif" := File (Scenario.stringify accent_doc)]> Scenario.files).

Definition world (vars : list (string * string)) : World :=
  {| env := list_to_map vars; fs := files; now := 1600000000000; trace := [] |}.

(** The upload of the two files of the scenario on the platform [P]. *)
Definition upload_on (P : Platform) (mode : Mode) : M UploadStatusReport :=
  uploadFiles (H := P) ["/out/a.sarif"; "/out/b.sarif"] Scenario.nwo "0a1b2c3"
    "refs/heads/main" None None None "/checkout" None "token"
    "https://github.com" mode.

(** The body of that upload in standalone mode. *)
Definition standalone_payload : string :=
  Scenario.stringify
    (uploadFiles_payload standalone "0a1b2c3" "refs/heads/main" None None None
       None None ("b64:" +:+ Scenario.stringify Scenario.ab_doc)
       "file:///checkout" ["CodeQL"; "ESLint"]).

(** What an action sends when it starts. *)
Definition starting_report : jsval :=
  JObj [("action_name", JStr "init"); ("status", JStr "starting")].

(** A pull request whose head, not its merge commit, is checked out. *)
Definition pull_request : World :=
  world [("GITHUB_REF", "refs/pull/17/merge"); ("GITHUB_SHA", "ffffff0")].


(** A job whose run id is 2^53 + 1, which no double holds. *)
Definition late_run : World := world [("GITHUB_RUN_ID", "9007199254740993")].

(** A ref that reads as the merge ref of a pull request in two places. *)
Definition twice_merged : World :=
  world [("GITHUB_REF", "refs/pull/1/merge/refs/pull/2/merge");
         ("GITHUB_SHA", "ffffff0")].

(** A job that has no analysis key yet. *)
Definition first_phase : World :=
  world [("GITHUB_REPOSITORY", "octo/demo"); ("GITHUB_RUN_ID", "42");
         ("GITHUB_JOB", "analyze"); ("GITHUB_REF", "refs/heads/main");
         ("INPUT_MATRIX", "null")].

(** The report of a failed [finish] composed after [Scenario.success_report]. *)
Definition failure_report : Report.StatusReportBase :=
  {| Report.workflow_run_id := Num (-1);
     Report.workflow_name := "";
     Report.job_name := "";
     Report.analysis_key := ".github/workflows/codeql.yml:analyze";
     Report.matrix_vars := Some "null";
     Report.commit_oid := "";
     Report.ref := "refs/heads/main";
     Report.action_name := Report.finish;
     Report.action_oid := "unknown";
     Report.started_at := "1599999999000";
     Report.action_started_at := "1600000000500";
     Report.completed_at := Some "1600000000000";
     Report.status := Report.failure;
     Report.cause := Some "out of disk";
     Report.exception := None |}.

End Cases.


(** * Properties *)

Section Properties.
Context `{Platform}.

Lemma bind_Ok {A B} (m : M A) (f : A → M B) w a w1 :
  m w = (Ok a, w1) → (m ≫= f) w = f a w1.
Proof. intros E. unfold mbind, M_bind. by rewrite E. Qed.

Lemma bind_Throw {A B} (m : M A) (f : A → M B) w e w1 :
  m w = (Throw e, w1) → (m ≫= f) w = (Throw e, w1).
Proof. intros E. unfold mbind, M_bind. by rewrite E. Qed.

(** *** combineSarifFiles *)

Lemma combineSarifFiles_loop_step w sarifFile rest v rs
    (canonical : jsval) (acc : list jsval) :
  holds_sarif w sarifFile v rs →
  combineSarifFiles_loop (sarifFile :: rest) canonical acc w =
    if strict_equal canonical JNull then
      combineSarifFiles_loop rest (JStr v) (acc ++ rs) w
    else if negb (strict_equal canonical (JStr v)) then
      (Throw (Error ("Different SARIF versions encountered: "
                     +:+ toString canonical +:+ " and " +:+ v)), w)
    else combineSarifFiles_loop rest canonical (acc ++ rs) w.
Proof.
  intros (text & o & Hfile & Hparse & Hversion & Hruns).
  cbn [combineSarifFiles_loop].
  unfold readFileSync, lift, throw, mbind, M_bind, mret, M_ret.
  rewrite Hfile, Hparse, Hversion, Hruns. cbn.
  destruct (strict_equal canonical JNull); [done|].
  destruct (strict_equal canonical (JStr v)); done.
Qed.

Lemma combineSarifFiles_loop_same w version sarifFiles (docs : list (list jsval)) :
  Forall2 (λ f runs, holds_sarif w f version runs) sarifFiles docs →
  ∀ acc,
    combineSarifFiles_loop sarifFiles (JStr version) acc w
    = (Ok (JStr version, acc ++ concat docs), w).
Proof.
  induction 1 as [|f runs fs' docs' Hdoc _ IH]; intros acc.
  - cbn. by rewrite app_nil_r.
  - rewrite (combineSarifFiles_loop_step _ _ _ _ _ _ _ Hdoc). cbn.
    rewrite bool_decide_eq_true_2 by done. cbn.
    rewrite IH. by rewrite (assoc_L (++)).
Qed.

(** C1. Combining a non-empty list of SARIF documents that share one version
    returns (the serialisation of) the document whose [version] is the common
    version and whose [runs] are the inputs' runs, concatenated in input
    order; the world is left as it was. *)
Theorem combineSarifFiles_concatenates_runs w version sarifFiles
    (docs : list (list jsval)) :
  sarifFiles ≠ [] →
  Forall2 (λ f runs, holds_sarif w f version runs) sarifFiles docs →
  combineSarifFiles sarifFiles w
  = (Ok (JSON_stringify (combined (JStr version) (concat docs))), w).
Proof.
  intros Hne Hdocs. destruct Hdocs as [|f runs fs' docs' Hdoc Hrest]; [done|].
  assert (combineSarifFiles_loop (f :: fs') JNull [] w
          = (Ok (JStr version, concat (runs :: docs')), w)) as Hloop.
  { rewrite (combineSarifFiles_loop_step _ _ _ _ _ _ _ Hdoc). cbn.
    by rewrite (combineSarifFiles_loop_same _ _ _ _ Hrest). }
  unfold combineSarifFiles. by rewrite (bind_Ok _ _ _ _ _ Hloop).
Qed.

Lemma combineSarifFiles_loop_mismatch w canonical sarifFiles
    (docs : list (string * list jsval)) :
  Forall2 (λ f d, holds_sarif w f d.1 d.2) sarifFiles docs →
  (∃ d, d ∈ docs ∧ d.1 ≠ canonical) →
  ∀ acc, ∃ k other,
    docs.*1 !! k = Some other ∧ other ≠ canonical
    ∧ (∀ j v, (j < k)%nat → docs.*1 !! j = Some v → v = canonical)
    ∧ combineSarifFiles_loop sarifFiles (JStr canonical) acc w
      = (Throw (version_mismatch canonical other), w).
Proof.
  induction 1 as [|f d fs' docs' Hdoc _ IH]; intros (d' & Hin & Hne) acc.
  - by apply elem_of_nil in Hin.
  - rewrite (combineSarifFiles_loop_step _ _ _ _ _ _ _ Hdoc). cbn.
    destruct (decide (canonical = d.1)) as [->|Hdiff].
    + rewrite bool_decide_eq_true_2 by done. cbn.
      apply elem_of_cons in Hin as [->|Hin]; [done|].
      destruct (IH (ex_intro _ d' (conj Hin Hne)) (acc ++ d.2))
        as (k & other & Hother & Hne' & Hbefore & ->).
      exists (S k), other. split_and!; [done..| |done].
      intros [|j] v Hj Hv; [by injection Hv|].
      apply (Hbefore j); [lia|done].
    + rewrite bool_decide_eq_false_2 by done. cbn.
      exists 0%nat, d.1. split_and!; [done|congruence| |done].
      intros j v Hj. lia.
Qed.

(** C2. Whenever two of the SARIF documents to combine carry different
    versions, whatever their runs are, [combineSarifFiles] throws the
    version-mismatch error, which names the version of the first document and
    the first version in input order that differs from it; nothing is
    returned and the world is left as it was. *)
Theorem combineSarifFiles_version_mismatch w sarifFiles
    (docs : list (string * list jsval)) i j di dj :
  Forall2 (λ f d, holds_sarif w f d.1 d.2) sarifFiles docs →
  docs !! i = Some di → docs !! j = Some dj → di.1 ≠ dj.1 →
  ∃ first other k,
    head docs.*1 = Some first
    ∧ docs.*1 !! k = Some other ∧ other ≠ first
    ∧ (∀ n v, (n < k)%nat → docs.*1 !! n = Some v → v = first)
    ∧ combineSarifFiles sarifFiles w = (Throw (version_mismatch first other), w).
Proof.
  intros Hdocs Hi Hj Hne.
  destruct Hdocs as [|f d fs' docs' Hdoc Hrest]; [done|].
  assert (∃ d', d' ∈ docs' ∧ d'.1 ≠ d.1) as Hex.
  { destruct (decide (Forall (λ d', d'.1 = d.1) (d :: docs'))) as [Hall|Hnot].
    - rewrite Forall_lookup in Hall.
      pose proof (Hall _ _ Hi). pose proof (Hall _ _ Hj). congruence.
    - apply not_Forall_Exists in Hnot; [|apply _].
      apply Exists_exists in Hnot as (d' & Hin & Hd'). cbn in Hd'.
      apply elem_of_cons in Hin as [->|Hin]; [by destruct Hd'|]. eauto. }
  destruct (combineSarifFiles_loop_mismatch _ _ _ _ Hrest Hex ([] ++ d.2))
    as (k & other & Hother & Hne' & Hbefore & Hloop).
  exists d.1, other, (S k). split_and!; [done..| |].
  - intros [|n] v Hn Hv; [by injection Hv|].
    apply (Hbefore n); [lia|done].
  - unfold combineSarifFiles. apply bind_Throw.
    by rewrite (combineSarifFiles_loop_step _ _ _ _ _ _ _ Hdoc).
Qed.

(** *** Frame rules: what a computation leaves alone *)

#[local] Instance logs_only_preorder : PreOrder logs_only.
Proof.
  split.
  - by intros w.
  - intros w1 w2 w3 (? & ? & ? & ?) (? & ? & ? & ?).
    unfold logs_only. split_and!; congruence.
Qed.

Lemma preserves_bind {A B} R `{!PreOrder R} (m : M A) (f : A → M B) :
  preserves R m → (∀ a, preserves R (f a)) → preserves R (m ≫= f).
Proof.
  intros Hm Hf w r w' E. unfold mbind, M_bind in E.
  destruct (m w) as [[a|e] w1] eqn:Em.
  - transitivity w1; [by eapply Hm|by eapply Hf].
  - inversion E; subst. by eapply Hm.
Qed.

Lemma preserves_pure {A} R `{!Reflexive R} (r : Res A) : preserves R (lift r).
Proof. intros w r' w' [= <- <-]. reflexivity. Qed.

Lemma preserves_emit e : is_request e = false → preserves logs_only (emit e).
Proof.
  intros He w r w' [= <- <-]. unfold logs_only, requests, record_event.
  cbn [env fs now trace]. split_and!; try done.
  rewrite filter_cons. by rewrite He.
Qed.

Lemma preserves_getenv R `{!Reflexive R} name : preserves R (getenv name).
Proof. intros w r w' [= <- <-]. reflexivity. Qed.

Lemma preserves_new_Date R `{!Reflexive R} : preserves R new_Date.
Proof. intros w r w' [= <- <-]. reflexivity. Qed.

Lemma preserves_readFileSync R `{!Reflexive R} path : preserves R (readFileSync path).
Proof.
  intros w r w'. unfold readFileSync.
  destruct (fs w !! path) as [[]|]; intros [= <- <-]; reflexivity.
Qed.

Lemma preserves_for_of {A} R `{!PreOrder R} (xs : list A) body :
  (∀ x, preserves R (body x)) → preserves R (for_of xs body).
Proof.
  intros Hbody. induction xs as [|x xs IH]; cbn.
  - apply (preserves_pure R (Ok ())).
  - apply preserves_bind; [done|done|]. by intros _.
Qed.

#[local] Instance keeps_env_preorder : PreOrder keeps_env.
Proof. split; [done|]. intros w1 w2 w3. unfold keeps_env. congruence. Qed.

Lemma preserves_weaken {A} (R R' : World → World → Prop) (m : M A) :
  (∀ w w', R w w' → R' w w') → preserves R m → preserves R' m.
Proof. intros HR Hm w r w' E. eapply HR, Hm, E. Qed.

Lemma logs_only_keeps_env w w' : logs_only w w' → keeps_env w w'.
Proof. by intros (? & _). Qed.

Lemma preserves_emit_env e : preserves keeps_env (emit e).
Proof. by intros w r w' [= <- <-]. Qed.

Create HintDb frame discriminated.

(** Splits a computation along its binds and branches, and closes the leaves
    that only read the world, log or fail. *)
Ltac frame :=
  repeat first
    [ solve [auto with frame]
    | apply preserves_emit_env
    | apply preserves_bind; [apply _| |intros ?]
    | apply (preserves_pure _ (Ok _))
    | apply (preserves_pure _ (Throw _))
    | apply preserves_pure
    | apply preserves_getenv
    | apply preserves_new_Date
    | apply preserves_readFileSync
    | apply preserves_emit; reflexivity
    | apply preserves_for_of; [apply _|intros ?]
    | match goal with
      | |- Reflexive _ => apply _
      | |- PreOrder _ => apply _
      | |- preserves _ (match ?x with _ => _ end) => destruct x
      | |- preserves _ (when ?c _) => destruct c; cbn [when]
      end
    | progress cbn beta iota zeta ].

Lemma validateSarifFileSchema_logs_only sarifFilePath :
  preserves logs_only (validateSarifFileSchema sarifFilePath).
Proof. unfold validateSarifFileSchema. frame. Qed.

Lemma combineSarifFiles_loop_logs_only sarifFiles version runs :
  preserves logs_only (combineSarifFiles_loop sarifFiles version runs).
Proof.
  revert version runs.
  induction sarifFiles as [|f rest IH]; intros version runs;
    cbn [combineSarifFiles_loop]; frame.
Qed.
#[local] Hint Resolve combineSarifFiles_loop_logs_only : frame.

Lemma combineSarifFiles_logs_only sarifFiles :
  preserves logs_only (combineSarifFiles sarifFiles).
Proof. unfold combineSarifFiles. frame. Qed.

Lemma combineSarifFiles_loop_keeps_env sarifFiles version runs :
  preserves keeps_env (combineSarifFiles_loop sarifFiles version runs).
Proof.
  eapply preserves_weaken;
    [apply logs_only_keeps_env|apply combineSarifFiles_loop_logs_only].
Qed.
#[local] Hint Resolve combineSarifFiles_loop_keeps_env : frame.

(** *** Computations that do not depend on a variable *)

Lemma ignores_bind {A B} name (m : M A) (f : A → M B) :
  ignores name m → (∀ a, ignores name (f a)) → ignores name (m ≫= f).
Proof.
  intros Hm Hf value w. unfold mbind, M_bind. rewrite Hm.
  destruct (m w) as [[a|e] w1]; [apply Hf|done].
Qed.

Lemma ignores_pure {A} name (r : Res A) : ignores name (lift r).
Proof. done. Qed.

Lemma ignores_emit name e : ignores name (emit e).
Proof. done. Qed.

Lemma ignores_getenv name other : name ≠ other → ignores name (getenv other).
Proof.
  intros Hne value w. unfold getenv, with_var. cbn.
  by rewrite lookup_partial_alter_ne.
Qed.

Lemma ignores_readFileSync name path : ignores name (readFileSync path).
Proof.
  intros value w. unfold readFileSync. cbn.
  by destruct (fs w !! path) as [[]|].
Qed.

Lemma ignores_for_of {A} name (xs : list A) body :
  (∀ x, ignores name (body x)) → ignores name (for_of xs body).
Proof.
  intros Hbody. induction xs as [|x xs IH]; cbn; [done|].
  apply ignores_bind; [done|]. by intros _.
Qed.

Ltac independent :=
  repeat first
    [ apply ignores_bind; [|intros ?]
    | apply (ignores_pure _ (Ok _))
    | apply (ignores_pure _ (Throw _))
    | apply ignores_pure
    | apply ignores_emit
    | apply ignores_readFileSync
    | apply ignores_getenv; discriminate
    | apply ignores_for_of; intros ?
    | match goal with
      | |- ignores _ (match ?x with _ => _ end) => destruct x
      end
    | progress cbn beta iota ].

Lemma combineSarifFiles_loop_ignores name sarifFiles version runs :
  ignores name (combineSarifFiles_loop sarifFiles version runs).
Proof.
  revert version runs.
  induction sarifFiles as [|f rest IH]; intros version runs;
    cbn [combineSarifFiles_loop]; independent. apply IH.
Qed.

Lemma uploadFiles_standalone_ignores_sentinel sarifFiles repositoryNwo commitOid
    ref analysisKey analysisName workflowRunID checkoutPath environment
    githubAuth githubUrl :
  ignores sentinelEnvVar
    (uploadFiles sarifFiles repositoryNwo commitOid ref analysisKey analysisName
       workflowRunID checkoutPath environment githubAuth githubUrl standalone).
Proof.
  unfold uploadFiles, uploadFiles_guard, validateSarifFileSchema,
    combineSarifFiles, uploadPayload, request, sentinelEnvVar.
  independent. apply combineSarifFiles_loop_ignores.
Qed.

(** *** The single-upload guard *)

Lemma uploadFiles_guard_fresh w :
  truthy (env w !! sentinelEnvVar) = false →
  uploadFiles_guard actions w
  = (Ok (), with_var sentinelEnvVar (Some sentinelEnvVar) w).
Proof.
  intros Hfresh. unfold uploadFiles_guard, getenv, mbind, M_bind.
  by rewrite Hfresh.
Qed.

Lemma uploadFiles_guard_claimed w :
  truthy (env w !! sentinelEnvVar) = true →
  uploadFiles_guard actions w = (Throw only_one_upload, w).
Proof.
  intros Hset. unfold uploadFiles_guard, getenv, mbind, M_bind.
  by rewrite Hset.
Qed.

Lemma uploadFiles_after_guard_keeps_env sarifFiles repositoryNwo commitOid
    ref analysisKey analysisName workflowRunID checkoutPath environment
    githubAuth githubUrl mode w r w' :
  uploadFiles sarifFiles repositoryNwo commitOid ref analysisKey analysisName
    workflowRunID checkoutPath environment githubAuth githubUrl mode w = (r, w') →
  ∃ r0 w0, uploadFiles_guard mode (record_event (uploading sarifFiles) w) = (r0, w0)
           ∧ env w' = env w0.
Proof.
  unfold uploadFiles. intros E.
  unfold mbind at 1, M_bind at 1 in E. cbn [emit] in E.
  unfold mbind at 1, M_bind at 1 in E.
  fold (uploading sarifFiles) in E.
  destruct (uploadFiles_guard mode _) as [[[]|e] w0] eqn:Eguard.
  - exists (Ok ()), w0. split; [done|].
    revert E. match goal with |- ?m w0 = _ → _ => assert (preserves keeps_env m) as Hm end.
    { frame. }
    intros E. by apply Hm in E.
  - inversion E; subst. by exists (Throw e), w'.
Qed.

Lemma uploadFiles_claimed sarifFiles repositoryNwo commitOid ref analysisKey
    analysisName workflowRunID checkoutPath environment githubAuth githubUrl w :
  truthy (env w !! sentinelEnvVar) = true →
  uploadFiles sarifFiles repositoryNwo commitOid ref analysisKey analysisName
    workflowRunID checkoutPath environment githubAuth githubUrl actions w
  = (Throw only_one_upload, record_event (uploading sarifFiles) w).
Proof.
  intros Hset. unfold uploadFiles.
  unfold mbind at 1, M_bind at 1. cbn [emit].
  apply bind_Throw. by apply uploadFiles_guard_claimed.
Qed.

(** C3. A first upload attempt in a fresh job (actions mode) claims the
    sentinel; whatever the outcome of that attempt, every later upload
    attempt of the job fails with the only-one-upload error and has done
    nothing but log its first line: no file was validated, no request made.
    In standalone mode an upload runs the same whatever the sentinel
    variable holds: it is neither read nor written. *)
Theorem uploadFiles_once_per_job
    sarifFiles repositoryNwo commitOid ref analysisKey analysisName
    workflowRunID checkoutPath environment githubAuth githubUrl
    sarifFiles' repositoryNwo' commitOid' ref' analysisKey' analysisName'
    workflowRunID' checkoutPath' environment' githubAuth' githubUrl'
    w r1 w1 :
  env w !! sentinelEnvVar = None →
  uploadFiles sarifFiles repositoryNwo commitOid ref analysisKey analysisName
    workflowRunID checkoutPath environment githubAuth githubUrl actions w
  = (r1, w1) →
  uploadFiles_guard actions (record_event (uploading sarifFiles) w)
  = (Ok (), with_var sentinelEnvVar (Some sentinelEnvVar)
              (record_event (uploading sarifFiles) w))
  ∧ (∀ w2, env w2 !! sentinelEnvVar = env w1 !! sentinelEnvVar →
       uploadFiles sarifFiles' repositoryNwo' commitOid' ref' analysisKey'
         analysisName' workflowRunID' checkoutPath' environment' githubAuth'
         githubUrl' actions w2
       = (Throw only_one_upload, record_event (uploading sarifFiles') w2))
  ∧ ignores sentinelEnvVar
      (uploadFiles sarifFiles' repositoryNwo' commitOid' ref' analysisKey'
         analysisName' workflowRunID' checkoutPath' environment' githubAuth'
         githubUrl' standalone).
Proof.
  intros Hfresh Hfirst.
  assert (uploadFiles_guard actions (record_event (uploading sarifFiles) w)
          = (Ok (), with_var sentinelEnvVar (Some sentinelEnvVar)
                      (record_event (uploading sarifFiles) w))) as Hguard.
  { apply uploadFiles_guard_fresh. cbn. by rewrite Hfresh. }
  split_and!; [done| |apply uploadFiles_standalone_ignores_sentinel].
  intros w2 Hsame. apply uploadFiles_claimed.
  apply uploadFiles_after_guard_keeps_env in Hfirst as (r0 & w0 & Hg & Henv).
  rewrite Hguard in Hg. injection Hg as <- <-.
  rewrite Hsame, Henv. cbn. by rewrite lookup_partial_alter_eq.
Qed.

(** *** The anatomy of an upload *)

#[local] Instance no_traffic_preorder : PreOrder no_traffic.
Proof.
  split.
  - by intros w.
  - intros w1 w2 w3 (Hf & Hr & He) (Hf' & Hr' & He').
    unfold no_traffic. split_and!; [congruence..|].
    intros name Hname. by rewrite He', He.
Qed.

Lemma logs_only_no_traffic w w' : logs_only w w' → no_traffic w w'.
Proof. intros (He & Hf & _ & Hr). split_and!; [done..|]. by rewrite He. Qed.

Lemma uploadFiles_guard_no_traffic mode : preserves no_traffic (uploadFiles_guard mode).
Proof.
  intros w r w'. destruct mode; cbn; [|by intros [= <- <-]].
  unfold getenv, mbind, M_bind.
  destruct (truthy _); intros [= <- <-]; [done|].
  split_and!; [done..|]. intros name Hname. cbn.
  by rewrite lookup_partial_alter_ne.
Qed.

Lemma combineSarifFiles_loop_fs_only sarifFiles :
  ∀ version runs w1 w2, fs w1 = fs w2 →
    combineSarifFiles_loop sarifFiles version runs w1
    = (fst (combineSarifFiles_loop sarifFiles version runs w2), w1).
Proof.
  induction sarifFiles as [|f rest IH]; intros version runs w1 w2 Hfs; [done|].
  cbn [combineSarifFiles_loop].
  unfold readFileSync, lift, throw, mbind, M_bind, mret, M_ret. rewrite Hfs.
  destruct (fs w2 !! f) as [[text|]|]; [|done..].
  destruct (JSON_parse text) as [o|]; [|done].
  destruct (get_prop o "version") as [v|]; [|done].
  destruct (strict_equal version JNull).
  - destruct (Res_bind _ _ _ _); [by apply IH|done].
  - destruct (negb _); [done|].
    destruct (Res_bind _ _ _ _); [by apply IH|done].
Qed.

Lemma combineSarifFiles_fs_only sarifFiles w1 w2 r w' :
  fs w1 = fs w2 →
  combineSarifFiles sarifFiles w1 = (r, w') →
  w' = w1 ∧ combineSarifFiles sarifFiles w2 = (r, w2).
Proof.
  intros Hfs. unfold combineSarifFiles, mbind, M_bind.
  rewrite (combineSarifFiles_loop_fs_only _ _ _ w1 w2 Hfs).
  rewrite (combineSarifFiles_loop_fs_only _ _ _ w2 w2 eq_refl).
  destruct (combineSarifFiles_loop sarifFiles JNull [] w2) as [[[v rs]|e] w3];
    cbn; by intros [= <- <-].
Qed.

Lemma uploadPayload_test_mode payload repositoryNwo githubAuth githubUrl mode w :
  env w !! "TEST_MODE" = Some "true" →
  uploadPayload payload repositoryNwo githubAuth githubUrl mode w
  = (Ok (), record_event (Info "Uploading results") w).
Proof.
  intros Htest. unfold uploadPayload, emit, getenv, mbind, M_bind. cbn.
  by rewrite Htest.
Qed.

Lemma uploadPayload_requests payload repositoryNwo githubAuth githubUrl mode w r w' :
  uploadPayload payload repositoryNwo githubAuth githubUrl mode w = (r, w') →
  fs w' = fs w ∧
  if bool_decide (env w !! "TEST_MODE" = Some "true") then requests w' = requests w
  else requests w'
       = upload_request payload repositoryNwo githubAuth githubUrl mode :: requests w.
Proof.
  unfold uploadPayload, request, emit, getenv, lift, mbind, M_bind. cbn.
  rewrite orb_false_r. destruct (bool_decide _); [by intros [= <- <-]|].
  unfold upload_request, upload_route.
  destruct (api_request _ _ _); by intros [= <- <-].
Qed.

(** Runs the first computation of the sequence in [E], naming its outcome. *)
Ltac step E Ek x w' :=
  unfold mbind at 1, M_bind at 1 in E;
  lazymatch type of E with
  | match ?m ?w with _ => _ end = _ =>
      destruct (m w) as [[x|?] w'] eqn:Ek;
      [|first [discriminate E|injection E as <- <-]]
  end.

(** [step], for a computation that makes no request: [HT] relates the first
    world to the current one, [HT'] to the next one. A failure ends the proof
    in the left branch of the goal. *)
Ltac quiet_step E Ek x w' HT HT' :=
  step E Ek x w';
  lazymatch type of Ek with
  | ?m _ = _ =>
      let Hm := fresh "Hm" in
      assert (preserves no_traffic m) as Hm by
        (first [ apply uploadFiles_guard_no_traffic
               | eapply preserves_weaken; [apply logs_only_no_traffic|frame] ]);
      let Hn := fresh "Hn" in
      pose proof (Hm _ _ _ Ek) as Hn; clear Hm;
      pose proof (transitivity HT Hn) as HT'; clear Hn
  end;
  [|left; eexists; split; [reflexivity|assumption]].

Section Upload.
Variables (sarifFiles : list string) (repositoryNwo : RepositoryNwo)
  (commitOid ref : string) (analysisKey analysisName : option string)
  (workflowRunID : option number) (checkoutPath : string)
  (environment : option string) (githubAuth githubUrl : string) (mode : Mode).

Lemma uploadFiles_anatomy w r w' :
  uploadFiles sarifFiles repositoryNwo commitOid ref analysisKey analysisName
    workflowRunID checkoutPath environment githubAuth githubUrl mode w = (r, w') →
  (∃ e, r = Throw e ∧ no_traffic w w')
  ∨ ∃ combinedText sarifPayload toolNames started_at numResults w0 ru,
      no_traffic w w0
      ∧ combineSarifFiles sarifFiles w = (Ok combinedText, w)
      ∧ addFingerprints combinedText checkoutPath = Ok sarifPayload
      ∧ getToolNames sarifPayload = Ok toolNames
      ∧ countResultsInSarif sarifPayload = Ok numResults
      ∧ uploadPayload
          (JSON_stringify
             (uploadFiles_payload mode commitOid ref analysisKey analysisName
                workflowRunID environment started_at
                (toString_base64 (gzipSync sarifPayload)) (fileUrl checkoutPath)
                toolNames))
          repositoryNwo githubAuth githubUrl mode w0 = (ru, w')
      ∧ r = (ru ≫= λ _, Ok (upload_report sarifPayload numResults)).
Proof.
  unfold uploadFiles. intros E.
  assert (no_traffic w w) as HT0 by done.
  quiet_step E E1 u1 w1 HT0 HT1. quiet_step E E2 u2 w2 HT1 HT2.
  quiet_step E E3 u3 w3 HT2 HT3.
  quiet_step E Ecombine combinedText w4 HT3 HT4.
  quiet_step E Efinger sarifPayload w5 HT4 HT5.
  quiet_step E Etools toolNames w6 HT5 HT6.
  quiet_step E Estarted started_at w7 HT6 HT7.
  quiet_step E E4 u4 w8 HT7 HT8. quiet_step E E5 u5 w9 HT8 HT9.
  quiet_step E Ecount numResults w10 HT9 HT10.
  quiet_step E E6 u6 w11 HT10 HT11.
  injection Efinger as Efinger _. injection Etools as Etools _.
  injection Ecount as Ecount _.
  destruct HT3 as (Hfs & _).
  apply (combineSarifFiles_fs_only _ _ w _ _ Hfs) in Ecombine as [_ Ecombine].
  unfold mbind at 1, M_bind at 1 in E.
  destruct (uploadPayload _ _ _ _ _ _) as [ru wu] eqn:Eupload.
  right. exists combinedText, sarifPayload, toolNames, started_at, numResults, w11, ru.
  destruct ru; by injection E as <- <-.
Qed.


(** C7. The report of a successful upload carries, as raw size, the length
    of the fingerprinted payload (the text that is then compressed) and, as
    zipped size, the length of the base64 text of its compression. Both are
    lengths of strings, counted in UTF-16 code units as [length] counts:
    for a payload within ASCII they are numbers of bytes. *)
Theorem uploadFiles_reported_sizes w report w' :
  uploadFiles sarifFiles repositoryNwo commitOid ref analysisKey analysisName
    workflowRunID checkoutPath environment githubAuth githubUrl mode w
  = (Ok report, w') →
  ∃ combinedText sarifPayload,
    combineSarifFiles sarifFiles w = (Ok combinedText, w)
    ∧ addFingerprints combinedText checkoutPath = Ok sarifPayload
    ∧ raw_upload_size_bytes report = Num (Z.of_nat (js_length sarifPayload))
    ∧ zipped_upload_size_bytes report
      = Num (Z.of_nat (js_length (toString_base64 (gzipSync sarifPayload)))).
Proof.
  intros E. apply uploadFiles_anatomy in E
    as [(e & [=] & _)
       |(combinedText & sarifPayload & toolNames & started_at & numResults
         & w0 & ru & _ & Hcombine & Hfinger & _ & _ & _ & Hr)].
  exists combinedText, sarifPayload. destruct ru; [|done].
  by injection Hr as ->.
Qed.

Lemma validateSarifFileSchema_valid w w0 sarifFilePath :
  fs w0 = fs w → validates w sarifFilePath →
  validateSarifFileSchema sarifFilePath w0 = (Ok (), w0).
Proof.
  intros Hfs (text & sarif & Hfile & Hparse & Hvalid).
  unfold validateSarifFileSchema, readFileSync, lift, mbind, M_bind.
  by rewrite Hfs, Hfile, Hparse, Hvalid.
Qed.

Lemma for_of_validateSarifFileSchema_valid w w0 files :
  fs w0 = fs w → Forall (validates w) files →
  for_of files validateSarifFileSchema w0 = (Ok (), w0).
Proof.
  intros Hfs. induction 1 as [|f rest Hf _ IH]; [done|]. cbn [for_of].
  by rewrite (bind_Ok _ _ _ _ _ (validateSarifFileSchema_valid _ _ _ Hfs Hf)).
Qed.

Lemma test_mode_makes_no_request w r w' :
  env w !! "TEST_MODE" = Some "true" →
  uploadFiles sarifFiles repositoryNwo commitOid ref analysisKey analysisName
    workflowRunID checkoutPath environment githubAuth githubUrl mode w = (r, w') →
  requests w' = requests w.
Proof.
  intros Htest E. apply uploadFiles_anatomy in E
    as [(e & _ & _ & Hreq & _)
       |(combinedText & sarifPayload & toolNames & started_at & numResults
         & w0 & ru & (_ & Hreq & Henv) & _ & _ & _ & _ & Eupload & _)]; [done|].
  apply uploadPayload_requests in Eupload as [_ Hsent].
  rewrite Henv, Htest in Hsent by done.
  rewrite bool_decide_eq_true_2 in Hsent by done. congruence.
Qed.

(** C9. With [TEST_MODE] set to [true] an upload makes no request, whatever
    its outcome; and when the sentinel is free (or the mode is standalone),
    the files validate and the payload can be prepared, it returns the
    report with the sizes of the payload and its number of results. *)
Theorem uploadFiles_test_mode w :
  env w !! "TEST_MODE" = Some "true" →
  (∀ r w',
     uploadFiles sarifFiles repositoryNwo commitOid ref analysisKey analysisName
       workflowRunID checkoutPath environment githubAuth githubUrl mode w = (r, w') →
     requests w' = requests w)
  ∧ (∀ combinedText sarifPayload toolNames numResults,
       mode = standalone ∨ truthy (env w !! sentinelEnvVar) = false →
       Forall (validates w) sarifFiles →
       combineSarifFiles sarifFiles w = (Ok combinedText, w) →
       addFingerprints combinedText checkoutPath = Ok sarifPayload →
       getToolNames sarifPayload = Ok toolNames →
       countResultsInSarif sarifPayload = Ok numResults →
       ∃ w',
         uploadFiles sarifFiles repositoryNwo commitOid ref analysisKey
           analysisName workflowRunID checkoutPath environment githubAuth
           githubUrl mode w
         = (Ok (upload_report sarifPayload numResults), w')).
Proof.
  intros Htest. split; [intros r w'; by apply test_mode_makes_no_request|].
  intros combinedText sarifPayload toolNames numResults Hfree Hvalid Hcombine
    Hfinger Htools Hcount.
  set (w1 := record_event (uploading sarifFiles) w).
  assert (∃ w2, uploadFiles_guard mode w1 = (Ok (), w2) ∧ fs w2 = fs w
                ∧ env w2 !! "TEST_MODE" = Some "true") as (w2 & Hguard & Hfs & Htest2).
  { destruct mode.
    - destruct Hfree as [[=]|Hfree].
      eexists. split; [by apply uploadFiles_guard_fresh|]. split; [done|].
      cbn. by rewrite lookup_partial_alter_ne.
    - by exists w1. }
  unfold uploadFiles.
  rewrite (bind_Ok _ _ w () w1) by done.
  rewrite (bind_Ok _ _ _ _ _ Hguard).
  rewrite (bind_Ok _ _ _ _ _ (for_of_validateSarifFileSchema_valid _ _ _ Hfs Hvalid)).
  destruct (combineSarifFiles sarifFiles w2) as [rc wc] eqn:Ec.
  apply (combineSarifFiles_fs_only _ _ w _ _ Hfs) in Ec as [-> Ec].
  rewrite Hcombine in Ec. injection Ec as <-.
  destruct (combineSarifFiles_fs_only _ _ w2 _ _ (eq_sym Hfs) Hcombine) as [_ Hc2].
  rewrite (bind_Ok _ _ _ _ _ Hc2).
  rewrite Hfinger. rewrite (bind_Ok _ _ w2 sarifPayload w2) by done.
  rewrite Htools. rewrite (bind_Ok _ _ w2 toolNames w2) by done.
  rewrite Hcount. eexists.
  unfold mbind, M_bind.
  destruct mode; cbn [getenv mret M_ret emit lift];
    rewrite uploadPayload_test_mode by done; reflexivity.
Qed.

(** *** upload *)

Lemma append_cons c s t : String c s +:+ t = String c (s +:+ t).
Proof. reflexivity. Qed.

Lemma substring_all s : String.substring 0 (String.length s) s = s.
Proof. induction s as [|c s IH]; [done|]. cbn. by rewrite IH. Qed.

Lemma substring_app_r p s :
  String.substring (String.length p) (String.length s) (p +:+ s) = s.
Proof. induction p as [|c p IH]; [apply substring_all|]. by rewrite append_cons. Qed.

Lemma substring_split s : ∀ k, (k ≤ String.length s)%nat →
  s = String.substring 0 k s +:+ String.substring k (String.length s - k) s.
Proof.
  induction s as [|c s IH]; intros [|k] Hk; cbn in *; try lia.
  - done.
  - by rewrite substring_all.
  - rewrite append_cons. f_equal. apply IH. lia.
Qed.

Lemma app_length_string p s :
  String.length (p +:+ s) = (String.length p + String.length s)%nat.
Proof. induction p as [|c p IH]; [done|]. rewrite append_cons. cbn. by rewrite IH. Qed.

(** [endsWith] is what its name says. *)
Lemma endsWith_spec s suffix :
  endsWith s suffix = true ↔ ∃ stem, s = stem +:+ suffix.
Proof.
  unfold endsWith. split.
  - destruct (Nat.leb_spec (String.length suffix) (String.length s)) as [Hle|];
      [|done].
    intros Heq%bool_decide_eq_true.
    exists (String.substring 0 (String.length s - String.length suffix) s).
    pose proof (substring_split s (String.length s - String.length suffix)) as Hs.
    replace (String.length s - (String.length s - String.length suffix))%nat
      with (String.length suffix) in Hs by lia.
    rewrite Heq in Hs. apply Hs. lia.
  - intros [stem ->]. rewrite app_length_string.
    rewrite (proj2 (Nat.leb_le _ _)) by lia.
    apply bool_decide_eq_true.
    replace (String.length stem + String.length suffix - String.length suffix)%nat
      with (String.length stem) by lia.
    apply substring_app_r.
Qed.

(** C10. A directory is uploaded through the files it lists whose name ends
    with [.sarif], and it is an error when there is none; a path that is a
    file is uploaded as it is, whatever its name. *)
Theorem upload_selects_files sarifPath node w :
  fs w !! sarifPath = Some node →
  ∃ selected,
    match node with
    | File _ => selected = [sarifPath]
    | Dir entries =>
        ∃ names,
          names = filter (λ f, endsWith f ".sarif" = true) entries
          ∧ (∀ f, f ∈ names ↔ f ∈ entries ∧ ∃ stem, f = stem +:+ ".sarif")
          ∧ selected = map (path_resolve sarifPath) names
    end
    ∧ upload sarifPath repositoryNwo commitOid ref analysisKey analysisName
        workflowRunID checkoutPath environment githubAuth githubUrl mode w
      = match selected with
        | [] => (Throw (no_sarif_files sarifPath), w)
        | _ =>
            uploadFiles selected repositoryNwo commitOid ref analysisKey
              analysisName workflowRunID checkoutPath environment githubAuth
              githubUrl mode w
        end.
Proof.
  intros Hnode.
  assert (existsSync sarifPath w = (Ok true, w)) as Hexists.
  { unfold existsSync. rewrite Hnode. by rewrite bool_decide_eq_true_2. }
  unfold upload. rewrite (bind_Ok _ _ _ _ _ Hexists). cbn [negb when].
  rewrite (bind_Ok _ _ w () w) by done.
  destruct node as [content|entries].
  - assert (isDirectory sarifPath w = (Ok false, w)) as Hfile.
    { unfold isDirectory. by rewrite Hnode. }
    exists [sarifPath]. split; [done|].
    rewrite (bind_Ok _ _ _ _ _ Hfile). by rewrite (bind_Ok _ _ w [sarifPath] w).
  - assert (isDirectory sarifPath w = (Ok true, w)) as Hdir.
    { unfold isDirectory. by rewrite Hnode. }
    assert (readdirSync sarifPath w = (Ok entries, w)) as Hentries.
    { unfold readdirSync. by rewrite Hnode. }
    eexists. split.
    + eexists. split; [reflexivity|]. split; [|reflexivity].
      intros f. rewrite list_elem_of_filter, endsWith_spec. tauto.
    + rewrite (bind_Ok _ _ _ _ _ Hdir).
      destruct (filter _ entries) as [|f names] eqn:Hsel.
      * apply bind_Throw. rewrite (bind_Ok _ _ _ _ _ Hentries).
        by rewrite Hsel.
      * erewrite bind_Ok; [reflexivity|].
        rewrite (bind_Ok _ _ _ _ _ Hentries). by rewrite Hsel.
Qed.

End Upload.

(** *** Required environment parameters *)

Lemma getRequiredEnvParam_present w paramName value :
  env w !! paramName = Some value → value ≠ "" →
  getRequiredEnvParam paramName w
  = (Ok value, record_event (Debug (paramName +:+ "=" +:+ value)) w).
Proof.
  intros Hvalue Hne. unfold getRequiredEnvParam, getenv, mbind, M_bind.
  rewrite Hvalue. by destruct value.
Qed.

Lemma getRequiredEnvParam_absent w paramName :
  absent w paramName →
  getRequiredEnvParam paramName w = (Throw (must_be_set paramName), w).
Proof.
  unfold absent, getRequiredEnvParam, getenv, mbind, M_bind.
  destruct (env w !! paramName) as [[|c value]|]; [done| |done].
  cbn. by rewrite bool_decide_eq_false_2.
Qed.

Lemma request_Ok client route params response w :
  api_request client route params = Ok response →
  request client route params w
  = (Ok response, record_event (Request client route params) w).
Proof. intros Hr. unfold request, mbind, M_bind, emit, lift. by rewrite Hr. Qed.

(** *** sendStatusReport *)

(** C5. When a status report is sent (the server is github.com, the run is
    not local, the repository is known) and the API answers, the result is
    [false] exactly when failures are not ignored and the answer is a 403 or
    a 404, and the job is marked as failed exactly then; with
    [ignoreFailures] true the result is [true] whatever the answer. *)
Theorem sendStatusReport_classifies w statusReport ignoreFailures nwo response :
  env w !! "GITHUB_SERVER_URL" = Some GITHUB_DOTCOM_URL →
  GITHUB_DOTCOM_URL ≠ "" →
  isLocalRun (env w) = false →
  env w !! "GITHUB_REPOSITORY" = Some nwo → nwo ≠ "" →
  api_request ActionsApiClient
    (status_request nwo (JSON_stringify statusReport)).1
    (status_request nwo (JSON_stringify statusReport)).2 = Ok response →
  ∃ result w',
    sendStatusReport statusReport ignoreFailures w = (Ok result, w')
    ∧ (result = false ↔
       ignoreFailures ≠ Some true
       ∧ (status response = 403 ∨ status response = 404))
    ∧ (marked_failed w' ↔ result = false).
Proof.
  intros Hserver Hdotcom Hlocal Hnwo Hrepo Hresponse.
  unfold sendStatusReport.
  rewrite (bind_Ok _ _ _ _ _ (getRequiredEnvParam_present _ _ _ Hserver Hdotcom)).
  rewrite bool_decide_eq_true_2 by done. cbn [negb].
  unfold mbind at 1, M_bind at 1. cbn [env record_event]. rewrite Hlocal.
  unfold mbind at 1, M_bind at 1. cbn [emit].
  erewrite bind_Ok; [|by apply getRequiredEnvParam_present].
  erewrite bind_Ok; [|by apply request_Ok].
  unfold marked_failed, mbind, M_bind, emit.
  destruct ignoreFailures as [[]|]; cbn [default negb];
    repeat case_bool_decide; eexists _, _; (split; [reflexivity|]);
    cbn; (split; [intuition congruence|]);
    (split; [by intros [msg [=]]|by eauto || by intros [=]]).
Qed.

(** *** createStatusReportBase *)

(** C8. A status report that was composed has a [completed_at] exactly when
    its status is [success], [failure] or [aborted]; it has none when the
    status is [starting]. *)
Theorem createStatusReportBase_completed_at actionName status actionStartedAt
    cause exception w report w' :
  createStatusReportBase actionName status actionStartedAt cause exception w
  = (Ok report, w') →
  Report.status report = status
  ∧ (is_Some (Report.completed_at report) ↔
     status = Report.success ∨ status = Report.failure ∨ status = Report.aborted)
  ∧ (status = Report.starting → Report.completed_at report = None).
Proof.
  unfold createStatusReportBase. intros E.
  step E E1 sha w1. step E E2 ref w2. step E E3 runId w3.
  step E E4 workflow w4. step E E5 job w5. step E E6 key w6.
  step E E7 recorded w7. step E E8 startedAt w8.
  step E E9 completed w9. step E E10 matrix w10.
  injection E as <- <-. cbn.
  destruct status; cbn in E9; injection E9 as <- <-;
    (split; [done|]); split; try done;
    (split; [intros Hs; first [by destruct Hs as [t [=]]|auto]
            |by eauto || intuition discriminate]).
Qed.

Lemma getRequiredEnvParam_cases w paramName :
  (absent w paramName
   ∧ getRequiredEnvParam paramName w = (Throw (must_be_set paramName), w))
  ∨ ∃ value,
      env w !! paramName = Some value ∧ value ≠ ""
      ∧ getRequiredEnvParam paramName w
        = (Ok value, record_event (Debug (paramName +:+ "=" +:+ value)) w).
Proof.
  destruct (env w !! paramName) as [value|] eqn:Hvalue.
  - destruct (decide (value = "")) as [->|Hne].
    + left. assert (absent w paramName) by (unfold absent; by rewrite Hvalue).
      eauto using getRequiredEnvParam_absent.
    + right. eauto using getRequiredEnvParam_present.
  - left. assert (absent w paramName) by (unfold absent; by rewrite Hvalue).
    eauto using getRequiredEnvParam_absent.
Qed.

Lemma absent_keeps_env w w' name : keeps_env w w' → absent w name → absent w' name.
Proof. unfold keeps_env, absent. by intros ->. Qed.

Lemma getRequiredEnvParam_keeps_env paramName :
  preserves keeps_env (getRequiredEnvParam paramName).
Proof. unfold getRequiredEnvParam. frame. Qed.
#[local] Hint Resolve getRequiredEnvParam_keeps_env : frame.

Lemma getCommitOid_keeps_env : preserves keeps_env getCommitOid.
Proof. unfold getCommitOid. frame. Qed.
#[local] Hint Resolve getCommitOid_keeps_env : frame.

Lemma getRef_keeps_env : preserves keeps_env getRef.
Proof. unfold getRef. frame. Qed.

Lemma getWorkflowPath_keeps_env : preserves keeps_env getWorkflowPath.
Proof. unfold getWorkflowPath, request. frame. Qed.

Lemma getCommitOid_fails w e :
  git_rev_parse_HEAD = Throw e → absent w "GITHUB_SHA" →
  ∃ e' w', getCommitOid w = (Throw e', w').
Proof.
  intros Hgit Hsha. unfold getCommitOid. rewrite Hgit.
  unfold mbind at 1 2, M_bind at 1 2. cbn [emit].
  eexists _, _. apply getRequiredEnvParam_absent.
  by eapply absent_keeps_env; [|exact Hsha].
Qed.

Lemma getRef_fails w :
  absent w "GITHUB_REF"
  ∨ absent w "GITHUB_SHA"
    ∧ ((∃ e, git_rev_parse_HEAD = Throw e)
       ∨ ∃ ref, env w !! "GITHUB_REF" = Some ref ∧ is_Some (pull_ref_regex ref)) →
  ∃ e w', getRef w = (Throw e, w').
Proof.
  intros Hmissing. unfold getRef.
  destruct (getRequiredEnvParam_cases w "GITHUB_REF")
    as [[_ Href]|(ref & Hvalue & Hne & Href)].
  { eexists _, _. by apply bind_Throw. }
  destruct Hmissing as [Habs|[Hsha Hneeded]].
  { unfold absent in Habs. rewrite Hvalue in Habs. by destruct ref. }
  rewrite (bind_Ok _ _ _ _ _ Href).
  set (w1 := record_event _ w).
  assert (absent w1 "GITHUB_SHA") as Hsha1 by done.
  destruct (getCommitOid w1) as [[checkoutSha|e] w2] eqn:Ecommit;
    [|eexists _, _; by apply bind_Throw].
  rewrite (bind_Ok _ _ _ _ _ Ecommit).
  destruct Hneeded as [[e Hgit]|(ref' & Hvalue' & [m Hm])].
  - destruct (getCommitOid_fails w1 e Hgit Hsha1) as (e' & w' & Hfail). congruence.
  - assert (ref' = ref) as -> by congruence. rewrite Hm.
    destruct m as [[before digits] after].
    eexists _, _. apply bind_Throw, getRequiredEnvParam_absent.
    eapply absent_keeps_env; [|exact Hsha1].
    by eapply getCommitOid_keeps_env.
Qed.

Lemma getAnalysisKey_fails w :
  env w !! "CODEQL_ACTION_ANALYSIS_KEY" = None →
  absent w "GITHUB_REPOSITORY" ∨ absent w "GITHUB_RUN_ID" ∨ absent w "GITHUB_JOB" →
  ∃ e w', getAnalysisKey w = (Throw e, w').
Proof.
  intros Hkey Hmissing. unfold getAnalysisKey.
  rewrite (bind_Ok _ _ w None w) by (unfold getenv; by rewrite Hkey).
  destruct (getWorkflowPath w) as [[workflowPath|e] w1] eqn:Epath;
    [|eexists _, _; by apply bind_Throw].
  rewrite (bind_Ok _ _ _ _ _ Epath).
  pose proof (getWorkflowPath_keeps_env _ _ _ Epath) as Henv.
  assert (absent w "GITHUB_JOB") as Hjob.
  { destruct Hmissing as [Hrepo|[Hrun|Hjob]]; [| |done]; exfalso;
      unfold getWorkflowPath in Epath.
    - by rewrite (bind_Throw _ _ _ _ _ (getRequiredEnvParam_absent _ _ Hrepo))
        in Epath.
    - destruct (getRequiredEnvParam_cases w "GITHUB_REPOSITORY")
        as [[_ Href]|(nwo & _ & _ & Hnwo)].
      + by rewrite (bind_Throw _ _ _ _ _ Href) in Epath.
      + rewrite (bind_Ok _ _ _ _ _ Hnwo) in Epath.
        rewrite (bind_Throw _ _ _ (must_be_set "GITHUB_RUN_ID")
                   (record_event (Debug ("GITHUB_REPOSITORY" +:+ "=" +:+ nwo)) w))
          in Epath; [done|].
        by apply getRequiredEnvParam_absent. }
  eexists _, _. apply bind_Throw, getRequiredEnvParam_absent.
  by eapply absent_keeps_env.
Qed.

Lemma getCommitOid_succeeds w :
  (∃ commitOid, git_rev_parse_HEAD = Ok commitOid) ∨ ¬ absent w "GITHUB_SHA" →
  ∃ checkoutSha w', getCommitOid w = (Ok checkoutSha, w').
Proof.
  intros Hcan. unfold getCommitOid.
  destruct git_rev_parse_HEAD as [commitOid|e] eqn:Hgit.
  - by eexists _, _.
  - destruct Hcan as [[? [=]]|Hsha].
    unfold mbind at 1 2, M_bind at 1 2, emit.
    set (w1 := record_event _ (record_event _ w)).
    destruct (getRequiredEnvParam_cases w1 "GITHUB_SHA")
      as [[Habs _]|(sha & _ & _ & ->)]; [done|by eexists _, _].
Qed.

Lemma getRef_succeeds w ref :
  env w !! "GITHUB_REF" = Some ref → ref ≠ "" →
  ¬ absent w "GITHUB_SHA"
  ∨ (∃ commitOid, git_rev_parse_HEAD = Ok commitOid) ∧ pull_ref_regex ref = None →
  ∃ r w', getRef w = (Ok r, w').
Proof.
  intros Href Hne Hcan. unfold getRef.
  rewrite (bind_Ok _ _ _ _ _ (getRequiredEnvParam_present _ _ _ Href Hne)).
  set (w1 := record_event _ w).
  destruct (getCommitOid_succeeds w1) as (checkoutSha & w2 & Hcommit).
  { destruct Hcan as [Hsha|[Hgit _]]; [by right|by left]. }
  rewrite (bind_Ok _ _ _ _ _ Hcommit).
  destruct (pull_ref_regex ref) as [[[before digits] after]|] eqn:Hmatch;
    [|by eexists _, _].
  destruct Hcan as [Hsha|[_ [=]]].
  pose proof (getCommitOid_keeps_env _ _ _ Hcommit) as Henv.
  destruct (getRequiredEnvParam_cases w2 "GITHUB_SHA")
    as [[Habs _]|(sha & _ & _ & Hok)].
  - exfalso. apply Hsha. unfold absent, keeps_env in *. by rewrite Henv in Habs.
  - rewrite (bind_Ok _ _ _ _ _ Hok). destruct (negb _); by eexists _, _.
Qed.

Lemma createStatusReportBase_fails actionName status actionStartedAt cause
    exception w :
  absent w "GITHUB_REF"
  ∨ absent w "GITHUB_SHA"
    ∧ ((∃ e, git_rev_parse_HEAD = Throw e)
       ∨ ∃ ref, env w !! "GITHUB_REF" = Some ref ∧ is_Some (pull_ref_regex ref))
  ∨ env w !! "CODEQL_ACTION_ANALYSIS_KEY" = None
    ∧ (absent w "GITHUB_REPOSITORY" ∨ absent w "GITHUB_RUN_ID"
       ∨ absent w "GITHUB_JOB") →
  ∃ e w',
    createStatusReportBase actionName status actionStartedAt cause exception w
    = (Throw e, w').
Proof.
  intros Hmissing. unfold createStatusReportBase.
  rewrite (bind_Ok _ _ w (env w !! "GITHUB_SHA") w) by done.
  destruct (getRef w) as [[ref|e] w1] eqn:Eref;
    [|eexists _, _; by apply bind_Throw].
  rewrite (bind_Ok _ _ _ _ _ Eref).
  pose proof (getRef_keeps_env _ _ _ Eref) as Henv.
  destruct Hmissing as [Href|[Hsha|[Hkey Hid]]].
  - destruct (getRef_fails w (or_introl Href)) as (e & w' & ?). congruence.
  - destruct (getRef_fails w (or_intror Hsha)) as (e & w' & ?). congruence.
  - rewrite (bind_Ok _ _ w1 (env w1 !! "GITHUB_RUN_ID") w1) by done.
    rewrite (bind_Ok _ _ w1 (env w1 !! "GITHUB_WORKFLOW") w1) by done.
    rewrite (bind_Ok _ _ w1 (env w1 !! "GITHUB_JOB") w1) by done.
    destruct (getAnalysisKey_fails w1) as (e & w' & Hfail).
    + by rewrite Henv.
    + unfold absent in *. by rewrite !Henv.
    + eexists _, _. by apply bind_Throw.
Qed.

Lemma createStatusReportBase_composes actionName status actionStartedAt cause
    exception w ref key matrix :
  env w !! "GITHUB_REF" = Some ref → ref ≠ "" →
  ¬ absent w "GITHUB_SHA"
  ∨ (∃ commitOid, git_rev_parse_HEAD = Ok commitOid) ∧ pull_ref_regex ref = None →
  env w !! "CODEQL_ACTION_ANALYSIS_KEY" = Some key →
  env w !! "INPUT_MATRIX" = Some matrix → matrix ≠ "" →
  CODEQL_WORKFLOW_STARTED_AT ≠ "INPUT_MATRIX" →
  ∃ report w',
    createStatusReportBase actionName status actionStartedAt cause exception w
    = (Ok report, w')
    ∧ (absent w "GITHUB_RUN_ID" → Report.workflow_run_id report = Num (-1))
    ∧ (absent w "GITHUB_SHA" → Report.commit_oid report = "")
    ∧ (absent w "GITHUB_WORKFLOW" → Report.workflow_name report = "")
    ∧ (absent w "GITHUB_JOB" → Report.job_name report = "").
Proof.
  intros Href Hne Hcan Hkey Hmatrix Hsupplied Hname.
  destruct (getRef_succeeds w ref Href Hne Hcan) as (r & w1 & Eref).
  pose proof (getRef_keeps_env _ _ _ Eref) as Henv. unfold keeps_env in Henv.
  assert (getAnalysisKey w1 = (Ok key, w1)) as Ekey.
  { unfold getAnalysisKey, getenv, mbind, M_bind. by rewrite Henv, Hkey. }
  assert (∃ t w2,
            match env w1 !! CODEQL_WORKFLOW_STARTED_AT with
            | Some t => mret t
            | None =>
                exportVariable CODEQL_WORKFLOW_STARTED_AT
                  (toISOString actionStartedAt);;
                mret (toISOString actionStartedAt)
            end w1 = (Ok t, w2)
            ∧ env w2 !! "INPUT_MATRIX" = Some matrix)
    as (t & w2 & Estarted & Hmatrix2).
  { destruct (env w1 !! CODEQL_WORKFLOW_STARTED_AT).
    - eexists _, _. split; [reflexivity|by rewrite Henv].
    - eexists _, _. split; [reflexivity|]. cbn [env with_var].
      rewrite lookup_partial_alter_ne by done. by rewrite Henv. }
  assert (∃ completed,
            (if is_terminal status
             then d ← new_Date; mret (Some (toISOString d))
             else mret None) w2 = (Ok completed, w2)) as [completed Ecompleted].
  { destruct (is_terminal status); by eexists. }
  assert (getRequiredInput "matrix" w2 = (Ok (trim matrix), w2)) as Einput.
  { unfold getRequiredInput, getInput, getenv, mbind, M_bind.
    change ("INPUT_" +:+ input_name "matrix") with "INPUT_MATRIX".
    rewrite Hmatrix2. cbn [default andb]. by rewrite bool_decide_eq_false_2. }
  eexists _, _. split.
  { unfold createStatusReportBase.
    rewrite (bind_Ok _ _ w (env w !! "GITHUB_SHA") w) by done.
    rewrite (bind_Ok _ _ _ _ _ Eref).
    rewrite (bind_Ok _ _ w1 (env w1 !! "GITHUB_RUN_ID") w1) by done.
    rewrite (bind_Ok _ _ w1 (env w1 !! "GITHUB_WORKFLOW") w1) by done.
    rewrite (bind_Ok _ _ w1 (env w1 !! "GITHUB_JOB") w1) by done.
    rewrite (bind_Ok _ _ _ _ _ Ekey).
    rewrite (bind_Ok _ _ w1 (env w1 !! CODEQL_WORKFLOW_STARTED_AT) w1) by done.
    rewrite (bind_Ok _ _ _ _ _ Estarted).
    rewrite (bind_Ok _ _ _ _ _ Ecompleted).
    rewrite (bind_Ok _ _ _ _ _ Einput).
    reflexivity. }
  cbn [Report.workflow_run_id Report.commit_oid Report.workflow_name
       Report.job_name].
  rewrite !Henv. unfold absent.
  split_and!; intros Habs.
  - by rewrite Habs.
  - by destruct (env w !! "GITHUB_SHA") as [[|c sha]|].
  - by destruct (env w !! "GITHUB_WORKFLOW") as [[|c name]|].
  - by destruct (env w !! "GITHUB_JOB") as [[|c name]|].
Qed.

(** C6, as amended. Composing a status report fails whenever the ref is
    absent; whenever the commit id is absent while it is needed to resolve
    the ref (git does not answer, or the ref is the merge ref of a pull
    request); and, when no analysis key was recorded for the job, whenever
    the repository name, the workflow run id or the job name is absent.
    The absence of the run id, the commit id, the workflow name or the job
    name is no failure by itself: when the ref is set and can be resolved
    (the commit id is set, or git answers and the ref is not the merge ref
    of a pull request), an analysis key is recorded and the [matrix] input
    is supplied (in another variable than the one that records the start of
    the workflow), the report is composed, and it carries [-1] for an absent
    run id and the empty string for an absent commit id, workflow name or
    job name. *)
Theorem createStatusReportBase_missing_identity actionName status
    actionStartedAt cause exception w :
  (absent w "GITHUB_REF"
   ∨ absent w "GITHUB_SHA"
     ∧ ((∃ e, git_rev_parse_HEAD = Throw e)
        ∨ ∃ ref, env w !! "GITHUB_REF" = Some ref ∧ is_Some (pull_ref_regex ref))
   ∨ env w !! "CODEQL_ACTION_ANALYSIS_KEY" = None
     ∧ (absent w "GITHUB_REPOSITORY" ∨ absent w "GITHUB_RUN_ID"
        ∨ absent w "GITHUB_JOB") →
   ∃ e w',
     createStatusReportBase actionName status actionStartedAt cause exception w
     = (Throw e, w'))
  ∧ (∀ ref key matrix,
       env w !! "GITHUB_REF" = Some ref → ref ≠ "" →
       ¬ absent w "GITHUB_SHA"
       ∨ (∃ commitOid, git_rev_parse_HEAD = Ok commitOid)
         ∧ pull_ref_regex ref = None →
       env w !! "CODEQL_ACTION_ANALYSIS_KEY" = Some key →
       env w !! "INPUT_MATRIX" = Some matrix → matrix ≠ "" →
       CODEQL_WORKFLOW_STARTED_AT ≠ "INPUT_MATRIX" →
       ∃ report w',
         createStatusReportBase actionName status actionStartedAt cause
           exception w
         = (Ok report, w')
         ∧ (absent w "GITHUB_RUN_ID" → Report.workflow_run_id report = Num (-1))
         ∧ (absent w "GITHUB_SHA" → Report.commit_oid report = "")
         ∧ (absent w "GITHUB_WORKFLOW" → Report.workflow_name report = "")
         ∧ (absent w "GITHUB_JOB" → Report.job_name report = "")).
Proof.
  split.
  - apply createStatusReportBase_fails.
  - intros ref key matrix. apply createStatusReportBase_composes.
Qed.

(** ** Further properties of upload-lib.ts *)

(** *** validateSarifFileSchema *)

Lemma for_of_error_groups (errors : list ValidationError) w :
  for_of errors (λ error,
    emit (StartGroup ("Error details: " +:+ stack error));;
    emit (Info (details error));;
    emit EndGroup) w
  = (Ok (), {| env := env w; fs := fs w; now := now w;
               trace := concat (reverse (map error_group errors)) ++ trace w |}).
Proof.
  revert w. induction errors as [|e es IH]; intros w.
  - cbn. by destruct w.
  - cbn [for_of]. unfold mbind at 1, M_bind at 1.
    unfold mbind at 1 2, M_bind at 1 2, emit. rewrite IH.
    cbn [map record_event env fs now trace].
    rewrite reverse_cons, concat_app, <- (assoc_L (++)). cbn [concat].
    by rewrite app_nil_r.
Qed.

(** X1. A file that is read and parsed but violates the schema makes the
    validation throw one error whose message lists the stack of every
    violation, in the order the validator gave them, after each violation
    was logged in a group of its own; nothing else changes. *)
Theorem validateSarifFileSchema_reports_every_violation w sarifFilePath text sarif :
  fs w !! sarifFilePath = Some (File text) →
  JSON_parse text = Ok sarif →
  jsonschema_validate sarif ≠ [] →
  ∃ w',
    validateSarifFileSchema sarifFilePath w
    = (Throw (not_valid_sarif sarifFilePath (jsonschema_validate sarif)), w')
    ∧ trace w'
      = concat (reverse (map error_group (jsonschema_validate sarif))) ++ trace w
    ∧ env w' = env w ∧ fs w' = fs w.
Proof.
  intros Hfile Hparse Herrors.
  unfold validateSarifFileSchema, readFileSync, lift.
  unfold mbind at 1 2, M_bind at 1 2. rewrite Hfile, Hparse.
  destruct (jsonschema_validate sarif) as [|e es] eqn:Hes; [done|].
  eexists. split.
  - unfold mbind at 1, M_bind at 1. rewrite for_of_error_groups. reflexivity.
  - done.
Qed.

Lemma validateSarifFileSchema_Ok_inv w sarifFilePath w' :
  validateSarifFileSchema sarifFilePath w = (Ok (), w') →
  validates w sarifFilePath ∧ w' = w.
Proof.
  unfold validateSarifFileSchema, readFileSync, lift.
  unfold mbind at 1 2, M_bind at 1 2.
  destruct (fs w !! sarifFilePath) as [[text|]|] eqn:Hfile; [|done..].
  destruct (JSON_parse text) as [sarif|] eqn:Hparse; [|done].
  destruct (jsonschema_validate sarif) as [|e es] eqn:Hes.
  - intros [= <-]. split; [|done]. by exists text, sarif.
  - unfold mbind at 1, M_bind at 1. by rewrite for_of_error_groups.
Qed.

(** X2. The validation of a file succeeds exactly when the file exists,
    parses and has no schema violation, and it then leaves the world as it
    was: a success logs nothing. *)
Theorem validateSarifFileSchema_succeeds_iff w sarifFilePath w' :
  validateSarifFileSchema sarifFilePath w = (Ok (), w')
  ↔ validates w sarifFilePath ∧ w' = w.
Proof.
  split.
  - apply validateSarifFileSchema_Ok_inv.
  - intros [Hvalid ->]. by apply (validateSarifFileSchema_valid w).
Qed.

Lemma for_of_validateSarifFileSchema_inv files w u w' :
  for_of files validateSarifFileSchema w = (Ok u, w') →
  Forall (validates w) files ∧ w' = w.
Proof.
  induction files as [|f rest IH]; cbn [for_of].
  - by intros [= _ <-].
  - unfold mbind at 1, M_bind at 1.
    destruct (validateSarifFileSchema f w) as [[[]|e] w1] eqn:Ef; [|done].
    apply validateSarifFileSchema_Ok_inv in Ef as [Hf ->].
    intros [Hrest ->]%IH. by split; [constructor|].
Qed.

(** *** countResultsInSarif *)

Lemma array_length items :
  get_prop (JArr items) "length" = Ok (JNum (Num (Z.of_nat (length items)))).
Proof. unfold get_prop. by rewrite decide_True. Qed.

Lemma countResultsInSarif_loop_sum runs (resultss : list (list jsval)) :
  Forall2 has_results runs resultss →
  ∀ n, countResultsInSarif_loop runs (JNum (Num n))
       = Ok (JNum (Num (n + Z.of_nat (length (concat resultss))))).
Proof.
  induction 1 as [|run results runs' resultss' Hrun _ IH]; intros n.
  - cbn. by rewrite Z.add_0_r.
  - cbn [countResultsInSarif_loop]. unfold has_results in Hrun. rewrite Hrun.
    unfold mbind, Res_bind. rewrite array_length. cbn. rewrite IH.
    do 3 f_equal. rewrite length_app. lia.
Qed.

(** X3. For a payload whose runs all have an array of results, the count is
    the total number of results over all runs. *)
Theorem countResultsInSarif_sums sarif doc runs (resultss : list (list jsval)) :
  JSON_parse sarif = Ok doc →
  get_prop doc "runs" = Ok (JArr runs) →
  Forall2 has_results runs resultss →
  countResultsInSarif sarif
  = Ok (JNum (Num (Z.of_nat (length (concat resultss))))).
Proof.
  intros Hparse Hruns Hresults. unfold countResultsInSarif.
  rewrite Hparse. cbn. rewrite Hruns. cbn.
  by rewrite (countResultsInSarif_loop_sum _ _ Hresults).
Qed.

(** X4. A run that has no [results] property, after runs that have one,
    makes the count throw a [TypeError]: the length of [undefined] is read. *)
Theorem countResultsInSarif_missing_results sarif doc before run after
    (resultss : list (list jsval)) :
  JSON_parse sarif = Ok doc →
  get_prop doc "runs" = Ok (JArr (before ++ run :: after)) →
  Forall2 has_results before resultss →
  get_prop run "results" = Ok JUndefined →
  countResultsInSarif sarif
  = Throw (TypeError "Cannot read property 'length' of undefined").
Proof.
  intros Hparse Hruns Hbefore Hrun. unfold countResultsInSarif.
  rewrite Hparse. cbn. rewrite Hruns. cbn. clear Hruns.
  generalize 0. induction Hbefore as [|r rs before' resultss' Hr _ IH]; intros n.
  - cbn [app countResultsInSarif_loop]. by rewrite Hrun.
  - cbn [app countResultsInSarif_loop]. unfold has_results in Hr. rewrite Hr.
    unfold mbind at 1 2, Res_bind at 1 2. rewrite array_length. cbn. apply IH.
Qed.

(** *** uploadFiles and upload *)

Lemma validates_fs w w0 sarifFilePath :
  fs w0 = fs w → validates w0 sarifFilePath → validates w sarifFilePath.
Proof. intros Hfs (text & sarif & Hfile & ?). exists text, sarif. by rewrite <- Hfs. Qed.

Lemma uploadPayload_keeps_env payload repositoryNwo githubAuth githubUrl mode :
  preserves keeps_env (uploadPayload payload repositoryNwo githubAuth githubUrl mode).
Proof. unfold uploadPayload, request. frame. Qed.

Lemma uploadPayload_outcome payload repositoryNwo githubAuth githubUrl mode w r w' :
  env w !! "TEST_MODE" ≠ Some "true" →
  uploadPayload payload repositoryNwo githubAuth githubUrl mode w = (r, w') →
  r = (api_request (ApiClient githubAuth githubUrl mode) (upload_route mode)
         [("owner", JStr (owner repositoryNwo));
          ("repo", JStr (repo repositoryNwo));
          ("data", JStr payload)] ≫= λ _, Ok ()).
Proof.
  intros Htest.
  unfold uploadPayload, request, emit, getenv, lift, mbind, M_bind, Res_bind. cbn.
  rewrite orb_false_r, bool_decide_eq_false_2 by done.
  unfold upload_route. destruct (api_request _ _ _); by intros [= <- <-].
Qed.

Lemma cons_neq {A} (x : A) l : l ≠ x :: l.
Proof. intros Heq. apply (f_equal length) in Heq. cbn in Heq. lia. Qed.

Section UploadMore.
Variables (sarifFiles : list string) (repositoryNwo : RepositoryNwo)
  (commitOid ref : string) (analysisKey analysisName : option string)
  (workflowRunID : option number) (checkoutPath : string)
  (environment : option string) (githubAuth githubUrl : string) (mode : Mode).

Lemma uploadFiles_validated w r w' :
  uploadFiles sarifFiles repositoryNwo commitOid ref analysisKey analysisName
    workflowRunID checkoutPath environment githubAuth githubUrl mode w = (r, w') →
  (∃ e, r = Throw e ∧ no_traffic w w') ∨ Forall (validates w) sarifFiles.
Proof.
  unfold uploadFiles. intros E.
  assert (no_traffic w w) as HT0 by done.
  quiet_step E E1 u1 w1 HT0 HT1. quiet_step E E2 u2 w2 HT1 HT2.
  quiet_step E E3 u3 w3 HT2 HT3.
  right. apply for_of_validateSarifFileSchema_inv in E3 as [Hvalid _].
  destruct HT2 as (Hfs & _).
  eapply Forall_impl; [exact Hvalid|]. intros f. by apply validates_fs.
Qed.

Lemma validateSarifFileSchema_invalid w sarifFilePath text sarif :
  fs w !! sarifFilePath = Some (File text) →
  JSON_parse text = Ok sarif →
  jsonschema_validate sarif ≠ [] →
  ∃ w',
    validateSarifFileSchema sarifFilePath w
    = (Throw (not_valid_sarif sarifFilePath (jsonschema_validate sarif)), w')
    ∧ logs_only w w'.
Proof.
  intros Hfile Hparse Herrors.
  destruct (validateSarifFileSchema sarifFilePath w) as [r w'] eqn:E.
  exists w'. split; [|by apply (validateSarifFileSchema_logs_only _ _ _ _ E)].
  revert E. unfold validateSarifFileSchema, readFileSync, lift.
  unfold mbind at 1 2, M_bind at 1 2. rewrite Hfile, Hparse.
  destruct (jsonschema_validate sarif) as [|e es] eqn:Hes; [done|].
  unfold mbind at 1, M_bind at 1. rewrite for_of_error_groups.
  by intros [= <- <-].
Qed.

Lemma for_of_validateSarifFileSchema_first_invalid w valid bad rest text sarif :
  Forall (validates w) valid →
  fs w !! bad = Some (File text) →
  JSON_parse text = Ok sarif →
  jsonschema_validate sarif ≠ [] →
  ∃ w',
    for_of (valid ++ bad :: rest) validateSarifFileSchema w
    = (Throw (not_valid_sarif bad (jsonschema_validate sarif)), w')
    ∧ logs_only w w'.
Proof.
  intros Hvalid Hfile Hparse Herrors.
  induction Hvalid as [|f valid' Hf _ IH]; cbn [app for_of].
  - destruct (validateSarifFileSchema_invalid w bad text sarif)
      as (w' & Hthrow & Hlogs); [done..|].
    exists w'. split; [by apply bind_Throw|done].
  - by rewrite (bind_Ok _ _ _ _ _
                  (validateSarifFileSchema_valid w w f eq_refl Hf)).
Qed.

(** X5. Every file is validated before anything is combined or sent: when
    a file violates the schema and the files listed before it are valid,
    the upload throws the error of that file and makes no request, whatever
    the other files hold, so also when the files could not be combined. *)
Theorem uploadFiles_validates_all_first w valid bad rest text sarif :
  sarifFiles = valid ++ bad :: rest →
  mode = standalone ∨ truthy (env w !! sentinelEnvVar) = false →
  Forall (validates w) valid →
  fs w !! bad = Some (File text) →
  JSON_parse text = Ok sarif →
  jsonschema_validate sarif ≠ [] →
  ∃ w',
    uploadFiles sarifFiles repositoryNwo commitOid ref analysisKey analysisName
      workflowRunID checkoutPath environment githubAuth githubUrl mode w
    = (Throw (not_valid_sarif bad (jsonschema_validate sarif)), w')
    ∧ requests w' = requests w.
Proof.
  intros -> Hfree Hvalid Hfile Hparse Herrors.
  set (w1 := record_event (uploading (valid ++ bad :: rest)) w).
  assert (∃ w2, uploadFiles_guard mode w1 = (Ok (), w2) ∧ fs w2 = fs w
                ∧ requests w2 = requests w) as (w2 & Hguard & Hfs & Hreq).
  { destruct mode.
    - destruct Hfree as [[=]|Hfree].
      eexists. split; [by apply uploadFiles_guard_fresh|]. done.
    - by exists w1. }
  destruct (for_of_validateSarifFileSchema_first_invalid w2 valid bad rest
              text sarif) as (w3 & Hthrow & _ & _ & _ & Hreq3);
    [|by rewrite Hfs|done..|].
  { eapply Forall_impl; [exact Hvalid|]. intros f. by apply validates_fs. }
  exists w3. split; [|congruence].
  unfold uploadFiles.
  rewrite (bind_Ok _ _ w () w1) by done.
  rewrite (bind_Ok _ _ _ _ _ Hguard).
  by apply bind_Throw.
Qed.

(** X6. The number of results an upload reports is counted on the
    fingerprinted payload, the text that is compressed and sent. *)
Theorem uploadFiles_counts_the_payload w report w' :
  uploadFiles sarifFiles repositoryNwo commitOid ref analysisKey analysisName
    workflowRunID checkoutPath environment githubAuth githubUrl mode w
  = (Ok report, w') →
  ∃ combinedText sarifPayload,
    combineSarifFiles sarifFiles w = (Ok combinedText, w)
    ∧ addFingerprints combinedText checkoutPath = Ok sarifPayload
    ∧ countResultsInSarif sarifPayload = Ok (num_results_in_sarif report).
Proof.
  intros E. apply uploadFiles_anatomy in E
    as [(e & [=] & _)
       |(combinedText & sarifPayload & toolNames & started_at & numResults
         & w0 & ru & _ & Hcombine & Hfinger & _ & Hcount & _ & Hr)].
  exists combinedText, sarifPayload. destruct ru; [|done].
  by injection Hr as ->.
Qed.

(** X7. An upload never touches the files, and of the environment it
    changes at most the sentinel variable; in standalone mode it changes no
    variable at all. *)
Theorem uploadFiles_changes_only_the_sentinel w r w' :
  uploadFiles sarifFiles repositoryNwo commitOid ref analysisKey analysisName
    workflowRunID checkoutPath environment githubAuth githubUrl mode w = (r, w') →
  fs w' = fs w
  ∧ (∀ name, name ≠ sentinelEnvVar → env w' !! name = env w !! name)
  ∧ (mode = standalone → env w' = env w).
Proof.
  intros E. split_and!.
  - apply uploadFiles_anatomy in E
      as [(e & _ & Hfs & _)
         |(? & ? & ? & ? & ? & w0 & ru & (Hfs & _) & _ & _ & _ & _ & Eupload & _)];
      [done|].
    apply uploadPayload_requests in Eupload as [Hfs' _]. congruence.
  - apply uploadFiles_anatomy in E
      as [(e & _ & _ & _ & Henv)
         |(? & ? & ? & ? & ? & w0 & ru & (_ & _ & Henv) & _ & _ & _ & _ & Eupload & _)];
      [done|].
    apply uploadPayload_keeps_env in Eupload. intros name Hname.
    rewrite Eupload. by apply Henv.
  - intros Hmode. revert E. rewrite Hmode.
    match goal with |- ?m w = _ → _ => assert (preserves keeps_env m) as Hm end.
    { unfold uploadFiles, uploadFiles_guard, validateSarifFileSchema,
        combineSarifFiles. frame. }
    apply Hm.
Qed.

(** X8. When the request of the upload is made and the client throws, the
    upload throws the same exception: a transport error reaches the caller
    as it is. *)
Theorem uploadFiles_propagates_transport_error w r w' payload e :
  uploadFiles sarifFiles repositoryNwo commitOid ref analysisKey analysisName
    workflowRunID checkoutPath environment githubAuth githubUrl mode w = (r, w') →
  requests w'
  = upload_request payload repositoryNwo githubAuth githubUrl mode :: requests w →
  api_request (ApiClient githubAuth githubUrl mode) (upload_route mode)
    [("owner", JStr (owner repositoryNwo));
     ("repo", JStr (repo repositoryNwo));
     ("data", JStr payload)] = Throw e →
  r = Throw e.
Proof.
  intros E Hsent Hthrow. apply uploadFiles_anatomy in E
    as [(e' & _ & _ & Hreq & _)
       |(? & sarifPayload & ? & ? & numResults & w0 & ru & (_ & Hreq & Henv)
         & _ & _ & _ & _ & Eupload & ->)].
  { rewrite Hreq in Hsent. by apply cons_neq in Hsent. }
  pose proof (uploadPayload_requests _ _ _ _ _ _ _ _ Eupload) as [_ Hreq'].
  case_bool_decide as Htest.
  { rewrite Hreq', Hreq in Hsent. by apply cons_neq in Hsent. }
  rewrite Hreq', Hreq in Hsent. injection Hsent as Hpayload.
  apply (uploadPayload_outcome _ _ _ _ _ _ _ _ Htest) in Eupload as ->.
  rewrite Hpayload, Hthrow. done.
Qed.

(** X9. When the request of the upload is made and the client returns a
    response, the upload returns its report whatever the status of the
    response is: the status is logged, not examined. *)
Theorem uploadFiles_accepts_any_response w r w' payload response :
  uploadFiles sarifFiles repositoryNwo commitOid ref analysisKey analysisName
    workflowRunID checkoutPath environment githubAuth githubUrl mode w = (r, w') →
  requests w'
  = upload_request payload repositoryNwo githubAuth githubUrl mode :: requests w →
  api_request (ApiClient githubAuth githubUrl mode) (upload_route mode)
    [("owner", JStr (owner repositoryNwo));
     ("repo", JStr (repo repositoryNwo));
     ("data", JStr payload)] = Ok response →
  is_Ok r.
Proof.
  intros E Hsent Hresponse. apply uploadFiles_anatomy in E
    as [(e' & _ & _ & Hreq & _)
       |(? & sarifPayload & ? & ? & numResults & w0 & ru & (_ & Hreq & Henv)
         & _ & _ & _ & _ & Eupload & ->)].
  { rewrite Hreq in Hsent. by apply cons_neq in Hsent. }
  pose proof (uploadPayload_requests _ _ _ _ _ _ _ _ Eupload) as [_ Hreq'].
  case_bool_decide as Htest.
  { rewrite Hreq', Hreq in Hsent. by apply cons_neq in Hsent. }
  rewrite Hreq', Hreq in Hsent. injection Hsent as Hpayload.
  apply (uploadPayload_outcome _ _ _ _ _ _ _ _ Htest) in Eupload as ->.
  rewrite Hpayload, Hresponse. by eexists.
Qed.

(** X10. A path that does not exist is refused before anything happens:
    nothing is logged and the sentinel of the job is not claimed. *)
Theorem upload_missing_path sarifPath w :
  fs w !! sarifPath = None →
  upload sarifPath repositoryNwo commitOid ref analysisKey analysisName
    workflowRunID checkoutPath environment githubAuth githubUrl mode w
  = (Throw (Error ("Path does not exist: " +:+ sarifPath)), w).
Proof.
  intros Hnone. unfold upload.
  assert (existsSync sarifPath w = (Ok false, w)) as Hexists.
  { unfold existsSync. rewrite Hnone.
    rewrite bool_decide_eq_false_2; [done|]. by intros [? [=]]. }
  rewrite (bind_Ok _ _ _ _ _ Hexists). by apply bind_Throw.
Qed.

End UploadMore.

(** ** Further properties of actions-util.ts *)


Lemma getAnalysisKey_env w key w' :
  getAnalysisKey w = (Ok key, w') →
  env w' !! "CODEQL_ACTION_ANALYSIS_KEY" = Some key
  ∧ ∀ name, name ≠ "CODEQL_ACTION_ANALYSIS_KEY" → env w' !! name = env w !! name.
Proof.
  unfold getAnalysisKey. intros E.
  step E E1 cached w1. injection E1 as <- <-.
  destruct (env w !! "CODEQL_ACTION_ANALYSIS_KEY") as [k|] eqn:Hcached.
  - by injection E as <- <-.
  - step E E2 workflowPath w2. step E E3 jobName w3. step E E4 u w4.
    unfold exportVariable, setenv in E4.
    injection E as <- <-. injection E4 as _ <-.
    apply getWorkflowPath_keeps_env in E2.
    assert (env w3 = env w2) as Henv3.
    { destruct (getRequiredEnvParam_cases w2 "GITHUB_JOB")
        as [[_ Hfail]|(value & _ & _ & Hok)]; [congruence|].
      rewrite Hok in E3. by injection E3 as _ <-. }
    cbn [env with_var]. split.
    + by rewrite lookup_partial_alter_eq.
    + intros name Hname. rewrite lookup_partial_alter_ne by done.
      by rewrite Henv3, E2.
Qed.

(** X13. The analysis key is computed once: a key that was returned is
    recorded in the environment, and asking again there returns the same key
    without any request or change. *)
Theorem getAnalysisKey_is_cached w key w' :
  getAnalysisKey w = (Ok key, w') →
  env w' !! "CODEQL_ACTION_ANALYSIS_KEY" = Some key
  ∧ getAnalysisKey w' = (Ok key, w').
Proof.
  intros [Hkey _]%getAnalysisKey_env.
  split; [done|].
  unfold getAnalysisKey, getenv, mbind, M_bind. by rewrite Hkey.
Qed.

(** X14. The commit that is checked out is what git answers, trimmed; only
    when git fails is [GITHUB_SHA] returned instead, and the call fails only
    when that variable is missing too. *)
Theorem getCommitOid_falls_back w r w' :
  getCommitOid w = (r, w') →
  match git_rev_parse_HEAD with
  | Ok commitOid => r = Ok (trim commitOid)
  | Throw _ =>
      match r with
      | Ok sha => env w !! "GITHUB_SHA" = Some sha ∧ sha ≠ ""
      | Throw e => e = must_be_set "GITHUB_SHA" ∧ absent w "GITHUB_SHA"
      end
  end.
Proof.
  unfold getCommitOid. destruct git_rev_parse_HEAD as [commitOid|e].
  - unfold mbind, M_bind, emit. by intros [= <- _].
  - unfold mbind at 1 2, M_bind at 1 2, emit.
    set (w1 := record_event _ (record_event _ w)).
    destruct (getRequiredEnvParam_cases w1 "GITHUB_SHA")
      as [[Habs ->]|(sha & Hsha & Hne & ->)]; by intros [= <- _].
Qed.

(** X15. Without the repository name or the run id the workflow path is
    not looked up: the call fails before any request is made. *)
Theorem getWorkflowPath_asks_nothing_without_identity w :
  absent w "GITHUB_REPOSITORY" ∨ absent w "GITHUB_RUN_ID" →
  ∃ name w',
    getWorkflowPath w = (Throw (must_be_set name), w')
    ∧ requests w' = requests w.
Proof.
  intros Hmissing. unfold getWorkflowPath.
  destruct (getRequiredEnvParam_cases w "GITHUB_REPOSITORY")
    as [[_ Hfail]|(nwo & Hnwo & Hne & Hok)].
  { eexists _, _. split; [by apply bind_Throw|done]. }
  destruct Hmissing as [Habs|Habs].
  { unfold absent in Habs. rewrite Hnwo in Habs. by destruct nwo. }
  rewrite (bind_Ok _ _ _ _ _ Hok).
  eexists _, _. split; [by apply bind_Throw, getRequiredEnvParam_absent|done].
Qed.

(** *** sendStatusReport, when nothing is sent or the client throws *)

(** X16. A report is not sent to a server that is not github.com, nor from
    a local run: the result is [true], no request is made and the job is not
    marked as failed. *)
Theorem sendStatusReport_skips w statusReport ignoreFailures server :
  env w !! "GITHUB_SERVER_URL" = Some server → server ≠ "" →
  server ≠ GITHUB_DOTCOM_URL ∨ isLocalRun (env w) = true →
  ∃ w',
    sendStatusReport statusReport ignoreFailures w = (Ok true, w')
    ∧ requests w' = requests w ∧ ¬ marked_failed w'.
Proof.
  intros Hserver Hne Hskip. unfold sendStatusReport.
  rewrite (bind_Ok _ _ _ _ _ (getRequiredEnvParam_present _ _ _ Hserver Hne)).
  destruct (decide (server = GITHUB_DOTCOM_URL)) as [->|Hghes].
  - destruct Hskip as [?|Hlocal]; [done|].
    rewrite bool_decide_eq_true_2 by done. cbn [negb].
    unfold mbind at 1, M_bind at 1. cbn [env record_event]. rewrite Hlocal.
    eexists. split; [reflexivity|]. split; [done|]. by intros [msg [=]].
  - rewrite bool_decide_eq_false_2 by done. cbn [negb].
    eexists. split; [reflexivity|]. split; [done|]. by intros [msg [=]].
Qed.

(** X17. Whatever the outcome, at most one request is made for a status
    report, to the status endpoint of the repository and with the serialised
    report as its data; and when the client throws, the same exception is
    thrown to the caller and the job is not marked as failed. *)
Theorem sendStatusReport_one_request w statusReport ignoreFailures r w' :
  sendStatusReport statusReport ignoreFailures w = (r, w') →
  requests w' = requests w
  ∨ ∃ nwo,
      env w !! "GITHUB_REPOSITORY" = Some nwo
      ∧ requests w'
        = Request ActionsApiClient
            (status_request nwo (JSON_stringify statusReport)).1
            (status_request nwo (JSON_stringify statusReport)).2
          :: requests w
      ∧ ∀ e,
          api_request ActionsApiClient
            (status_request nwo (JSON_stringify statusReport)).1
            (status_request nwo (JSON_stringify statusReport)).2 = Throw e →
          r = Throw e ∧ ¬ marked_failed w'.
Proof.
  unfold sendStatusReport. intros E.
  destruct (getRequiredEnvParam_cases w "GITHUB_SERVER_URL")
    as [[_ Hfail]|(server & _ & _ & Hok)].
  { rewrite (bind_Throw _ _ _ _ _ Hfail) in E. injection E as _ <-. by left. }
  rewrite (bind_Ok _ _ _ _ _ Hok) in E.
  destruct (negb _); [injection E as _ <-; by left|].
  unfold mbind at 1, M_bind at 1 in E. cbn [env record_event] in E.
  destruct (isLocalRun (env w)); [injection E as _ <-; by left|].
  unfold mbind at 1, M_bind at 1 in E. cbn [emit] in E.
  set (w1 := record_event _ (record_event _ w)) in E.
  destruct (getRequiredEnvParam_cases w1 "GITHUB_REPOSITORY")
    as [[_ Hfail]|(nwo & Hnwo & _ & Hrepo)].
  { rewrite (bind_Throw _ _ _ _ _ Hfail) in E. injection E as _ <-. by left. }
  rewrite (bind_Ok _ _ _ _ _ Hrepo) in E.
  right. exists nwo. split; [done|].
  unfold status_request. cbn [fst snd].
  unfold request, emit, lift in E. unfold mbind at 1 2, M_bind at 1 2 in E.
  destruct (api_request _ _ _) as [response|e'].
  - split; [|done]. unfold mbind, M_bind in E.
    destruct (negb _); [|by injection E as _ <-].
    repeat case_bool_decide; by injection E as _ <-.
  - injection E as <- <-. split; [done|].
    intros e [= ->]. split; [done|]. by intros [msg [=]].
Qed.

(** *** getRef and its regular expression *)

Lemma strip_prefix_sound p : ∀ s r, strip_prefix p s = Some r → s = p +:+ r.
Proof.
  unfold strip_prefix. induction p as [|c p IH]; intros s r.
  - replace (String.prefix "" s) with true by (by destruct s).
    cbn. rewrite Nat.sub_0_r, substring_all. by intros [= ->].
  - destruct s as [|c' s']; [done|]. cbn.
    destruct (ascii_dec c c') as [->|]; [|done].
    intros Hr%IH. by rewrite append_cons, <- Hr.
Qed.

Lemma strip_prefix_app p r : strip_prefix p (p +:+ r) = Some r.
Proof.
  unfold strip_prefix.
  assert (String.prefix p (p +:+ r) = true) as ->.
  { induction p as [|c p IH]; [by destruct r|]. rewrite append_cons. cbn.
    by destruct (ascii_dec c c). }
  rewrite app_length_string.
  replace (String.length p + String.length r - String.length p)%nat
    with (String.length r) by lia.
  by rewrite substring_app_r.
Qed.

Lemma span_digits_sound s : ∀ d r,
  span_digits s = (d, r) → s = d +:+ r ∧ all_digits d = true.
Proof.
  induction s as [|c s IH]; intros d r; cbn.
  - by intros [= <- <-].
  - destruct (is_digit c) eqn:Hc; [|by intros [= <- <-]].
    destruct (span_digits s) as [d' r'] eqn:Hs. intros [= <- <-].
    destruct (IH _ _ eq_refl) as [-> Hd']. split; [done|].
    cbn. by rewrite Hc.
Qed.

Lemma span_digits_app d r :
  all_digits d = true →
  (∀ c r', r = String c r' → is_digit c = false) →
  span_digits (d +:+ r) = (d, r).
Proof.
  intros Hd Hr. induction d as [|c d IH].
  - destruct r as [|c r']; [done|].
    change ("" +:+ String c r') with (String c r'). cbn [span_digits].
    by rewrite (Hr c r').
  - cbn [all_digits] in Hd. apply andb_prop in Hd as [Hc Hd].
    rewrite append_cons. cbn [span_digits]. by rewrite Hc, IH.
Qed.

Lemma pull_ref_regex_here_sound s digits after :
  pull_ref_regex_here s = Some (digits, after) →
  s = "refs/pull/" +:+ digits +:+ "/merge" +:+ after
  ∧ digits ≠ "" ∧ all_digits digits = true.
Proof.
  unfold pull_ref_regex_here.
  destruct (strip_prefix "refs/pull/" s) as [r|] eqn:Hr; [|done]. cbn.
  apply strip_prefix_sound in Hr as ->.
  destruct (span_digits r) as [d r'] eqn:Hd.
  apply span_digits_sound in Hd as [-> Hd].
  case_bool_decide; [done|].
  destruct (strip_prefix "/merge" r') as [a|] eqn:Ha; [|done]. cbn.
  apply strip_prefix_sound in Ha as ->. by intros [= <- <-].
Qed.

Lemma pull_ref_regex_unfold s :
  pull_ref_regex s
  = match pull_ref_regex_here s with
    | Some (digits, after) => Some (EmptyString, digits, after)
    | None =>
        match s with
        | EmptyString => None
        | String c rest =>
            '(before, digits, after) ← pull_ref_regex rest;
            Some (String c before, digits, after)
        end
    end.
Proof. by destruct s. Qed.

Lemma pull_ref_regex_sound s : ∀ before digits after,
  pull_ref_regex s = Some (before, digits, after) →
  s = before +:+ "refs/pull/" +:+ digits +:+ "/merge" +:+ after
  ∧ digits ≠ "" ∧ all_digits digits = true.
Proof.
  induction s as [|c s IH]; intros before digits after;
    rewrite pull_ref_regex_unfold.
  - destruct (pull_ref_regex_here "") as [[d a]|] eqn:Hhere; [|done].
    intros [= <- <- <-]. by apply pull_ref_regex_here_sound.
  - destruct (pull_ref_regex_here (String c s)) as [[d a]|] eqn:Hhere.
    + intros [= <- <- <-]. by apply pull_ref_regex_here_sound.
    + destruct (pull_ref_regex s) as [[[b d] a]|] eqn:Hrest; [|done].
      cbn. intros [= <- <- <-].
      destruct (IH _ _ _ eq_refl) as (-> & ? & ?). by rewrite append_cons.
Qed.

Lemma pull_ref_regex_merge_ref number :
  number ≠ "" → all_digits number = true →
  pull_ref_regex ("refs/pull/" +:+ number +:+ "/merge")
  = Some ("", number, "").
Proof.
  intros Hne Hdigits. rewrite pull_ref_regex_unfold.
  unfold pull_ref_regex_here. rewrite strip_prefix_app. cbn.
  rewrite span_digits_app; [|done|by intros c r' [= <- _]].
  rewrite bool_decide_eq_false_2 by done. reflexivity.
Qed.

(** *** White space and numbers *)

Lemma strip_while_done drop :
  (∀ s r, drop s = Some r → (String.length r < String.length s)%nat) →
  ∀ fuel s, (String.length s ≤ fuel)%nat →
    drop (strip_while drop fuel s) = None.
Proof.
  intros Hshorter. induction fuel as [|fuel IH]; intros s Hs; cbn.
  - destruct (drop s) as [r|] eqn:Hr; [|done].
    apply Hshorter in Hr. lia.
  - destruct (drop s) as [r|] eqn:Hr; [|done].
    apply IH. apply Hshorter in Hr. lia.
Qed.

Lemma white_space_not_empty :
  Forall (λ sp, (0 < String.length sp)%nat) white_space.
Proof. vm_compute. repeat constructor. Qed.

Lemma substring_app_l a b : String.substring 0 (String.length a) (a +:+ b) = a.
Proof.
  induction a as [|c a IH]; [by destruct b|].
  rewrite append_cons. cbn. by rewrite IH.
Qed.

Lemma strip_suffix_sound p s r : strip_suffix p s = Some r → s = r +:+ p.
Proof.
  unfold strip_suffix. destruct (endsWith s p) eqn:Hends; [|done].
  apply endsWith_spec in Hends as [stem ->]. intros [= <-].
  rewrite app_length_string.
  replace (String.length stem + String.length p - String.length p)%nat
    with (String.length stem) by lia.
  by rewrite substring_app_l.
Qed.

Lemma drop_space_shorter s r :
  drop_space s = Some r → (String.length r < String.length s)%nat.
Proof.
  unfold drop_space. intros Hr%head_Some_elem_of.
  apply list_elem_of_omap in Hr as (sp & Hsp & Hstrip).
  apply strip_prefix_sound in Hstrip as ->. rewrite app_length_string.
  assert (0 < String.length sp)%nat
    by apply (proj1 (Forall_forall _ _) white_space_not_empty sp Hsp).
  lia.
Qed.

Lemma drop_space_end_shorter s r :
  drop_space_end s = Some r → (String.length r < String.length s)%nat.
Proof.
  unfold drop_space_end. intros Hr%head_Some_elem_of.
  apply list_elem_of_omap in Hr as (sp & Hsp & Hstrip).
  apply strip_suffix_sound in Hstrip as ->. rewrite app_length_string.
  assert (0 < String.length sp)%nat
    by apply (proj1 (Forall_forall _ _) white_space_not_empty sp Hsp).
  lia.
Qed.

(** The length of the string is fuel enough: what [trimStart] returns does
    not start with white space, what [trimEnd] returns does not end with
    any. *)
Lemma trimStart_done s : drop_space (trimStart s) = None.
Proof. by apply strip_while_done; [apply drop_space_shorter|]. Qed.

Lemma trimEnd_done s : drop_space_end (trimEnd s) = None.
Proof. by apply strip_while_done; [apply drop_space_end_shorter|]. Qed.

Lemma to_double_exact z : Z.abs z < 2 ^ 53 → to_double z = Num z.
Proof.
  intros Hz. unfold to_double.
  assert (Z.log2 (Z.abs z) < 53) as Hlog.
  { destruct (decide (Z.abs z = 0)) as [->|Hne]; [done|].
    apply Z.log2_lt_pow2; lia. }
  by rewrite (proj2 (Z.leb_le _ _)) by lia.
Qed.

Lemma digit_starts_no_space c r :
  is_digit c = true →
  drop_space (String c r) = None ∧ c ≠ "-"%char ∧ c ≠ "+"%char.
Proof.
  intros Hc.
  destruct c as [[] [] [] [] [] [] [] []]; vm_compute in Hc; try discriminate Hc;
    by split_and!.
Qed.

Lemma span_digits_all d : all_digits d = true → span_digits d = (d, "").
Proof.
  induction d as [|c d IH]; [done|]. cbn [all_digits span_digits].
  intros [Hc Hd]%andb_prop. by rewrite Hc, IH.
Qed.

Lemma digits_value_nonneg d : ∀ acc,
  all_digits d = true → 0 ≤ acc → 0 ≤ digits_value d acc.
Proof.
  induction d as [|c d IH]; intros acc; [done|]. cbn [all_digits digits_value].
  intros [Hc Hd]%andb_prop Hacc. apply IH; [done|].
  unfold is_digit in Hc. apply andb_prop in Hc as [Hlow _].
  apply Nat.leb_le in Hlow. lia.
Qed.

(** A text made of digits parses as the double nearest to its value. *)
Lemma parseInt_digits d :
  d ≠ "" → all_digits d = true → parseInt d = to_double (digits_value d 0).
Proof.
  intros Hne Hd. destruct d as [|c r]; [done|].
  pose proof Hd as Hspan%span_digits_all.
  cbn [all_digits] in Hd. apply andb_prop in Hd as [Hc _].
  destruct (digit_starts_no_space c r Hc) as (Hspace & Hminus & Hplus).
  unfold parseInt, trimStart. cbn [String.length strip_while]. rewrite Hspace.
  destruct (decide (c = "-"%char)) as [|_]; [done|].
  destruct (decide (c = "+"%char)) as [|_]; [done|].
  assert (match String c r with
          | String "-" r0 => (true, r0)
          | String "+" r0 => (false, r0)
          | r0 => (false, r0)
          end = (false, String c r)) as ->.
  { destruct c as [[] [] [] [] [] [] [] []]; done. }
  by rewrite Hspan.
Qed.

(** X12. The workflow run id that is returned is never [NaN]: it is what
    [parseInt] makes of a [GITHUB_RUN_ID] that is set, the double nearest to
    the decimal value at its head, and for a run id made of digits whose
    value is below 2^53 it is that value. *)
Theorem getWorkflowRunID_is_a_number w n w' :
  getWorkflowRunID w = (Ok n, w') →
  ∃ value,
    env w !! "GITHUB_RUN_ID" = Some value ∧ value ≠ ""
    ∧ n = parseInt value ∧ n ≠ NaN
    ∧ (all_digits value = true → digits_value value 0 < 2 ^ 53 →
       n = Num (digits_value value 0)).
Proof.
  unfold getWorkflowRunID. intros E.
  destruct (getRequiredEnvParam_cases w "GITHUB_RUN_ID")
    as [[_ Hfail]|(value & Hvalue & Hne & Hok)].
  - by rewrite (bind_Throw _ _ _ _ _ Hfail) in E.
  - rewrite (bind_Ok _ _ _ _ _ Hok) in E.
    assert (n = parseInt value ∧ n ≠ NaN) as [-> Hnan].
    { destruct (parseInt value) as [z|negative|]; [| |done];
        by injection E as <- _. }
    exists value. split_and!; [done..|].
    intros Hdigits Hsmall. rewrite parseInt_digits by done.
    apply to_double_exact.
    pose proof (digits_value_nonneg value 0 Hdigits). lia.
Qed.

Lemma pull_ref_regex_here_complete digits after :
  digits ≠ "" → all_digits digits = true →
  pull_ref_regex_here ("refs/pull/" +:+ digits +:+ "/merge" +:+ after)
  = Some (digits, after).
Proof.
  intros Hne Hdigits. unfold pull_ref_regex_here. rewrite strip_prefix_app. cbn.
  rewrite span_digits_app; [|done|by intros c r' [= <- _]].
  rewrite bool_decide_eq_false_2 by done.
  by rewrite (strip_prefix_app "/merge").
Qed.

(** The match that [pull_ref_regex] returns is the leftmost one. *)
Lemma pull_ref_regex_leftmost s : ∀ before digits after,
  pull_ref_regex s = Some (before, digits, after) →
  ∀ before' digits' after',
    s = before' +:+ "refs/pull/" +:+ digits' +:+ "/merge" +:+ after' →
    digits' ≠ "" → all_digits digits' = true →
    (String.length before ≤ String.length before')%nat.
Proof.
  induction s as [|c s IH]; intros before digits after;
    rewrite pull_ref_regex_unfold.
  - destruct (pull_ref_regex_here "") as [[d a]|] eqn:Hhere; [|done].
    intros [= <- <- <-] ? ? ? _ _ _. cbn. lia.
  - destruct (pull_ref_regex_here (String c s)) as [[d a]|] eqn:Hhere.
    { intros [= <- <- <-] ? ? ? _ _ _. cbn. lia. }
    destruct (pull_ref_regex s) as [[[b d] a]|] eqn:Hrest; [|done].
    cbn. intros [= <- <- <-] before' digits' after' Hshape Hne Hdigits.
    destruct before' as [|c' before''].
    + change ("" +:+ ?x) with x in Hshape.
      rewrite Hshape, pull_ref_regex_here_complete in Hhere by done. done.
    + rewrite append_cons in Hshape. injection Hshape as -> Hshape.
      pose proof (IH _ _ _ eq_refl _ _ _ Hshape Hne Hdigits). cbn. lia.
Qed.

(** X18. The ref that is returned is [GITHUB_REF], either as it is or with
    the first [refs/pull/<digits>/merge] in it turned into
    [refs/pull/<digits>/head], the rest of the text being kept: no other
    place where the ref reads so starts before the one that is turned. And
    it is turned only when [GITHUB_SHA] is set and is not the commit checked
    out. *)
Theorem getRef_rewrites_only_merge_refs w r w' :
  getRef w = (Ok r, w') →
  ∃ ref,
    env w !! "GITHUB_REF" = Some ref
    ∧ (r = ref
       ∨ ∃ before digits after sha checkoutSha,
           ref = before +:+ "refs/pull/" +:+ digits +:+ "/merge" +:+ after
           ∧ digits ≠ "" ∧ all_digits digits = true
           ∧ (∀ before' digits' after',
                ref = before' +:+ "refs/pull/" +:+ digits' +:+ "/merge"
                        +:+ after' →
                digits' ≠ "" → all_digits digits' = true →
                (String.length before ≤ String.length before')%nat)
           ∧ r = before +:+ "refs/pull/" +:+ digits +:+ "/head" +:+ after
           ∧ env w !! "GITHUB_SHA" = Some sha
           ∧ (getCommitOid
                (record_event (Debug ("GITHUB_REF" +:+ "=" +:+ ref)) w)).1
             = Ok checkoutSha
           ∧ checkoutSha ≠ sha).
Proof.
  unfold getRef. intros E.
  destruct (getRequiredEnvParam_cases w "GITHUB_REF")
    as [[_ Hfail]|(ref & Href & _ & Hok)].
  { by rewrite (bind_Throw _ _ _ _ _ Hfail) in E. }
  rewrite (bind_Ok _ _ _ _ _ Hok) in E. exists ref. split; [done|].
  step E Ecommit checkoutSha w2.
  destruct (pull_ref_regex ref) as [[[before digits] after]|] eqn:Hmatch;
    [|injection E as <- _; by left].
  pose proof (pull_ref_regex_leftmost _ _ _ _ Hmatch) as Hleftmost.
  apply pull_ref_regex_sound in Hmatch as (Hshape & Hne & Hdigits).
  pose proof (getCommitOid_keeps_env _ _ _ Ecommit) as Henv.
  destruct (getRequiredEnvParam_cases w2 "GITHUB_SHA")
    as [[_ Hfail]|(sha & Hsha & _ & Hok')].
  { by rewrite (bind_Throw _ _ _ _ _ Hfail) in E. }
  rewrite (bind_Ok _ _ _ _ _ Hok') in E.
  case_bool_decide as Hsame; cbn [negb] in E; injection E as <- _; [by left|].
  right. exists before, digits, after, sha, checkoutSha.
  split_and!; try done; try (by rewrite Ecommit).
  unfold keeps_env in Henv. cbn in Henv. congruence.
Qed.

(** X19. For the merge ref of a pull request, when git answers and
    [GITHUB_SHA] is set: the ref is returned as it is when the commit checked
    out is [GITHUB_SHA], and as the head ref of the pull request when it is
    another commit. *)
Theorem getRef_pull_request w number commitOid sha :
  number ≠ "" → all_digits number = true →
  env w !! "GITHUB_REF" = Some ("refs/pull/" +:+ number +:+ "/merge") →
  git_rev_parse_HEAD = Ok commitOid →
  env w !! "GITHUB_SHA" = Some sha → sha ≠ "" →
  ∃ w',
    getRef w
    = (Ok (if bool_decide (trim commitOid = sha)
           then "refs/pull/" +:+ number +:+ "/merge"
           else "refs/pull/" +:+ number +:+ "/head"), w').
Proof.
  intros Hne Hdigits Href Hgit Hsha Hsha_ne. unfold getRef.
  erewrite bind_Ok; [|by apply getRequiredEnvParam_present].
  erewrite bind_Ok;
    [|unfold getCommitOid, mbind, M_bind, emit; rewrite Hgit; reflexivity].
  rewrite pull_ref_regex_merge_ref by done.
  erewrite bind_Ok; [|by apply getRequiredEnvParam_present].
  case_bool_decide; eexists; reflexivity.
Qed.

(** *** createStatusReportBase across the phases of a job *)

Lemma getInput_keeps_world name required w r w' :
  getInput name required w = (r, w') → w' = w.
Proof.
  unfold getInput, getenv, mbind, M_bind.
  destruct (_ && _); by intros [= _ <-].
Qed.

(** X20. The identity a report carries is read from the environment of the
    call, with a default for what is missing: the empty string for the
    commit id, the workflow name and the job name, [-1] for the run id. A run
    id that is set is parsed and not checked, so that one without digits is
    reported as [NaN]. *)
Theorem createStatusReportBase_identity actionName status actionStartedAt
    cause exception w report w' :
  createStatusReportBase actionName status actionStartedAt cause exception w
  = (Ok report, w') →
  Report.commit_oid report = default "" (env w !! "GITHUB_SHA")
  ∧ Report.workflow_name report = default "" (env w !! "GITHUB_WORKFLOW")
  ∧ Report.job_name report = default "" (env w !! "GITHUB_JOB")
  ∧ Report.workflow_run_id report
    = match env w !! "GITHUB_RUN_ID" with
      | Some value => if bool_decide (value = "") then Num (-1) else parseInt value
      | None => Num (-1)
      end.
Proof.
  unfold createStatusReportBase. intros E.
  step E E1 sha w1. step E E2 ref w2. step E E3 runId w3.
  step E E4 workflow w4. step E E5 job w5. step E E6 key w6.
  step E E7 recorded w7. step E E8 startedAt w8.
  step E E9 completed w9. step E E10 matrix w10.
  injection E as <- <-.
  cbn [Report.commit_oid Report.workflow_name Report.job_name
       Report.workflow_run_id].
  injection E1 as <- <-. apply getRef_keeps_env in E2.
  injection E3 as <- <-. injection E4 as <- <-. injection E5 as <- <-.
  rewrite !E2. split_and!; [done..|].
  destruct (env w !! "GITHUB_RUN_ID") as [value|]; [|done].
  unfold truthy. cbn [default]. by case_bool_decide.
Qed.

Lemma createStatusReportBase_env actionName status actionStartedAt
    cause exception w report w' :
  createStatusReportBase actionName status actionStartedAt cause exception w
  = (Ok report, w') →
  env w' !! "CODEQL_ACTION_ANALYSIS_KEY" = Some (Report.analysis_key report)
  ∧ env w' !! CODEQL_WORKFLOW_STARTED_AT = Some (Report.started_at report)
  ∧ ∀ name,
      name ≠ "CODEQL_ACTION_ANALYSIS_KEY" → name ≠ CODEQL_WORKFLOW_STARTED_AT →
      env w' !! name = env w !! name.
Proof.
  unfold createStatusReportBase. intros E.
  step E E1 sha w1. step E E2 ref w2. step E E3 runId w3.
  step E E4 workflow w4. step E E5 job w5. step E E6 key w6.
  step E E7 recorded w7. step E E8 startedAt w8.
  step E E9 completed w9. step E E10 matrix w10.
  injection E as <- <-. cbn [Report.analysis_key Report.started_at].
  apply (getInput_keeps_world "matrix" true) in E10 as ->.
  assert (w9 = w8) as ->.
  { destruct (is_terminal status); by injection E9 as _ <-. }
  injection E1 as <- <-. apply getRef_keeps_env in E2. unfold keeps_env in E2.
  injection E3 as <- <-. injection E4 as <- <-. injection E5 as <- <-.
  apply getAnalysisKey_env in E6 as [Hkey Hrest].
  injection E7 as <- <-.
  destruct (env w6 !! CODEQL_WORKFLOW_STARTED_AT) as [t|] eqn:Hrecorded.
  - injection E8 as <- <-. split_and!; [done..|].
    intros name Hname _. by rewrite Hrest, E2.
  - unfold exportVariable, setenv, mbind, M_bind in E8.
    injection E8 as <- <-. cbn [env with_var].
    rewrite lookup_partial_alter_eq. split_and!; [|done|].
    + rewrite lookup_partial_alter_ne; [done|]. intros Heq. congruence.
    + intros name Hname Hname'. rewrite lookup_partial_alter_ne by done.
      by rewrite Hrest, E2.
Qed.

(** X21. A report that was composed leaves its analysis key and its
    workflow start time in the environment, for the later phases of the
    job, and changes no other variable. *)
Theorem createStatusReportBase_records actionName status actionStartedAt
    cause exception w report w' :
  createStatusReportBase actionName status actionStartedAt cause exception w
  = (Ok report, w') →
  env w' !! "CODEQL_ACTION_ANALYSIS_KEY" = Some (Report.analysis_key report)
  ∧ env w' !! CODEQL_WORKFLOW_STARTED_AT = Some (Report.started_at report)
  ∧ ∀ name,
      name ∉ ["CODEQL_ACTION_ANALYSIS_KEY"; CODEQL_WORKFLOW_STARTED_AT] →
      env w' !! name = env w !! name.
Proof.
  intros (Hkey & Hstarted & Hrest)%createStatusReportBase_env.
  split_and!; [done..|].
  intros name Hname. apply Hrest; intros ->; apply Hname; set_solver.
Qed.

(** X22. Two reports composed in the same job carry the same workflow start
    time and the same analysis key: in an environment like the one a first
    report left, a second report takes both from it. *)
Theorem createStatusReportBase_stable_across_phases
    actionName status actionStartedAt cause exception w report w'
    actionName2 status2 actionStartedAt2 cause2 exception2 w2 report2 w2' :
  createStatusReportBase actionName status actionStartedAt cause exception w
  = (Ok report, w') →
  env w2 = env w' →
  createStatusReportBase actionName2 status2 actionStartedAt2 cause2 exception2 w2
  = (Ok report2, w2') →
  Report.started_at report2 = Report.started_at report
  ∧ Report.analysis_key report2 = Report.analysis_key report.
Proof.
  intros (Hkey & Hstarted & _)%createStatusReportBase_env Henv.
  rewrite <- Henv in Hkey, Hstarted.
  unfold createStatusReportBase. intros E.
  step E E1 sha v1. step E E2 ref v2. step E E3 runId v3.
  step E E4 workflow v4. step E E5 job v5. step E E6 key v6.
  step E E7 recorded v7. step E E8 startedAt v8.
  step E E9 completed v9. step E E10 matrix v10.
  injection E as <- <-. cbn [Report.analysis_key Report.started_at].
  injection E1 as <- <-. apply getRef_keeps_env in E2.
  injection E3 as <- <-. injection E4 as <- <-. injection E5 as <- <-.
  unfold keeps_env in E2. rewrite <- E2 in Hkey, Hstarted.
  unfold getAnalysisKey, getenv, mbind, M_bind in E6. rewrite Hkey in E6.
  injection E6 as <- <-. injection E7 as <- <-. rewrite Hstarted in E8.
  by injection E8 as <- <-.
Qed.

Lemma getRef_logs_only : preserves logs_only getRef.
Proof. unfold getRef, getCommitOid, getRequiredEnvParam. frame. Qed.

(** X23. With an analysis key in the environment, composing a report makes
    no request, whatever its outcome. *)
Theorem createStatusReportBase_asks_nothing_when_cached actionName status
    actionStartedAt cause exception w key r w' :
  env w !! "CODEQL_ACTION_ANALYSIS_KEY" = Some key →
  createStatusReportBase actionName status actionStartedAt cause exception w
  = (r, w') →
  requests w' = requests w.
Proof.
  intros Hkey. unfold createStatusReportBase. intros E.
  step E E1 sha w1; [|discriminate E1]. injection E1 as <- <-.
  destruct (getRef w) as [[ref|e] w2] eqn:E2;
    pose proof (getRef_logs_only _ _ _ E2) as (Henv & _ & _ & Hreq).
  2: { rewrite (bind_Throw _ _ _ _ _ E2) in E. by injection E as _ <-. }
  rewrite (bind_Ok _ _ _ _ _ E2) in E.
  step E E3 runId w3; [|discriminate E3].
  step E E4 workflow w4; [|discriminate E4].
  step E E5 job w5; [|discriminate E5].
  injection E3 as <- <-. injection E4 as <- <-. injection E5 as <- <-.
  rewrite <- Henv in Hkey.
  step E E6 key' w6; unfold getAnalysisKey, getenv, mbind, M_bind in E6;
    rewrite Hkey in E6; [|done]. injection E6 as <- <-.
  step E E7 recorded w7; [|discriminate E7]. injection E7 as <- <-.
  step E E8 startedAt w8;
    (assert (requests w8 = requests w2) as Hreq8 by
       (destruct (env w2 !! CODEQL_WORKFLOW_STARTED_AT);
        unfold exportVariable, setenv, mbind, M_bind, mret, M_ret in E8;
        by injection E8 as _ <-));
    [|congruence].
  step E E9 completed w9;
    (assert (w9 = w8) as -> by
       (destruct (is_terminal status);
        unfold new_Date, mbind, M_bind, mret, M_ret in E9;
        by injection E9 as _ <-));
    [|congruence].
  step E E10 matrix w10;
    apply (getInput_keeps_world "matrix" true) in E10 as ->; [|congruence].
  injection E as _ <-. congruence.
Qed.

(** *** prepareLocalRunEnvironment *)

Lemma getAnalysisKey_set w :
  truthy (env w !! "CODEQL_ACTION_ANALYSIS_KEY") = true →
  ∃ key, getAnalysisKey w = (Ok key, w).
Proof.
  unfold getAnalysisKey, getenv, mbind, M_bind.
  destruct (env w !! "CODEQL_ACTION_ANALYSIS_KEY"); [by eexists|done].
Qed.

(** X24. In a local run the preparation leaves a job name and an analysis
    key in the environment, keeping those that were set and touching no
    other variable, so that the analysis key is then had without any request;
    outside a local run it does nothing. *)
Theorem prepareLocalRunEnvironment_ensures w :
  ∃ w',
    prepareLocalRunEnvironment w = (Ok (), w')
    ∧ requests w' = requests w
    ∧ if isLocalRun (env w) then
        truthy (env w' !! "GITHUB_JOB") = true
        ∧ truthy (env w' !! "CODEQL_ACTION_ANALYSIS_KEY") = true
        ∧ (truthy (env w !! "GITHUB_JOB") = true →
           env w' !! "GITHUB_JOB" = env w !! "GITHUB_JOB")
        ∧ (truthy (env w !! "CODEQL_ACTION_ANALYSIS_KEY") = true →
           env w' !! "CODEQL_ACTION_ANALYSIS_KEY"
           = env w !! "CODEQL_ACTION_ANALYSIS_KEY")
        ∧ (∀ name, name ≠ "GITHUB_JOB" → name ≠ "CODEQL_ACTION_ANALYSIS_KEY" →
           env w' !! name = env w !! name)
        ∧ ∃ key, getAnalysisKey w' = (Ok key, w')
      else w' = w.
Proof.
  unfold prepareLocalRunEnvironment. unfold mbind at 1, M_bind at 1.
  destruct (isLocalRun (env w)); cbn [negb]; [|by eexists].
  unfold mbind at 1 2, M_bind at 1 2, emit, getenv. cbn [env record_event].
  set (w1 := record_event _ w).
  assert (∃ w2,
            when (negb (truthy (env w !! "GITHUB_JOB")))
              (exportVariable "GITHUB_JOB" "UNKNOWN-JOB") w1 = (Ok (), w2)
            ∧ requests w2 = requests w
            ∧ truthy (env w2 !! "GITHUB_JOB") = true
            ∧ (truthy (env w !! "GITHUB_JOB") = true →
               env w2 !! "GITHUB_JOB" = env w !! "GITHUB_JOB")
            ∧ (∀ name, name ≠ "GITHUB_JOB" → env w2 !! name = env w !! name))
    as (w2 & Hwhen & Hreq2 & Hjob2 & Hkeep2 & Hother2).
  { destruct (truthy (env w !! "GITHUB_JOB")) eqn:Hjob; cbn [negb when].
    - by exists w1.
    - eexists. split; [reflexivity|]. cbn [env with_var trace].
      rewrite lookup_partial_alter_eq. split_and!; try done.
      intros name Hname. by rewrite lookup_partial_alter_ne. }
  rewrite (bind_Ok _ _ _ _ _ Hwhen). unfold mbind at 1, M_bind at 1.
  destruct (truthy (env w2 !! "CODEQL_ACTION_ANALYSIS_KEY")) eqn:Hkey;
    cbn [negb when].
  - exists w2. split; [done|]. split; [done|]. split_and!; try done.
    + intros _. by apply Hother2.
    + intros name Hjob' _. by apply Hother2.
    + by apply getAnalysisKey_set.
  - unfold mbind, M_bind, exportVariable, setenv.
    eexists. split; [reflexivity|]. cbn [env with_var trace].
    rewrite lookup_partial_alter_eq.
    rewrite (lookup_partial_alter_ne _ _ "CODEQL_ACTION_ANALYSIS_KEY" "GITHUB_JOB")
      by done.
    split_and!; try done.
    + intros Hset. rewrite Hother2 in Hkey by done. congruence.
    + intros name Hjob' Hname. rewrite lookup_partial_alter_ne by done.
      by apply Hother2.
    + apply getAnalysisKey_set. cbn [env with_var].
      by rewrite lookup_partial_alter_eq.
Qed.

(** *** combineSarifFiles and documents without a version *)

Lemma combineSarifFiles_loop_unversioned w sarifFile rest rs
    (canonical : jsval) (acc : list jsval) :
  holds_unversioned w sarifFile rs →
  combineSarifFiles_loop (sarifFile :: rest) canonical acc w =
    if strict_equal canonical JNull then
      combineSarifFiles_loop rest JNull (acc ++ rs) w
    else
      (Throw (Error ("Different SARIF versions encountered: "
                     +:+ toString canonical +:+ " and " +:+ "null")), w).
Proof.
  intros (text & o & Hfile & Hparse & Hversion & Hruns).
  cbn [combineSarifFiles_loop].
  unfold readFileSync, lift, throw, mbind, M_bind, mret, M_ret.
  rewrite Hfile, Hparse, Hversion, Hruns. cbn.
  destruct (strict_equal canonical JNull) eqn:Hnull; [done|].
  by destruct canonical as [| |?|[]| | |].
Qed.

(** X25. Documents whose version is [null] are accepted without any check
    as long as they come first: their runs are kept, and the combination
    takes the version of the first document that has one, or [null] when none
    has. *)
Theorem combineSarifFiles_leading_null_versions w version
    unversioned versioned (runsU runsV : list (list jsval)) :
  Forall2 (holds_unversioned w) unversioned runsU →
  Forall2 (λ f runs, holds_sarif w f version runs) versioned runsV →
  combineSarifFiles (unversioned ++ versioned) w
  = (Ok (JSON_stringify
           (combined (if versioned is [] then JNull else JStr version)
              (concat (runsU ++ runsV)))), w).
Proof.
  intros HU HV.
  assert (∀ acc,
            combineSarifFiles_loop (unversioned ++ versioned) JNull acc w
            = (Ok (if versioned is [] then JNull else JStr version,
                   acc ++ concat (runsU ++ runsV)), w)) as Hloop.
  { induction HU as [|f runs fs' docs' Hdoc _ IH]; intros acc.
    - cbn [app]. destruct HV as [|f runs fs' docs' Hdoc Hrest].
      + cbn. by rewrite app_nil_r.
      + rewrite (combineSarifFiles_loop_step _ _ _ _ _ _ _ Hdoc). cbn.
        rewrite (combineSarifFiles_loop_same _ _ _ _ Hrest).
        by rewrite (assoc_L (++)).
    - cbn [app]. rewrite (combineSarifFiles_loop_unversioned _ _ _ _ _ _ Hdoc).
      cbn [strict_equal]. rewrite IH. cbn [concat app].
      by rewrite (assoc_L (++)). }
  unfold combineSarifFiles. by rewrite (bind_Ok _ _ _ _ _ (Hloop [])).
Qed.

Lemma combineSarifFiles_loop_late_null w version
    versioned (runsV : list (list jsval)) sarifFile runs rest :
  Forall2 (λ f runs, holds_sarif w f version runs) versioned runsV →
  holds_unversioned w sarifFile runs →
  ∀ acc,
    combineSarifFiles_loop (versioned ++ sarifFile :: rest) (JStr version) acc w
    = (Throw (version_mismatch version "null"), w).
Proof.
  intros HV HU.
  induction HV as [|f rs fs' docs' Hdoc _ IH]; intros acc; cbn [app].
  - by rewrite (combineSarifFiles_loop_unversioned _ _ _ _ _ _ HU).
  - rewrite (combineSarifFiles_loop_step _ _ _ _ _ _ _ Hdoc). cbn.
    rewrite bool_decide_eq_true_2 by done. cbn. apply IH.
Qed.

(** X26. A document whose version is [null] that comes after a document
    with a version is a mismatch: the combination throws, naming the version
    seen so far and [null]. *)
Theorem combineSarifFiles_late_null_version w version
    versioned (runsV : list (list jsval)) sarifFile runs rest :
  versioned ≠ [] →
  Forall2 (λ f runs, holds_sarif w f version runs) versioned runsV →
  holds_unversioned w sarifFile runs →
  combineSarifFiles (versioned ++ sarifFile :: rest) w
  = (Throw (version_mismatch version "null"), w).
Proof.
  intros Hne HV HU.
  destruct HV as [|f rs fs' docs' Hdoc Hrest]; [done|].
  unfold combineSarifFiles. apply bind_Throw. cbn [app].
  rewrite (combineSarifFiles_loop_step _ _ _ _ _ _ _ Hdoc). cbn.
  by apply (combineSarifFiles_loop_late_null _ _ _ docs' _ runs).
Qed.

(** *** The first computation of the analysis key *)

(** X27. A key that is not in the environment is computed from two
    requests, the second to the address the first answered: the run of the
    workflow is asked for, then the workflow itself, and the key is the path
    of that workflow, a colon and the name of the job. *)
Theorem getAnalysisKey_computed w key w' :
  env w !! "CODEQL_ACTION_ANALYSIS_KEY" = None →
  getAnalysisKey w = (Ok key, w') →
  ∃ nwo run_id jobName runsResponse workflowUrl workflowResponse workflowPath,
    env w !! "GITHUB_REPOSITORY" = Some nwo
    ∧ env w !! "GITHUB_RUN_ID" = Some run_id
    ∧ env w !! "GITHUB_JOB" = Some jobName
    ∧ api_request ActionsApiClient (run_request nwo run_id).1
        (run_request nwo run_id).2 = Ok runsResponse
    ∧ get_prop (data runsResponse) "workflow_url" = Ok workflowUrl
    ∧ api_request ActionsApiClient ("GET " +:+ toString workflowUrl) []
      = Ok workflowResponse
    ∧ get_prop (data workflowResponse) "path" = Ok workflowPath
    ∧ key = toString workflowPath +:+ ":" +:+ jobName
    ∧ requests w'
      = [Request ActionsApiClient ("GET " +:+ toString workflowUrl) [];
         Request ActionsApiClient (run_request nwo run_id).1
           (run_request nwo run_id).2] ++ requests w.
Proof.
  intros Hnone E. unfold getAnalysisKey in E.
  unfold mbind at 1, M_bind at 1, getenv at 1 in E. rewrite Hnone in E.
  step E Epath workflowPath w1. step E Ejob jobName w2. step E Eset u w3.
  injection E as <- <-.
  unfold exportVariable, setenv in Eset. injection Eset as _ <-.
  unfold getWorkflowPath in Epath.
  destruct (getRequiredEnvParam_cases w "GITHUB_REPOSITORY")
    as [[_ Hfail]|(nwo & Hnwo & _ & Hok)].
  { by rewrite (bind_Throw _ _ _ _ _ Hfail) in Epath. }
  rewrite (bind_Ok _ _ _ _ _ Hok) in Epath.
  set (wa := record_event _ w) in *.
  destruct (getRequiredEnvParam_cases wa "GITHUB_RUN_ID")
    as [[_ Hfail]|(run_id & Hrun & _ & Hok2)].
  { by rewrite (bind_Throw _ _ _ _ _ Hfail) in Epath. }
  rewrite (bind_Ok _ _ _ _ _ Hok2) in Epath.
  set (wb := record_event _ wa) in *.
  step Epath E1 runsResponse wc. step Epath E2 workflowUrl wd.
  step Epath E3 workflowResponse we.
  unfold request, emit, lift, mbind, M_bind in E1, E3.
  destruct (api_request _ _ _) as [r1|] eqn:Hr1 in E1; [|done].
  injection E1 as <- <-.
  unfold lift in E2.
  destruct (get_prop (data r1) "workflow_url") as [url|] eqn:Hurl; [|done].
  injection E2 as <- <-.
  destruct (api_request _ _ _) as [r2|] eqn:Hr2 in E3; [|done].
  injection E3 as <- <-.
  unfold lift in Epath.
  destruct (get_prop (data r2) "path") as [path|] eqn:Hpath; [|done].
  injection Epath as <- <-.
  destruct (getRequiredEnvParam_cases
              (record_event (Request ActionsApiClient ("GET " +:+ toString url) [])
                 (record_event
                    (Request ActionsApiClient (run_request nwo run_id).1
                       (run_request nwo run_id).2) wb)) "GITHUB_JOB")
    as [[_ Hfail]|(job & Hjob & _ & Hok3)].
  { unfold run_request in Hfail. cbn [fst snd] in Hfail. congruence. }
  unfold run_request in Hok3. cbn [fst snd] in Hok3.
  rewrite Hok3 in Ejob. injection Ejob as <- <-.
  exists nwo, run_id, job, r1, url, r2, path.
  split_and!; done.
Qed.

(** *** createStatusReportBase and the matrix input *)

(** X28. A report is composed only when the [matrix] input is supplied; the
    report carries that input trimmed, and none when it is made of white
    space only. *)
Theorem createStatusReportBase_needs_matrix actionName status actionStartedAt
    cause exception w report w' :
  CODEQL_WORKFLOW_STARTED_AT ≠ "INPUT_MATRIX" →
  createStatusReportBase actionName status actionStartedAt cause exception w
  = (Ok report, w') →
  ∃ value,
    env w !! "INPUT_MATRIX" = Some value ∧ value ≠ ""
    ∧ Report.matrix_vars report
      = (if bool_decide (trim value = "") then None else Some (trim value)).
Proof.
  intros Hname E.
  destruct (createStatusReportBase_env _ _ _ _ _ _ _ _ E) as (_ & _ & Hrest).
  specialize (Hrest "INPUT_MATRIX" ltac:(done) ltac:(congruence)).
  unfold createStatusReportBase in E.
  step E E1 sha w1. step E E2 ref w2. step E E3 runId w3.
  step E E4 workflow w4. step E E5 job w5. step E E6 key w6.
  step E E7 recorded w7. step E E8 startedAt w8.
  step E E9 completed w9. step E E10 matrix w10.
  injection E as <- <-. cbn [Report.matrix_vars].
  pose proof (getInput_keeps_world "matrix" true _ _ _ E10) as ->.
  unfold getRequiredInput, getInput, getenv, mbind, M_bind in E10.
  change ("INPUT_" +:+ input_name "matrix") with "INPUT_MATRIX" in E10.
  rewrite Hrest in E10.
  destruct (env w !! "INPUT_MATRIX") as [value|] eqn:Hvalue; [|done].
  cbn [default andb] in E10. case_bool_decide as Hempty; [done|].
  injection E10 as <-. exists value. split_and!; [done..|].
  unfold if_set, truthy. by destruct (bool_decide (trim value = "")).
Qed.

End Properties.


(** * The scenario, checked against the theorems *)

Lemma holds_a :
  holds_sarif (H := Scenario.github) (Scenario.world []) "/out/a.sarif" "2.1.0"
    [Scenario.a_run].
Proof.
  exists (Scenario.stringify Scenario.a_doc), Scenario.a_doc.
  split_and!; vm_compute; reflexivity.
Defined.

Lemma holds_b :
  holds_sarif (H := Scenario.github) (Scenario.world []) "/out/b.sarif" "2.1.0"
    [Scenario.b_run].
Proof.
  exists (Scenario.stringify Scenario.b_doc), Scenario.b_doc.
  split_and!; vm_compute; reflexivity.
Defined.

Lemma holds_old :
  holds_sarif (H := Scenario.github) (Scenario.world []) "/old.sarif" "2.0.0"
    [Scenario.a_run].
Proof.
  exists (Scenario.stringify Scenario.old_doc), Scenario.old_doc.
  split_and!; vm_compute; reflexivity.
Defined.

Lemma combineSarifFiles_concatenates_runs_witness :
  combineSarifFiles (H := Scenario.github) ["/out/a.sarif"; "/out/b.sarif"]
    (Scenario.world [])
  = (Ok (Scenario.stringify Scenario.ab_doc), Scenario.world []).
Proof.
  apply (combineSarifFiles_concatenates_runs (H := Scenario.github)
           (Scenario.world []) "2.1.0" ["/out/a.sarif"; "/out/b.sarif"]
           [[Scenario.a_run]; [Scenario.b_run]]).
  - discriminate.
  - repeat constructor; [apply holds_a|apply holds_b].
Defined.

Lemma combineSarifFiles_version_mismatch_witness :
  ∃ first other k,
    head ["2.1.0"; "2.0.0"] = Some first
    ∧ ["2.1.0"; "2.0.0"] !! k = Some other ∧ other ≠ first
    ∧ (∀ n v, (n < k)%nat → ["2.1.0"; "2.0.0"] !! n = Some v → v = first)
    ∧ combineSarifFiles (H := Scenario.github) ["/out/a.sarif"; "/old.sarif"]
        (Scenario.world [])
      = (Throw (version_mismatch first other), Scenario.world []).
Proof.
  apply (combineSarifFiles_version_mismatch (H := Scenario.github)
           (Scenario.world []) ["/out/a.sarif"; "/old.sarif"]
           [("2.1.0", [Scenario.a_run]); ("2.0.0", [Scenario.a_run])]
           0 1 ("2.1.0", [Scenario.a_run]) ("2.0.0", [Scenario.a_run])).
  - repeat constructor; [apply holds_a|apply holds_old].
  - reflexivity.
  - reflexivity.
  - discriminate.
Defined.

Lemma uploadFiles_once_per_job_witness :
  uploadFiles_guard actions
    (record_event (uploading (H := Scenario.github) ["/out/a.sarif"])
       (Scenario.world []))
  = (Ok (), with_var sentinelEnvVar (Some sentinelEnvVar)
              (record_event (uploading (H := Scenario.github) ["/out/a.sarif"])
                 (Scenario.world [])))
  ∧ (∀ w2,
       env w2 !! sentinelEnvVar
       = env (Scenario.upload_of ["/out/a.sarif"] actions (Scenario.world [])).2
           !! sentinelEnvVar →
       Scenario.upload_of ["/report.json"] actions w2
       = (Throw only_one_upload,
          record_event (uploading (H := Scenario.github) ["/report.json"]) w2))
  ∧ ignores sentinelEnvVar (Scenario.upload_of ["/report.json"] standalone).
Proof.
  apply (uploadFiles_once_per_job (H := Scenario.github)
           ["/out/a.sarif"] Scenario.nwo "0a1b2c3" "refs/heads/main" None None
           None "/checkout" None "token" "https://github.com"
           ["/report.json"] Scenario.nwo "0a1b2c3" "refs/heads/main" None None
           None "/checkout" None "token" "https://github.com"
           (Scenario.world [])
           (Scenario.upload_of ["/out/a.sarif"] actions (Scenario.world [])).1
           (Scenario.upload_of ["/out/a.sarif"] actions (Scenario.world [])).2).
  - reflexivity.
  - apply surjective_pairing.
Defined.


Lemma uploadFiles_reported_sizes_witness :
  ∃ combinedText sarifPayload,
    combineSarifFiles (H := Cases.accepting) ["/accent.sarif"] (Cases.world [])
    = (Ok combinedText, Cases.world [])
    ∧ addFingerprints (Platform := Cases.accepting) combinedText "/checkout"
      = Ok sarifPayload
    ∧ Num 99 = Num (Z.of_nat (js_length sarifPayload))
    ∧ Num 103
      = Num (Z.of_nat (js_length
                         (toString_base64 (Platform := Cases.accepting)
                            (gzipSync (Platform := Cases.accepting) sarifPayload)))).
Proof.
  apply (uploadFiles_reported_sizes (H := Cases.accepting)
           ["/accent.sarif"] Scenario.nwo "0a1b2c3"
           "refs/heads/main" None None None "/checkout" None "token"
           "https://github.com" actions (Cases.world [])
           {| raw_upload_size_bytes := Num 99;
              zipped_upload_size_bytes := Num 103;
              num_results_in_sarif := JNum (Num 1) |}
           (uploadFiles (H := Cases.accepting) ["/accent.sarif"] Scenario.nwo
              "0a1b2c3" "refs/heads/main" None None None "/checkout" None
              "token" "https://github.com" actions (Cases.world [])).2).
  vm_compute. reflexivity.
Defined.

Lemma validates_a :
  validates (H := Scenario.github) (Scenario.world [("TEST_MODE", "true")])
    "/out/a.sarif".
Proof.
  exists (Scenario.stringify Scenario.a_doc), Scenario.a_doc.
  split_and!; vm_compute; reflexivity.
Defined.

Lemma validates_b :
  validates (H := Scenario.github) (Scenario.world [("TEST_MODE", "true")])
    "/out/b.sarif".
Proof.
  exists (Scenario.stringify Scenario.b_doc), Scenario.b_doc.
  split_and!; vm_compute; reflexivity.
Defined.

Lemma uploadFiles_test_mode_witness :
  (∀ r w',
     Scenario.upload_of ["/out/a.sarif"; "/out/b.sarif"] actions
       (Scenario.world [("TEST_MODE", "true")]) = (r, w') →
     requests w' = requests (Scenario.world [("TEST_MODE", "true")]))
  ∧ ∃ w',
      Scenario.upload_of ["/out/a.sarif"; "/out/b.sarif"] actions
        (Scenario.world [("TEST_MODE", "true")])
      = (Ok {| raw_upload_size_bytes := Num 175;
               zipped_upload_size_bytes := Num 179;
               num_results_in_sarif := JNum (Num 2) |}, w').
Proof.
  destruct (uploadFiles_test_mode (H := Scenario.github)
              ["/out/a.sarif"; "/out/b.sarif"] Scenario.nwo "0a1b2c3"
              "refs/heads/main" None None None "/checkout" None "token"
              "https://github.com" actions
              (Scenario.world [("TEST_MODE", "true")]) eq_refl)
    as [Hquiet Hreport].
  split; [exact Hquiet|].
  apply (Hreport (Scenario.stringify Scenario.ab_doc)
           (Scenario.stringify Scenario.ab_doc) ["CodeQL"; "ESLint"]
           (JNum (Num 2))).
  - right. reflexivity.
  - repeat constructor; [apply validates_a|apply validates_b].
  - vm_compute. reflexivity.
  - reflexivity.
  - reflexivity.
  - vm_compute. reflexivity.
Defined.

Lemma upload_selects_files_witness :
  ∃ selected,
    (∃ names,
       names = filter (λ f, endsWith f ".sarif" = true)
                 ["a.sarif"; "notes.txt"; "b.sarif"]
       ∧ (∀ f, f ∈ names ↔
               f ∈ ["a.sarif"; "notes.txt"; "b.sarif"]
               ∧ ∃ stem, f = stem +:+ ".sarif")
       ∧ selected = map (path_resolve (Platform := Scenario.github) "/out") names)
    ∧ upload (H := Scenario.github) "/out" Scenario.nwo "0a1b2c3"
        "refs/heads/main" None None None "/checkout" None "token"
        "https://github.com" actions (Scenario.world [])
      = match selected with
        | [] => (Throw (no_sarif_files "/out"), Scenario.world [])
        | _ => Scenario.upload_of selected actions (Scenario.world [])
        end.
Proof.
  apply (upload_selects_files (H := Scenario.github) Scenario.nwo "0a1b2c3"
           "refs/heads/main" None None None "/checkout" None "token"
           "https://github.com" actions "/out"
           (Dir ["a.sarif"; "notes.txt"; "b.sarif"]) (Scenario.world [])).
  reflexivity.
Defined.

Lemma sendStatusReport_classifies_witness :
  ∃ result w',
    sendStatusReport (H := Scenario.platform 404 (Ok "0a1b2c3")) (JObj []) None
      Scenario.anonymous_job
    = (Ok result, w')
    ∧ (result = false ↔ None ≠ Some true ∧ (404 = 403 ∨ 404 = 404))
    ∧ (marked_failed w' ↔ result = false).
Proof.
  apply (sendStatusReport_classifies (H := Scenario.platform 404 (Ok "0a1b2c3"))
           Scenario.anonymous_job (JObj []) None "octo/demo"
           {| status := 404;
              data := JObj [("workflow_url", JStr "https://api.github.com/w/1");
                            ("path", JStr ".github/workflows/codeql.yml")] |}).
  - reflexivity.
  - discriminate.
  - reflexivity.
  - reflexivity.
  - discriminate.
  - reflexivity.
Defined.

Lemma createStatusReportBase_completed_at_witness :
  Report.status Scenario.success_report = Report.success
  ∧ (is_Some (Report.completed_at Scenario.success_report) ↔
     Report.success = Report.success ∨ Report.success = Report.failure
     ∨ Report.success = Report.aborted)
  ∧ (Report.success = Report.starting →
     Report.completed_at Scenario.success_report = None).
Proof.
  apply (createStatusReportBase_completed_at (H := Scenario.github) Report.init
           Report.success 1599999999000 None None Scenario.anonymous_job
           Scenario.success_report
           (createStatusReportBase (H := Scenario.github) Report.init
              Report.success 1599999999000 None None Scenario.anonymous_job).2).
  vm_compute. reflexivity.
Defined.

Lemma createStatusReportBase_missing_identity_witness :
  (∃ e w',
     createStatusReportBase (H := Scenario.github) Report.init Report.starting
       1599999999000 None None (Scenario.world [("GITHUB_RUN_ID", "42")])
     = (Throw e, w'))
  ∧ (∃ report w',
       createStatusReportBase (H := Scenario.github) Report.init
         Report.starting 1599999999000 None None Scenario.anonymous_job
       = (Ok report, w')
       ∧ (absent Scenario.anonymous_job "GITHUB_RUN_ID" →
          Report.workflow_run_id report = Num (-1))
       ∧ (absent Scenario.anonymous_job "GITHUB_SHA" →
          Report.commit_oid report = "")
       ∧ (absent Scenario.anonymous_job "GITHUB_WORKFLOW" →
          Report.workflow_name report = "")
       ∧ (absent Scenario.anonymous_job "GITHUB_JOB" →
          Report.job_name report = "")).
Proof.
  split.
  - apply (proj1 (createStatusReportBase_missing_identity
                    (H := Scenario.github) Report.init Report.starting
                    1599999999000 None None
                    (Scenario.world [("GITHUB_RUN_ID", "42")]))).
    left. reflexivity.
  - apply (proj2 (createStatusReportBase_missing_identity
                    (H := Scenario.github) Report.init Report.starting
                    1599999999000 None None Scenario.anonymous_job)
             "refs/heads/main" ".github/workflows/codeql.yml:analyze" "null").
    + reflexivity.
    + discriminate.
    + right. split; [by eexists|reflexivity].
    + reflexivity.
    + reflexivity.
    + discriminate.
    + discriminate.
Defined.

(** C6, as the specification has it, does not hold: in a job that has no
    run id, no job name and no commit id the report is composed all the same,
    with [-1] and empty strings in their place. *)
Lemma createStatusReportBase_defaults_counterexample :
  absent Scenario.anonymous_job "GITHUB_RUN_ID"
  ∧ absent Scenario.anonymous_job "GITHUB_JOB"
  ∧ absent Scenario.anonymous_job "GITHUB_SHA"
  ∧ (createStatusReportBase (H := Scenario.github) Report.init Report.success
       1599999999000 None None Scenario.anonymous_job).1
    = Ok Scenario.success_report
  ∧ Report.workflow_run_id Scenario.success_report = Num (-1)
  ∧ Report.job_name Scenario.success_report = ""
  ∧ Report.commit_oid Scenario.success_report = "".
Proof. split_and!; vm_compute; reflexivity. Qed.

(** ** Further checks on the scenario *)

(** The two files of the scenario hold two results together, *)
Example countResultsInSarif_scenario :
  countResultsInSarif (H := Scenario.github) (Scenario.stringify Scenario.ab_doc)
  = Ok (JNum (Num 2)).
Proof. vm_compute. reflexivity. Qed.

(** and runs of 2, 0 and 3 results count 5. *)
Example countResultsInSarif_loop_2_0_3 :
  countResultsInSarif_loop
    [JObj [("results", JArr [JNull; JNull])];
     JObj [("results", JArr [])];
     JObj [("results", JArr [JNull; JNull; JNull])]]
    (JNum (Num 0))
  = Ok (JNum (Num 5)).
Proof. reflexivity. Qed.

(** A run without [results] makes the count throw. *)
Example countResultsInSarif_loop_no_results :
  countResultsInSarif_loop [JObj [("tool", Scenario.tool)]] (JNum (Num 0))
  = Throw (TypeError "Cannot read property 'length' of undefined").
Proof. reflexivity. Qed.

(** A [version] that is JSON [null], which the schema does not accept, reads
    in the loop as no version yet: the next document sets it. *)
Example combineSarifFiles_null_version :
  combineSarifFiles (H := Scenario.github) ["/null.sarif"; "/out/a.sarif"]
    (Scenario.world [])
  = (Ok (Scenario.stringify
           (Scenario.doc "2.1.0" [Scenario.b_run; Scenario.a_run])),
     Scenario.world []).
Proof. vm_compute. reflexivity. Qed.

(** The second upload of a job, after a first one that went through. *)
Example uploadFiles_second_attempt :
  (Scenario.upload_of ["/report.json"] actions
     (Scenario.upload_of ["/out/a.sarif"] actions (Scenario.world [])).2).1
  = Throw only_one_upload.
Proof. vm_compute. reflexivity. Qed.

(** A single file is uploaded whatever its name; a directory without SARIF
    files is an error. *)
Example upload_json_file :
  (upload (H := Scenario.github) "/report.json" Scenario.nwo "0a1b2c3"
     "refs/heads/main" None None None "/checkout" None "token"
     "https://github.com" standalone (Scenario.world [])).1
  = Ok {| raw_upload_size_bytes := Num 79;
          zipped_upload_size_bytes := Num 83;
          num_results_in_sarif := JNum (Num 0) |}.
Proof. vm_compute. reflexivity. Qed.

Example upload_empty_directory :
  upload (H := Scenario.github) "/empty" Scenario.nwo "0a1b2c3"
    "refs/heads/main" None None None "/checkout" None "token"
    "https://github.com" standalone (Scenario.world [])
  = (Throw (no_sarif_files "/empty"), Scenario.world []).
Proof. vm_compute. reflexivity. Qed.

(** A 500 does not fail the job, a 403 does, and not when failures are
    ignored. *)
Example sendStatusReport_500 :
  (sendStatusReport (H := Scenario.platform 500 (Ok "0a1b2c3")) (JObj []) None
     Scenario.anonymous_job).1
  = Ok true.
Proof. vm_compute. reflexivity. Qed.

Example sendStatusReport_403 :
  (sendStatusReport (H := Scenario.platform 403 (Ok "0a1b2c3")) (JObj [])
     (Some false) Scenario.anonymous_job).1
  = Ok false.
Proof. vm_compute. reflexivity. Qed.

Example sendStatusReport_403_ignored :
  (sendStatusReport (H := Scenario.platform 403 (Ok "0a1b2c3")) (JObj [])
     (Some true) Scenario.anonymous_job).1
  = Ok true.
Proof. vm_compute. reflexivity. Qed.

(** The ref of a pull request whose head was checked out. *)
Example getRef_pull_request_head :
  (getRef (H := Scenario.github)
     (Scenario.world [("GITHUB_REF", "refs/pull/17/merge");
                      ("GITHUB_SHA", "ffffff0")])).1
  = Ok "refs/pull/17/head".
Proof. vm_compute. reflexivity. Qed.

Example parseInt_examples :
  parseInt "42" = Num 42 ∧ parseInt " -7px" = Num (-7) ∧ parseInt "run" = NaN.
Proof. split_and!; reflexivity. Qed.

(** What is parsed is a double: 2^53 + 1 reads as 2^53, 2^53 + 3 as
    2^53 + 4, and a one followed by 309 zeros as infinity. *)
Example parseInt_rounds :
  parseInt "9007199254740993" = Num 9007199254740992
  ∧ parseInt "9007199254740995" = Num 9007199254740996
  ∧ parseInt ("-1" +:+ string_of_list_ascii (replicate 309 "0"%char))
    = Infinity true.
Proof. split_and!; vm_compute; reflexivity. Qed.

Example getWorkflowRunID_rounds :
  (getWorkflowRunID Cases.late_run).1 = Ok (Num 9007199254740992).
Proof. vm_compute. reflexivity. Qed.

(** White space is more than the six characters of ASCII: a no-break space
    and a byte order mark are trimmed, and skipped before a number. *)
Example trim_examples :
  trim (utf8 [194; 160; 32; 239; 187; 191]%nat +:+ "a b"
        +:+ utf8 [226; 128; 168; 10]%nat) = "a b"
  ∧ trim (utf8 [194; 160]%nat) = ""
  ∧ parseInt (utf8 [194; 160]%nat +:+ "12") = Num 12.
Proof. split_and!; vm_compute; reflexivity. Qed.

(** The length of a string counts UTF-16 code units: one for [é], which
    takes two bytes, and two for a character outside the basic plane, which
    takes four; iterating gives the characters. *)
Example js_length_examples :
  js_length ("caf" +:+ utf8 [195; 169]%nat) = 4%nat
  ∧ String.length ("caf" +:+ utf8 [195; 169]%nat) = 5%nat
  ∧ js_length (utf8 [240; 159; 152; 128]%nat) = 2%nat
  ∧ chars ("a" +:+ utf8 [195; 169; 240; 159; 152; 128]%nat)
    = [JStr "a"; JStr (utf8 [195; 169]%nat);
       JStr (utf8 [240; 159; 152; 128]%nat)].
Proof. split_and!; vm_compute; reflexivity. Qed.

(** Files that cannot be combined, with the file that is not valid or
    without it; an upload of them reports the file that is not valid. *)
Example combineSarifFiles_of_invalid_files :
  (combineSarifFiles (H := Scenario.github)
     ["/out/a.sarif"; "/bad.sarif"; "/old.sarif"; "/nowhere.sarif"]
     (Cases.world [])).1
  = Throw (TypeError "undefined is not iterable")
  ∧ (combineSarifFiles (H := Scenario.github)
       ["/out/a.sarif"; "/old.sarif"; "/nowhere.sarif"] (Cases.world [])).1
    = Throw (version_mismatch "2.1.0" "2.0.0").
Proof. split; vm_compute; reflexivity. Qed.

(** The raw size of an upload is one less than the number of bytes of its
    payload when the payload holds one [é]. *)
Example uploadFiles_non_ascii_payload :
  (uploadFiles (H := Cases.accepting) ["/accent.sarif"] Scenario.nwo "0a1b2c3"
     "refs/heads/main" None None None "/checkout" None "token"
     "https://github.com" standalone (Cases.world [])).1
  = Ok {| raw_upload_size_bytes := Num 99;
          zipped_upload_size_bytes := Num 103;
          num_results_in_sarif := JNum (Num 1) |}
  ∧ String.length (Scenario.stringify Cases.accent_doc) = 100%nat.
Proof. split; vm_compute; reflexivity. Qed.

(** * The further properties, checked on cases *)

Lemma validateSarifFileSchema_reports_every_violation_witness :
  ∃ w',
    validateSarifFileSchema (H := Scenario.github) "/bad.sarif" (Cases.world [])
    = (Throw (not_valid_sarif "/bad.sarif" (Scenario.validate Scenario.bad_doc)), w')
    ∧ trace w'
      = concat (reverse (map error_group (Scenario.validate Scenario.bad_doc)))
        ++ trace (Cases.world [])
    ∧ env w' = env (Cases.world []) ∧ fs w' = fs (Cases.world []).
Proof.
  apply (validateSarifFileSchema_reports_every_violation (H := Scenario.github)
           (Cases.world []) "/bad.sarif"
           (Scenario.stringify Scenario.bad_doc) Scenario.bad_doc).
  - vm_compute. reflexivity.
  - vm_compute. reflexivity.
  - discriminate.
Defined.

Lemma countResultsInSarif_sums_witness :
  countResultsInSarif (H := Scenario.github) (Scenario.stringify Scenario.ab_doc)
  = Ok (JNum (Num (Z.of_nat
         (length (concat [[Scenario.finding; Scenario.finding]; []]))))).
Proof.
  apply (countResultsInSarif_sums (H := Scenario.github) _ Scenario.ab_doc
           [Scenario.a_run; Scenario.b_run]).
  - vm_compute. reflexivity.
  - reflexivity.
  - repeat constructor.
Defined.

Lemma countResultsInSarif_missing_results_witness :
  countResultsInSarif (H := Cases.offline)
    (Scenario.stringify Cases.no_results_doc)
  = Throw (TypeError "Cannot read property 'length' of undefined").
Proof.
  apply (countResultsInSarif_missing_results (H := Cases.offline) _
           Cases.no_results_doc [Scenario.a_run]
           (JObj [("tool", Scenario.tool)]) []
           [[Scenario.finding; Scenario.finding]]).
  - vm_compute. reflexivity.
  - reflexivity.
  - repeat constructor.
  - reflexivity.
Defined.

Lemma uploadFiles_validates_all_first_witness :
  ∃ w',
    uploadFiles (H := Scenario.github)
      ["/out/a.sarif"; "/bad.sarif"; "/old.sarif"; "/nowhere.sarif"]
      Scenario.nwo "0a1b2c3" "refs/heads/main" None None None "/checkout" None
      "token" "https://github.com" actions (Cases.world [])
    = (Throw (not_valid_sarif "/bad.sarif"
                (Scenario.validate Scenario.bad_doc)), w')
    ∧ requests w' = requests (Cases.world []).
Proof.
  apply (uploadFiles_validates_all_first (H := Scenario.github)
           ["/out/a.sarif"; "/bad.sarif"; "/old.sarif"; "/nowhere.sarif"]
           Scenario.nwo "0a1b2c3" "refs/heads/main" None None None "/checkout"
           None "token" "https://github.com" actions (Cases.world [])
           ["/out/a.sarif"] "/bad.sarif" ["/old.sarif"; "/nowhere.sarif"]
           (Scenario.stringify Scenario.bad_doc) Scenario.bad_doc).
  - reflexivity.
  - right. reflexivity.
  - repeat constructor.
    exists (Scenario.stringify Scenario.a_doc), Scenario.a_doc.
    split_and!; vm_compute; reflexivity.
  - vm_compute. reflexivity.
  - vm_compute. reflexivity.
  - discriminate.
Defined.

Lemma uploadFiles_counts_the_payload_witness :
  ∃ combinedText sarifPayload,
    combineSarifFiles (H := Scenario.github) ["/out/a.sarif"; "/out/b.sarif"]
      (Scenario.world [])
    = (Ok combinedText, Scenario.world [])
    ∧ addFingerprints (Platform := Scenario.github) combinedText "/checkout"
      = Ok sarifPayload
    ∧ countResultsInSarif (H := Scenario.github) sarifPayload = Ok (JNum (Num 2)).
Proof.
  apply (uploadFiles_counts_the_payload (H := Scenario.github)
           ["/out/a.sarif"; "/out/b.sarif"] Scenario.nwo "0a1b2c3"
           "refs/heads/main" None None None "/checkout" None "token"
           "https://github.com" actions (Scenario.world [])
           {| raw_upload_size_bytes := Num 175;
              zipped_upload_size_bytes := Num 179;
              num_results_in_sarif := JNum (Num 2) |}
           (Cases.upload_on Scenario.github actions (Scenario.world [])).2).
  vm_compute. reflexivity.
Defined.

Lemma uploadFiles_changes_only_the_sentinel_witness :
  fs (Cases.upload_on Scenario.github actions (Scenario.world [])).2
  = fs (Scenario.world [])
  ∧ (∀ name, name ≠ sentinelEnvVar →
       env (Cases.upload_on Scenario.github actions (Scenario.world [])).2 !! name
       = env (Scenario.world []) !! name)
  ∧ (actions = standalone →
     env (Cases.upload_on Scenario.github actions (Scenario.world [])).2
     = env (Scenario.world [])).
Proof.
  apply (uploadFiles_changes_only_the_sentinel (H := Scenario.github)
           ["/out/a.sarif"; "/out/b.sarif"] Scenario.nwo "0a1b2c3"
           "refs/heads/main" None None None "/checkout" None "token"
           "https://github.com" actions (Scenario.world [])
           (Cases.upload_on Scenario.github actions (Scenario.world [])).1).
  apply surjective_pairing.
Defined.

Lemma uploadFiles_propagates_transport_error_witness :
  (Cases.upload_on Cases.offline standalone (Scenario.world [])).1
  = Throw Cases.refused.
Proof.
  apply (uploadFiles_propagates_transport_error (H := Cases.offline)
           ["/out/a.sarif"; "/out/b.sarif"] Scenario.nwo "0a1b2c3"
           "refs/heads/main" None None None "/checkout" None "token"
           "https://github.com" standalone (Scenario.world [])
           (Cases.upload_on Cases.offline standalone (Scenario.world [])).1
           (Cases.upload_on Cases.offline standalone (Scenario.world [])).2
           Cases.standalone_payload).
  - apply surjective_pairing.
  - vm_compute. reflexivity.
  - reflexivity.
Defined.

Lemma uploadFiles_accepts_any_response_witness :
  is_Ok (Cases.upload_on Cases.overloaded standalone (Scenario.world [])).1.
Proof.
  apply (uploadFiles_accepts_any_response (H := Cases.overloaded)
           ["/out/a.sarif"; "/out/b.sarif"] Scenario.nwo "0a1b2c3"
           "refs/heads/main" None None None "/checkout" None "token"
           "https://github.com" standalone (Scenario.world [])
           (Cases.upload_on Cases.overloaded standalone (Scenario.world [])).1
           (Cases.upload_on Cases.overloaded standalone (Scenario.world [])).2
           Cases.standalone_payload {| status := 500; data := JNull |}).
  - apply surjective_pairing.
  - vm_compute. reflexivity.
  - reflexivity.
Defined.

Lemma upload_missing_path_witness :
  upload (H := Scenario.github) "/nowhere" Scenario.nwo "0a1b2c3"
    "refs/heads/main" None None None "/checkout" None "token"
    "https://github.com" actions (Scenario.world [])
  = (Throw (Error ("Path does not exist: " +:+ "/nowhere")), Scenario.world []).
Proof.
  apply (upload_missing_path (H := Scenario.github)). reflexivity.
Defined.


Lemma getWorkflowRunID_is_a_number_witness :
  ∃ value,
    env Cases.first_phase !! "GITHUB_RUN_ID" = Some value ∧ value ≠ ""
    ∧ Num 42 = parseInt value ∧ Num 42 ≠ NaN
    ∧ (all_digits value = true → digits_value value 0 < 2 ^ 53 →
       Num 42 = Num (digits_value value 0)).
Proof.
  apply (getWorkflowRunID_is_a_number Cases.first_phase
           (Num 42) (getWorkflowRunID Cases.first_phase).2).
  vm_compute. reflexivity.
Defined.

Lemma getAnalysisKey_is_cached_witness :
  env (getAnalysisKey (H := Scenario.github) Cases.first_phase).2
    !! "CODEQL_ACTION_ANALYSIS_KEY"
  = Some ".github/workflows/codeql.yml:analyze"
  ∧ getAnalysisKey (H := Scenario.github)
      (getAnalysisKey (H := Scenario.github) Cases.first_phase).2
    = (Ok ".github/workflows/codeql.yml:analyze",
       (getAnalysisKey (H := Scenario.github) Cases.first_phase).2).
Proof.
  apply (getAnalysisKey_is_cached (H := Scenario.github) Cases.first_phase).
  vm_compute. reflexivity.
Defined.

Lemma getCommitOid_falls_back_witness :
  match git_rev_parse_HEAD (Platform := Cases.gitless) with
  | Ok commitOid =>
      (getCommitOid (H := Cases.gitless) Cases.pull_request).1
      = Ok (trim commitOid)
  | Throw _ =>
      match (getCommitOid (H := Cases.gitless) Cases.pull_request).1 with
      | Ok sha => env Cases.pull_request !! "GITHUB_SHA" = Some sha ∧ sha ≠ ""
      | Throw e =>
          e = must_be_set "GITHUB_SHA" ∧ absent Cases.pull_request "GITHUB_SHA"
      end
  end.
Proof.
  apply (getCommitOid_falls_back (H := Cases.gitless) Cases.pull_request
           (getCommitOid (H := Cases.gitless) Cases.pull_request).1
           (getCommitOid (H := Cases.gitless) Cases.pull_request).2).
  apply surjective_pairing.
Defined.

Lemma getWorkflowPath_asks_nothing_without_identity_witness :
  ∃ name w',
    getWorkflowPath (H := Scenario.github) Cases.pull_request
    = (Throw (must_be_set name), w')
    ∧ requests w' = requests Cases.pull_request.
Proof.
  apply (getWorkflowPath_asks_nothing_without_identity (H := Scenario.github)
           Cases.pull_request).
  left. vm_compute. reflexivity.
Defined.

Lemma sendStatusReport_skips_witness :
  ∃ w',
    sendStatusReport (H := Scenario.github) Cases.starting_report None
      (Cases.world [("GITHUB_SERVER_URL", "https://ghe.example.com")])
    = (Ok true, w')
    ∧ requests w'
      = requests (Cases.world [("GITHUB_SERVER_URL", "https://ghe.example.com")])
    ∧ ¬ marked_failed w'.
Proof.
  apply (sendStatusReport_skips (H := Scenario.github) _ _ _
           "https://ghe.example.com").
  - vm_compute. reflexivity.
  - discriminate.
  - left. discriminate.
Defined.

Lemma sendStatusReport_one_request_witness :
  requests
    (sendStatusReport (H := Cases.offline) Cases.starting_report None
       Scenario.anonymous_job).2
  = requests Scenario.anonymous_job
  ∨ ∃ nwo,
      env Scenario.anonymous_job !! "GITHUB_REPOSITORY" = Some nwo
      ∧ requests
          (sendStatusReport (H := Cases.offline) Cases.starting_report None
             Scenario.anonymous_job).2
        = Request ActionsApiClient
            (status_request nwo (Scenario.stringify Cases.starting_report)).1
            (status_request nwo (Scenario.stringify Cases.starting_report)).2
          :: requests Scenario.anonymous_job
      ∧ ∀ e,
          api_request (Platform := Cases.offline) ActionsApiClient
            (status_request nwo (Scenario.stringify Cases.starting_report)).1
            (status_request nwo (Scenario.stringify Cases.starting_report)).2
          = Throw e →
          (sendStatusReport (H := Cases.offline) Cases.starting_report None
             Scenario.anonymous_job).1 = Throw e
          ∧ ¬ marked_failed
                (sendStatusReport (H := Cases.offline) Cases.starting_report
                   None Scenario.anonymous_job).2.
Proof.
  apply (sendStatusReport_one_request (H := Cases.offline)
           Scenario.anonymous_job Cases.starting_report None).
  apply surjective_pairing.
Defined.

Lemma getRef_rewrites_only_merge_refs_witness :
  ∃ ref,
    env Cases.twice_merged !! "GITHUB_REF" = Some ref
    ∧ ("refs/pull/1/head/refs/pull/2/merge" = ref
       ∨ ∃ before digits after sha checkoutSha,
           ref = before +:+ "refs/pull/" +:+ digits +:+ "/merge" +:+ after
           ∧ digits ≠ "" ∧ all_digits digits = true
           ∧ (∀ before' digits' after',
                ref = before' +:+ "refs/pull/" +:+ digits' +:+ "/merge"
                        +:+ after' →
                digits' ≠ "" → all_digits digits' = true →
                (String.length before ≤ String.length before')%nat)
           ∧ "refs/pull/1/head/refs/pull/2/merge"
             = before +:+ "refs/pull/" +:+ digits +:+ "/head" +:+ after
           ∧ env Cases.twice_merged !! "GITHUB_SHA" = Some sha
           ∧ (getCommitOid (H := Scenario.github)
                (record_event (Debug ("GITHUB_REF" +:+ "=" +:+ ref))
                   Cases.twice_merged)).1
             = Ok checkoutSha
           ∧ checkoutSha ≠ sha).
Proof.
  apply (getRef_rewrites_only_merge_refs (H := Scenario.github)
           Cases.twice_merged "refs/pull/1/head/refs/pull/2/merge"
           (getRef (H := Scenario.github) Cases.twice_merged).2).
  vm_compute. reflexivity.
Defined.

Lemma getRef_pull_request_witness :
  ∃ w',
    getRef (H := Scenario.github) Cases.pull_request
    = (Ok (if bool_decide (trim "0a1b2c3" = "ffffff0")
           then "refs/pull/" +:+ "17" +:+ "/merge"
           else "refs/pull/" +:+ "17" +:+ "/head"), w').
Proof.
  apply (getRef_pull_request (H := Scenario.github) Cases.pull_request "17"
           "0a1b2c3" "ffffff0").
  - discriminate.
  - reflexivity.
  - vm_compute. reflexivity.
  - reflexivity.
  - vm_compute. reflexivity.
  - discriminate.
Defined.

Lemma createStatusReportBase_identity_witness :
  Report.commit_oid Scenario.success_report
  = default "" (env Scenario.anonymous_job !! "GITHUB_SHA")
  ∧ Report.workflow_name Scenario.success_report
    = default "" (env Scenario.anonymous_job !! "GITHUB_WORKFLOW")
  ∧ Report.job_name Scenario.success_report
    = default "" (env Scenario.anonymous_job !! "GITHUB_JOB")
  ∧ Report.workflow_run_id Scenario.success_report
    = match env Scenario.anonymous_job !! "GITHUB_RUN_ID" with
      | Some value => if bool_decide (value = "") then Num (-1) else parseInt value
      | None => Num (-1)
      end.
Proof.
  apply (createStatusReportBase_identity (H := Scenario.github) Report.init
           Report.success 1599999999000 None None Scenario.anonymous_job
           Scenario.success_report
           (createStatusReportBase (H := Scenario.github) Report.init
              Report.success 1599999999000 None None Scenario.anonymous_job).2).
  vm_compute. reflexivity.
Defined.

Lemma createStatusReportBase_records_witness :
  ∃ w',
    createStatusReportBase (H := Scenario.github) Report.init Report.success
      1599999999000 None None Scenario.anonymous_job
    = (Ok Scenario.success_report, w')
    ∧ env w' !! "CODEQL_ACTION_ANALYSIS_KEY"
      = Some (Report.analysis_key Scenario.success_report)
    ∧ env w' !! "CODEQL_WORKFLOW_STARTED_AT"
      = Some (Report.started_at Scenario.success_report)
    ∧ ∀ name,
        name ∉ ["CODEQL_ACTION_ANALYSIS_KEY"; "CODEQL_WORKFLOW_STARTED_AT"] →
        env w' !! name = env Scenario.anonymous_job !! name.
Proof.
  eexists. split; [vm_compute; reflexivity|].
  apply (createStatusReportBase_records (H := Scenario.github) Report.init
           Report.success 1599999999000 None None Scenario.anonymous_job
           Scenario.success_report).
  vm_compute. reflexivity.
Defined.

Lemma createStatusReportBase_stable_across_phases_witness :
  Report.started_at Cases.failure_report
  = Report.started_at Scenario.success_report
  ∧ Report.analysis_key Cases.failure_report
    = Report.analysis_key Scenario.success_report.
Proof.
  apply (createStatusReportBase_stable_across_phases (H := Scenario.github)
           Report.init Report.success 1599999999000 None None
           Scenario.anonymous_job Scenario.success_report
           (createStatusReportBase (H := Scenario.github) Report.init
              Report.success 1599999999000 None None Scenario.anonymous_job).2
           Report.finish Report.failure 1600000000500 (Some "out of disk") None
           (createStatusReportBase (H := Scenario.github) Report.init
              Report.success 1599999999000 None None Scenario.anonymous_job).2
           Cases.failure_report
           (createStatusReportBase (H := Scenario.github) Report.finish
              Report.failure 1600000000500 (Some "out of disk") None
              (createStatusReportBase (H := Scenario.github) Report.init
                 Report.success 1599999999000 None None
                 Scenario.anonymous_job).2).2).
  - vm_compute. reflexivity.
  - reflexivity.
  - vm_compute. reflexivity.
Defined.

Lemma createStatusReportBase_asks_nothing_when_cached_witness :
  requests
    (createStatusReportBase (H := Scenario.github) Report.init Report.success
       1599999999000 None None Scenario.anonymous_job).2
  = requests Scenario.anonymous_job.
Proof.
  apply (createStatusReportBase_asks_nothing_when_cached (H := Scenario.github)
           Report.init Report.success 1599999999000 None None
           Scenario.anonymous_job ".github/workflows/codeql.yml:analyze"
           (createStatusReportBase (H := Scenario.github) Report.init
              Report.success 1599999999000 None None Scenario.anonymous_job).1).
  - vm_compute. reflexivity.
  - apply surjective_pairing.
Defined.

Lemma holds_null :
  holds_unversioned (H := Scenario.github) (Scenario.world []) "/null.sarif"
    [Scenario.b_run].
Proof.
  exists (Scenario.stringify Scenario.null_doc), Scenario.null_doc.
  split_and!; vm_compute; reflexivity.
Qed.

Lemma combineSarifFiles_leading_null_versions_witness :
  combineSarifFiles (H := Scenario.github) (["/null.sarif"] ++ ["/out/a.sarif"])
    (Scenario.world [])
  = (Ok (Scenario.stringify
           (combined (JStr "2.1.0")
              (concat ([[Scenario.b_run]] ++ [[Scenario.a_run]])))),
     Scenario.world []).
Proof.
  apply (combineSarifFiles_leading_null_versions (H := Scenario.github)
           (Scenario.world []) "2.1.0" ["/null.sarif"] ["/out/a.sarif"]
           [[Scenario.b_run]] [[Scenario.a_run]]).
  - repeat constructor. apply holds_null.
  - repeat constructor. apply holds_a.
Defined.

Lemma combineSarifFiles_late_null_version_witness :
  combineSarifFiles (H := Scenario.github) (["/out/a.sarif"] ++ ["/null.sarif"])
    (Scenario.world [])
  = (Throw (version_mismatch "2.1.0" "null"), Scenario.world []).
Proof.
  apply (combineSarifFiles_late_null_version (H := Scenario.github)
           (Scenario.world []) "2.1.0" ["/out/a.sarif"] [[Scenario.a_run]]
           "/null.sarif" [Scenario.b_run] []).
  - discriminate.
  - repeat constructor. apply holds_a.
  - apply holds_null.
Defined.

Lemma getAnalysisKey_computed_witness :
  ∃ nwo run_id jobName runsResponse workflowUrl workflowResponse workflowPath,
    env Cases.first_phase !! "GITHUB_REPOSITORY" = Some nwo
    ∧ env Cases.first_phase !! "GITHUB_RUN_ID" = Some run_id
    ∧ env Cases.first_phase !! "GITHUB_JOB" = Some jobName
    ∧ api_request (Platform := Scenario.github) ActionsApiClient
        (run_request (H := Scenario.github) nwo run_id).1
        (run_request (H := Scenario.github) nwo run_id).2 = Ok runsResponse
    ∧ get_prop (data runsResponse) "workflow_url" = Ok workflowUrl
    ∧ api_request (Platform := Scenario.github) ActionsApiClient
        ("GET " +:+ toString workflowUrl) []
      = Ok workflowResponse
    ∧ get_prop (data workflowResponse) "path" = Ok workflowPath
    ∧ ".github/workflows/codeql.yml:analyze"
      = toString workflowPath +:+ ":" +:+ jobName
    ∧ requests (getAnalysisKey (H := Scenario.github) Cases.first_phase).2
      = [Request ActionsApiClient ("GET " +:+ toString workflowUrl) [];
         Request ActionsApiClient
           (run_request (H := Scenario.github) nwo run_id).1
           (run_request (H := Scenario.github) nwo run_id).2]
        ++ requests Cases.first_phase.
Proof.
  apply (getAnalysisKey_computed (H := Scenario.github) Cases.first_phase).
  - vm_compute. reflexivity.
  - vm_compute. reflexivity.
Defined.

Lemma createStatusReportBase_needs_matrix_witness :
  ∃ value,
    env Scenario.anonymous_job !! "INPUT_MATRIX" = Some value ∧ value ≠ ""
    ∧ Report.matrix_vars Scenario.success_report
      = (if bool_decide (trim value = "") then None else Some (trim value)).
Proof.
  apply (createStatusReportBase_needs_matrix (H := Scenario.github) Report.init
           Report.success 1599999999000 None None Scenario.anonymous_job
           Scenario.success_report
           (createStatusReportBase (H := Scenario.github) Report.init
              Report.success 1599999999000 None None Scenario.anonymous_job).2).
  - discriminate.
  - vm_compute. reflexivity.
Defined.
